(** * UnifiedQueryEditor: the query execution routes and the result formatter

    A shallow embedding of the two server routes of the repository,

      - [server/route/snowflake.js]  (the warehouse route), and
      - the cluster route (the file that imports [@kubernetes/client-node]
        and spawns [kubectl]),

    together with the JavaScript built-ins they call.

    Conventions of the model.

      - A JavaScript string is a [string]: a sequence of code units below
        256 (the Latin-1 part of UTF-16).  White space, line terminators and
        case conversion are the ECMAScript ones restricted to that range.
      - A JavaScript value is a [value]; numbers are integers ([Z]), which is
        what the counts and port numbers of the orchestration API are, and
        they are printed digit by digit, as JavaScript prints the integers
        below 10^21.  A property that the source names is read from the
        value itself; a property read under a computed key ([obj[col]] in
        the formatter) is also looked up on the built-in prototypes, whose
        members the environment supplies.
      - A route handler is a computation in the monad [M]: it may throw, and
        it appends the calls it makes to its collaborators (the warehouse
        driver, the orchestration client, the spawned tool, the HTTP
        response) to a trace of [event]s.  What a collaborator answers is
        read from an environment record. *)

From Stdlib Require Import String Ascii List ZArith Bool Arith.
From Stdlib Require Import DecimalString.
Import ListNotations.
Open Scope list_scope.
Open Scope string_scope.
Open Scope nat_scope.

Set Implicit Arguments.
Set Warnings "-register-all".

(* ================================================================== *)
(** ** JavaScript strings *)

Module JsString.

Definition code (c : ascii) : nat := nat_of_ascii c.

(** [WhiteSpace] and [LineTerminator] code units below 256: TAB, LF, VT,
    FF, CR, SP and NBSP.  This is the class [\s] of regular expressions
    and the set that [String.prototype.trim] strips. *)
Definition is_space (c : ascii) : bool :=
  let n := code c in
  (n =? 9) || (n =? 10) || (n =? 11) || (n =? 12) || (n =? 13)
  || (n =? 32) || (n =? 160).

(** [LineTerminator] code units below 256: the characters that [.] in a
    regular expression does not match. *)
Definition is_line_terminator (c : ascii) : bool :=
  let n := code c in (n =? 10) || (n =? 13).

Fixpoint trimStart (s : string) : string :=
  match s with
  | String c s' => if is_space c then trimStart s' else s
  | EmptyString => EmptyString
  end.

Definition rev (s : string) : string :=
  string_of_list_ascii (List.rev (list_ascii_of_string s)).

Definition trimEnd (s : string) : string := rev (trimStart (rev s)).

(** [s.trim()] *)
Definition trim (s : string) : string := trimEnd (trimStart s).

(** [s.startsWith(p)] *)
Definition startsWith (s p : string) : bool := String.prefix p s.

(** Upper-casing of one code unit.  ASCII and Latin-1 small letters move
    down by 32; sharp s becomes two letters.  The two remaining Latin-1
    letters with an upper case (micro sign, y with diaeresis) have theirs
    outside Latin-1 and are left as they are: neither they nor their
    upper-case forms are ASCII or white space, so comparisons of an
    upper-cased text with an ASCII phrase are not affected. *)
Definition upper_char (c : ascii) : string :=
  let n := code c in
  if ((97 <=? n) && (n <=? 122))
     || ((224 <=? n) && (n <=? 254) && negb (n =? 247))
  then String (ascii_of_nat (n - 32)) EmptyString
  else if n =? 223 then "SS"
  else String c EmptyString.

(** [s.toUpperCase()] *)
Fixpoint toUpperCase (s : string) : string :=
  match s with
  | EmptyString => EmptyString
  | String c s' => upper_char c ++ toUpperCase s'
  end.

(** Canonicalisation of a code unit under the [i] flag of a regular
    expression (no [u] flag): the upper case when it is a single code
    unit, except that a non-ASCII unit never folds onto an ASCII one. *)
Definition canonicalize (c : ascii) : ascii :=
  match upper_char c with
  | String u EmptyString => u
  | _ => c
  end.

(** [s.substring(0, n)] *)
Definition substring0 (n : nat) (s : string) : string := String.substring 0 n s.

(** [xs.join(sep)] for a list of strings *)
Fixpoint join (sep : string) (xs : list string) : string :=
  match xs with
  | [] => EmptyString
  | [x] => x
  | x :: rest => x ++ sep ++ join sep rest
  end.

Definition snoc (s : string) (c : ascii) : string := s ++ String c EmptyString.

(** [s.split(sep)] for a non-empty string separator.  [skip] counts the
    code units of a separator occurrence still to be passed over; [cur]
    is the piece read since the last separator. *)
Fixpoint split_str_go (sep : string) (skip : nat) (cur s : string) : list string :=
  match s with
  | EmptyString => [cur]
  | String c s' =>
      match skip with
      | S k => split_str_go sep k cur s'
      | O =>
          if String.prefix sep s
          then cur :: split_str_go sep (String.length sep - 1) EmptyString s'
          else split_str_go sep 0 (snoc cur c) s'
      end
  end.

Definition split_str (sep s : string) : list string :=
  split_str_go sep 0 EmptyString s.

(** [s.split(re)] for a regular expression that matches no empty string.
    [m s] is the length of the match of [re] at the start of [s], if any.
    As in the built-in, the text is scanned left to right; at a match the
    piece read so far is emitted and the scan resumes after the match. *)
Fixpoint split_re_go (m : string -> option nat) (skip : nat) (cur s : string)
  : list string :=
  match s with
  | EmptyString => [cur]
  | String c s' =>
      match skip with
      | S k => split_re_go m k cur s'
      | O =>
          match m s with
          | Some (S n) => cur :: split_re_go m n EmptyString s'
          | _ => split_re_go m 0 (snoc cur c) s'
          end
      end
  end.

Definition split_re (m : string -> option nat) (s : string) : list string :=
  split_re_go m 0 EmptyString s.

(** Length of the longest prefix of [s] made of characters in [p]. *)
Fixpoint span (p : ascii -> bool) (s : string) : nat :=
  match s with
  | String c s' => if p c then S (span p s') else 0
  | EmptyString => 0
  end.

(** The expression [/\s+/]: one or more white-space characters. *)
Definition re_spaces (s : string) : option nat :=
  match span is_space s with
  | O => None
  | n => Some n
  end.

Definition backslash : ascii := ascii_of_nat 92.

Definition is_letter_s (c : ascii) : bool := code c =? 115.

(** The expression written [/\\s+/] in the source: an escaped backslash
    followed by one or more letters [s]. *)
Definition re_backslash_s (s : string) : option nat :=
  match s with
  | String c s' =>
      if code c =? 92 then
        match span is_letter_s s' with
        | O => None
        | n => Some (S n)
        end
      else None
  | EmptyString => None
  end.

(** The string literal written ['\\n'] in the source: a backslash
    followed by the letter [n] (two code units, no line feed). *)
Definition backslash_n : string := String backslash "n".

Definition LF : string := String (ascii_of_nat 10) EmptyString.

(** The text holds no backslash. *)
Fixpoint no_backslash (s : string) : bool :=
  match s with
  | EmptyString => true
  | String c s' => negb (code c =? 92) && no_backslash s'
  end.

End JsString.

(* ================================================================== *)
(** ** JavaScript values *)

Module Js.

(** The values of the program.  [VFun] is a built-in function, given by
    its [name] and its [length]: what a read by a computed key finds on a
    built-in prototype. *)
Inductive value : Type :=
| VUndefined
| VNull
| VBool (b : bool)
| VNum (n : Z)
| VStr (s : string)
| VArr (items : list value)
| VObj (fields : list (string * value))
| VFun (name : string) (length : nat).

(** The outcome of evaluating an expression or awaiting a promise: a
    value, or an exception (a rejection) carrying [error.message]. *)
Inductive result (A : Type) : Type :=
| Ok (a : A)
| Throw (message : string).
Arguments Ok {A} a.
Arguments Throw {A} message.

Definition bind {A B} (r : result A) (k : A -> result B) : result B :=
  match r with
  | Ok a => k a
  | Throw e => Throw e
  end.

(** [xs.map(f)] where [f] may throw: the first exception aborts the map. *)
Fixpoint mapM {A B} (f : A -> result B) (xs : list A) : result (list B) :=
  match xs with
  | [] => Ok []
  | x :: rest =>
      bind (f x) (fun y => bind (mapM f rest) (fun ys => Ok (y :: ys)))
  end.

(** [ToBoolean] *)
Definition truthy (v : value) : bool :=
  match v with
  | VUndefined | VNull => false
  | VBool b => b
  | VNum n => negb (n =? 0)%Z
  | VStr s => negb (s =? "")%string
  | VArr _ | VObj _ | VFun _ _ => true
  end.

(** [a || b] *)
Definition or_else (a b : value) : value := if truthy a then a else b.

Definition nullish (v : value) : bool :=
  match v with
  | VUndefined | VNull => true
  | _ => false
  end.

(** [typeof v === 'string'] *)
Definition is_string (v : value) : bool :=
  match v with VStr _ => true | _ => false end.

(** [v === s] for a string literal [s] *)
Definition eq_str (v : value) (s : string) : bool :=
  match v with VStr t => (t =? s)%string | _ => false end.

Definition show_nat (n : nat) : string := NilZero.string_of_uint (Nat.to_uint n).

Definition show_Z (n : Z) : string := NilZero.string_of_int (Z.to_int n).

(** A property key that is a canonical array index. *)
Definition array_index (k : string) : option nat :=
  match NilZero.uint_of_string k with
  | Some u =>
      let n := Nat.of_uint u in
      if (show_nat n =? k)%string then Some n else None
  | None => None
  end.

Fixpoint assoc (k : string) (fields : list (string * value)) : option value :=
  match fields with
  | [] => None
  | (k', v) :: rest => if (k' =? k)%string then Some v else assoc k rest
  end.

(** Reading property [k] of a value that is neither [undefined] nor
    [null], for the property names the source writes out, none of which
    is the name of a member of a built-in prototype: own properties of
    objects, [length] and the elements of arrays and strings, [name] and
    [length] of functions; everything else reads as [undefined]. *)
Definition prop (v : value) (k : string) : value :=
  match v with
  | VObj fields =>
      match assoc k fields with Some x => x | None => VUndefined end
  | VArr items =>
      if (k =? "length")%string then VNum (Z.of_nat (List.length items))
      else match array_index k with
           | Some i => nth i items VUndefined
           | None => VUndefined
           end
  | VStr s =>
      if (k =? "length")%string then VNum (Z.of_nat (String.length s))
      else match array_index k with
           | Some i =>
               match String.get i s with
               | Some c => VStr (String c EmptyString)
               | None => VUndefined
               end
           | None => VUndefined
           end
  | VFun name length =>
      if (k =? "name")%string then VStr name
      else if (k =? "length")%string then VNum (Z.of_nat length)
      else VUndefined
  | _ => VUndefined
  end.

(** The own property [k] of a value, if the value has one. *)
Definition own (v : value) (k : string) : option value :=
  match v with
  | VObj fields => assoc k fields
  | VArr items =>
      if (k =? "length")%string then Some (VNum (Z.of_nat (List.length items)))
      else match array_index k with
           | Some i => nth_error items i
           | None => None
           end
  | VStr s =>
      if (k =? "length")%string then Some (VNum (Z.of_nat (String.length s)))
      else match array_index k with
           | Some i =>
               match String.get i s with
               | Some c => Some (VStr (String c EmptyString))
               | None => None
               end
           | None => None
           end
  | VFun name length =>
      if (k =? "name")%string then Some (VStr name)
      else if (k =? "length")%string then Some (VNum (Z.of_nat length))
      else None
  | _ => None
  end.

Definition show_nullish (v : value) : string :=
  match v with VNull => "null" | _ => "undefined" end.

(** [v.k] and [v[k]]: a [TypeError] on [undefined] and [null]. *)
Definition get (v : value) (k : string) : result value :=
  if nullish v
  then Throw ("Cannot read properties of " ++ show_nullish v
              ++ " (reading '" ++ k ++ "')")
  else Ok (prop v k).

(** [v?.k] and [v?.[k]] *)
Definition get_opt (v : value) (k : string) : value :=
  if nullish v then VUndefined else prop v k.

(** What [v[k]] finds for a key [k] computed at run time, on a value that
    is neither [undefined] nor [null]: the own property, or else the
    member that the prototype chain of [v] holds under that name --
    [inherited v k], [Object.prototype.toString] for an object and
    [toString] -- or else [undefined]. *)
Definition read (inherited : value -> string -> option value)
    (v : value) (k : string) : value :=
  match own v k with
  | Some x => x
  | None =>
      match inherited v k with
      | Some member => member
      | None => VUndefined
      end
  end.

(** [v[k]] for a computed key: a [TypeError] on [undefined] and [null]. *)
Definition index (inherited : value -> string -> option value)
    (v : value) (k : string) : result value :=
  if nullish v
  then Throw ("Cannot read properties of " ++ show_nullish v
              ++ " (reading '" ++ k ++ "')")
  else Ok (read inherited v k).

(** [Object.keys(v)]: own enumerable string keys, in the order the
    fields are listed. *)
Definition keys (v : value) : result (list string) :=
  match v with
  | VUndefined | VNull => Throw "Cannot convert undefined or null to object"
  | VObj fields => Ok (map fst fields)
  | VArr items => Ok (map show_nat (seq 0 (List.length items)))
  | VStr s => Ok (map show_nat (seq 0 (String.length s)))
  | VBool _ | VNum _ | VFun _ _ => Ok []
  end.

(** [ToString], as applied by template literals and [Array.prototype.join] *)
Fixpoint to_string (v : value) : string :=
  match v with
  | VUndefined => "undefined"
  | VNull => "null"
  | VBool true => "true"
  | VBool false => "false"
  | VNum n => show_Z n
  | VStr s => s
  | VArr items =>
      JsString.join ","
        (map (fun x => if nullish x then EmptyString else to_string x) items)
  | VObj _ => "[object Object]"
  | VFun name _ => "function " ++ name ++ "() { [native code] }"
  end.

(** [xs.join(sep)] on an array of values *)
Definition join (sep : string) (xs : list value) : string :=
  JsString.join sep
    (map (fun x => if nullish x then EmptyString else to_string x) xs).

(** [xs.find(p)] where the predicate may throw *)
Fixpoint find (p : value -> result bool) (xs : list value) : result value :=
  match xs with
  | [] => Ok VUndefined
  | x :: rest =>
      bind (p x) (fun b => if b then Ok x else find p rest)
  end.

End Js.

Export Js.

Declare Scope js_scope.
Delimit Scope js_scope with js.
Notation "x <- c1 ;; c2" := (Js.bind c1 (fun x => c2))
  (at level 61, c1 at next level, right associativity) : js_scope.

(* ================================================================== *)
(** ** Regular expressions

    The fragment used by the routes: literals under the [i] flag, the
    classes [\s] and [.], concatenation and the postfix operators [+] and
    [*].  [RegExp.prototype.test] asks whether some substring matches; it is
    decided with Brzozowski derivatives. *)

Module Regex.

Inductive re : Type :=
| Fail
| Eps
| Class (p : ascii -> bool)
| Seq (r1 r2 : re)
| Alt (r1 r2 : re)
| Star (r : re).

Fixpoint nullable (r : re) : bool :=
  match r with
  | Fail => false
  | Eps => true
  | Class _ => false
  | Seq r1 r2 => nullable r1 && nullable r2
  | Alt r1 r2 => nullable r1 || nullable r2
  | Star _ => true
  end.

Definition seq_ (r1 r2 : re) : re :=
  match r1, r2 with
  | Fail, _ => Fail
  | _, Fail => Fail
  | Eps, _ => r2
  | _, _ => Seq r1 r2
  end.

Definition alt_ (r1 r2 : re) : re :=
  match r1, r2 with
  | Fail, _ => r2
  | _, Fail => r1
  | _, _ => Alt r1 r2
  end.

(** The derivative of [r] by the character [c]. *)
Fixpoint deriv (c : ascii) (r : re) : re :=
  match r with
  | Fail => Fail
  | Eps => Fail
  | Class p => if p c then Eps else Fail
  | Seq r1 r2 =>
      alt_ (seq_ (deriv c r1) r2) (if nullable r1 then deriv c r2 else Fail)
  | Alt r1 r2 => alt_ (deriv c r1) (deriv c r2)
  | Star r1 => seq_ (deriv c r1) (Star r1)
  end.

(** Does [r] match the whole of [s]? *)
Fixpoint matchb (r : re) (s : string) : bool :=
  match s with
  | EmptyString => nullable r
  | String c s' => matchb (deriv c r) s'
  end.

Definition any : re := Class (fun _ => true).

(** [re.test(s)]: some substring of [s] matches. *)
Definition test (r : re) (s : string) : bool :=
  matchb (Seq (Star any) (Seq r (Star any))) s.

(** A literal character under the [i] flag. *)
Definition lit_i (c : ascii) : re :=
  Class (fun x => Ascii.eqb (JsString.canonicalize x) (JsString.canonicalize c)).

(** A literal word under the [i] flag. *)
Fixpoint word_i (w : string) : re :=
  match w with
  | EmptyString => Eps
  | String c w' => Seq (lit_i c) (word_i w')
  end.

(** [\s] *)
Definition space : re := Class JsString.is_space.

(** [.] *)
Definition dot : re := Class (fun c => negb (JsString.is_line_terminator c)).

(** [r+] *)
Definition plus (r : re) : re := Seq r (Star r).

Fixpoint cat (rs : list re) : re :=
  match rs with
  | [] => Eps
  | r :: rest => Seq r (cat rest)
  end.

(** The language of a regular expression. *)
Inductive Matches : re -> string -> Prop :=
| MEps : Matches Eps EmptyString
| MClass p c : p c = true -> Matches (Class p) (String c EmptyString)
| MSeq r1 r2 s1 s2 :
    Matches r1 s1 -> Matches r2 s2 -> Matches (Seq r1 r2) (s1 ++ s2)
| MAltL r1 r2 s : Matches r1 s -> Matches (Alt r1 r2) s
| MAltR r1 r2 s : Matches r2 s -> Matches (Alt r1 r2) s
| MStarNil r : Matches (Star r) EmptyString
| MStarApp r s1 s2 :
    Matches r s1 -> Matches (Star r) s2 -> Matches (Star r) (s1 ++ s2).

(** Some substring of [s] is in the language of [r]. *)
Definition found (r : re) (s : string) : Prop :=
  exists pre mid post, s = pre ++ mid ++ post /\ Matches r mid.

End Regex.

(* ================================================================== *)
(** ** Route handlers: exceptions, a mutable local and a call trace *)

Module Handler.

Section Monad.

(** [L]: the handler's mutable local variables; [E]: the calls it makes. *)
Variables L E : Type.

Definition M (A : Type) : Type := L * list E -> Js.result A * (L * list E).

Definition ret {A} (a : A) : M A := fun st => (Ok a, st).

Definition throw {A} (message : string) : M A := fun st => (Throw message, st).

Definition bind {A B} (m : M A) (k : A -> M B) : M B :=
  fun st =>
    match m st with
    | (Ok a, st') => k a st'
    | (Throw e, st') => (Throw e, st')
    end.

(** Record a call to a collaborator. *)
Definition emit (e : E) : M unit := fun st => (Ok tt, (fst st, (snd st ++ [e])%list)).

Definition read : M L := fun st => (Ok (fst st), st).

Definition assign (l : L) : M unit := fun st => (Ok tt, (l, snd st)).

(** [await p] for a promise that settles with [r]; also the lifting of an
    expression that may throw. *)
Definition await {A} (r : Js.result A) : M A := fun st => (r, st).

(** [try { body } catch (error) { handler(error.message) }] *)
Definition try_catch {A} (body : M A) (handler : string -> M A) : M A :=
  fun st =>
    match body st with
    | (Ok a, st') => (Ok a, st')
    | (Throw e, st') => handler e st'
    end.

(** [try { body } finally { cleanup }]: the cleanup runs however the body
    ends; an exception of the cleanup replaces the body's outcome. *)
Definition try_finally {A} (body : M A) (cleanup : M unit) : M A :=
  fun st =>
    match body st with
    | (r, st') =>
        match cleanup st' with
        | (Ok _, st'') => (r, st'')
        | (Throw e, st'') => (Throw e, st'')
        end
    end.

Definition run {A} (m : M A) (l0 : L) : Js.result A * (L * list E) := m (l0, []).

Definition trace_of {A} (out : Js.result A * (L * list E)) : list E := snd (snd out).

End Monad.

Arguments ret {L E A} a.
Arguments throw {L E A} message.
Arguments emit {L E} e.
Arguments read {L E}.
Arguments assign {L E} l.
Arguments await {L E A} r.

End Handler.

Declare Scope handler_scope.
Delimit Scope handler_scope with handler.
Notation "x <- c1 ;; c2" := (Handler.bind c1 (fun x => c2))
  (at level 61, c1 at next level, right associativity) : handler_scope.
Notation "c1 ;; c2" := (Handler.bind c1 (fun _ => c2))
  (at level 61, right associativity) : handler_scope.

(** The double quote, as a one-character string. *)
Definition dquote : string := String (ascii_of_nat 34) EmptyString.

(** The text of a value known to be a string. *)
Definition text (v : value) : string :=
  match v with VStr s => s | _ => to_string v end.

(* ================================================================== *)
(** ** The warehouse route, [server/route/snowflake.js] *)

Module Snowflake.

Local Open Scope handler_scope.

(** A connection handle of the driver. *)
Definition connection : Type := nat.

(** Calls to the driver and to the HTTP response, in the order made;
    [Connect] records what the driver answered.  Console logging is left
    out. *)
Inductive event : Type :=
| Connect (answer : Js.result connection)
| Execute (conn : connection) (sqlText : string)
| Destroy (conn : connection)
| Respond (status : nat) (body : value).

(** A column of a completed statement, as its getters answer. *)
Record column : Type := {
  getName : value;
  getType : value;
  isNullable : value
}.

(** What the driver passes to the [complete] callback. *)
Inductive completion : Type :=
| Failed (message : string)
| Completed (columns : list column) (rows : value) (statementId : value).

(** What the collaborators answer during one request. *)
Record env : Type := {
  (** [connection.connect]: the handle, or [err.message] *)
  connect : Js.result connection;
  (** [connection.execute] *)
  execute : connection -> string -> completion;
  (** [res.status(s).json(body)]: [Some m] when sending throws with message [m] *)
  send : nat -> value -> option string;
  (** the two readings of [Date.now()] *)
  startTime : Z;
  endTime : Z
}.

(** The handler's local [let connection = null]. *)
Definition M : Type -> Type := Handler.M (option connection) event.

Definition suspiciousPatterns : list Regex.re :=
  [ (* /drop\s+table/i *)
    Regex.cat [Regex.word_i "drop"; Regex.plus Regex.space; Regex.word_i "table"];
    (* /drop\s+database/i *)
    Regex.cat [Regex.word_i "drop"; Regex.plus Regex.space; Regex.word_i "database"];
    (* /delete\s+from.*where\s*1\s*=\s*1/i *)
    Regex.cat [Regex.word_i "delete"; Regex.plus Regex.space; Regex.word_i "from";
               Regex.Star Regex.dot; Regex.word_i "where"; Regex.Star Regex.space;
               Regex.word_i "1"; Regex.Star Regex.space; Regex.word_i "=";
               Regex.Star Regex.space; Regex.word_i "1"];
    (* /union.*select/i *)
    Regex.cat [Regex.word_i "union"; Regex.Star Regex.dot; Regex.word_i "select"] ].

(** [suspiciousPatterns.some(pattern => pattern.test(query))] *)
Definition isSuspicious (query : string) : bool :=
  existsb (fun pattern => Regex.test pattern query) suspiciousPatterns.

Definition invalidQuery : value :=
  VObj [("success", VBool false);
        ("error", VStr "Invalid query");
        ("message", VStr "Query must be a non-empty string")].

Definition queryBlocked : value :=
  VObj [("success", VBool false);
        ("error", VStr "Query blocked");
        ("message", VStr "Query contains potentially dangerous operations")].

Definition executionFailed (message query : string) : value :=
  VObj [("success", VBool false);
        ("error", VStr "Query execution failed");
        ("message", VStr message);
        ("query", VStr (JsString.substring0 200 query))].

Definition succeeded (data : value) (executionTime : Z) (query : string) : value :=
  VObj [("success", VBool true);
        ("data", data);
        ("executionTime", VStr (show_Z executionTime ++ "ms"));
        ("query", VStr (JsString.substring0 200 query))].

Section Route.

Variable w : env.

Definition respond (status : nat) (body : value) : M unit :=
  Handler.emit (Respond status body);;
  match send w status body with
  | Some message => Handler.throw message
  | None => Handler.ret tt
  end.

(** [createConnection()] *)
Definition createConnection : M connection :=
  Handler.emit (Connect (connect w));;
  Handler.await (connect w).

(** [executeQuery(connection, sqlText)] *)
Definition executeQuery (conn : connection) (sqlText : string) : M value :=
  Handler.emit (Execute conn sqlText);;
  match execute w conn sqlText with
  | Failed message => Handler.throw message
  | Completed cols rows statementId =>
      let columns :=
        map (fun col => VObj [("name", getName col);
                              ("type", getType col);
                              ("nullable", isNullable col)]) cols in
      Handler.ret
        (VObj [("columns", VArr (map (fun col => prop col "name") columns));
               ("columnMetadata", VArr columns);
               ("rows", or_else rows (VArr []));
               ("rowCount", if truthy rows then prop rows "length" else VNum 0);
               ("executionTime", statementId)])
  end.

(** The [finally] block of the route. *)
Definition release : M unit :=
  held <- Handler.read;;
  match held with
  | Some conn => Handler.emit (Destroy conn)
  | None => Handler.ret tt
  end.

(** The [try] block of the route with its [catch]. *)
Definition attempt (q : string) : M unit :=
  Handler.try_catch
    (conn <- createConnection;;
     Handler.assign (Some conn);;
     result <- executeQuery conn q;;
     let executionTime := (endTime w - startTime w)%Z in
     respond 200 (succeeded result executionTime q))
    (fun message => respond 500 (executionFailed message q)).

(** [router.post('/execute', ...)], applied to [req.body.query]. *)
Definition post_execute (query : value) : M unit :=
  if negb (truthy query) || negb (is_string query)
  then respond 400 invalidQuery
  else
    let q := text query in
    if isSuspicious q
    then respond 400 queryBlocked
    else
      Handler.try_finally (attempt q) release.

(** One request, from the initial state of the handler. *)
Definition handle (query : value) : Js.result unit * (option connection * list event) :=
  Handler.run (post_execute query) None.

End Route.

Definition is_destroy (e : event) : bool :=
  match e with Destroy _ => true | _ => false end.

(** The connections held after a history of calls, starting from [held]:
    a successful [Connect] acquires one, [Destroy] releases it. *)
Fixpoint held_after (held : list connection) (tr : list event) : list connection :=
  match tr with
  | [] => held
  | Connect (Ok conn) :: rest => held_after (conn :: held) rest
  | Destroy conn :: rest => held_after (List.remove Nat.eq_dec conn held) rest
  | _ :: rest => held_after held rest
  end.

(** What the [try] block and its [catch] leave behind: no connection has
    been destroyed, and the local [connection] holds exactly what the
    driver handed out. *)
Definition attempted
    (st : option connection * list event) : Prop :=
  let (held, tr) := st in
  filter is_destroy tr = []
  /\ (forall conn, In (Connect (Ok conn)) tr -> held = Some conn)
  /\ held_after [] tr
     = match held with Some conn => [conn] | None => [] end.

End Snowflake.

(* ================================================================== *)
(** ** The cluster route (kubectl commands and SQL-like resource queries) *)

Module Eks.

Local Open Scope handler_scope.

(** Calls to the orchestration client, to the spawned tool and to the HTTP
    response, in the order made. *)
Inductive event : Type :=
| InitializeKubeClient
| Spawn (command : string) (args : list string)
| ListPodForAllNamespaces
| ListDeploymentForAllNamespaces
| ListServiceForAllNamespaces
| ListNode
| Respond (status : nat) (body : value).

(** How [spawn('kubectl', ...)] ends: the [close] event of the process with
    its exit code and buffered output, or its [error] event; or [spawn]
    itself throws before there is a process, as it does on an argument that
    holds a NUL character. *)
Inductive exit : Type :=
| Close (code : Z) (stdout stderr : string)
| Error (message : string)
| Thrown (message : string).

(** What the collaborators and the platform answer during one request.
    [JSON.parse] and [JSON.stringify] are taken from the environment: JSON
    texts denote values (fractions, code units above 255) that [value] does
    not cover. *)
Record env : Type := {
  (** [initializeKubeClient()]: [Some m] when loading the configuration throws *)
  kubeconfig : option string;
  (** [spawn('kubectl', [command, ...args])] *)
  kubectl : string -> list string -> exit;
  (** [response.body.items] of the four list calls, or the rejection *)
  listPodForAllNamespaces : Js.result (list value);
  listDeploymentForAllNamespaces : Js.result (list value);
  listServiceForAllNamespaces : Js.result (list value);
  listNode : Js.result (list value);
  (** [JSON.parse(text)]: the value, or the [SyntaxError] *)
  JSON_parse : string -> Js.result value;
  (** [JSON.stringify(v, null, 2)] *)
  JSON_stringify : value -> value;
  (** the built-in prototypes: [inherited v k] is the member that the
      prototype chain of [v] holds under the name [k], if any *)
  inherited : value -> string -> option value;
  (** [res.status(s).json(body)]: [Some m] when sending throws with message [m] *)
  send : nat -> value -> option string;
  (** the two readings of [Date.now()] *)
  startTime : Z;
  endTime : Z
}.

Definition M : Type -> Type := Handler.M unit event.

(** The request body: [query] and [queryType], [VUndefined] when absent. *)
Record request : Type := {
  query : value;
  queryType : value
}.

Definition allowedCommands : list string :=
  ["get"; "describe"; "logs"; "top"; "explain";
   "api-resources"; "api-versions"; "cluster-info"].

(** [query.trim().split(/\s+/)]; the split of a trimmed text is never
    empty, so its head is [args[0]]. *)
Definition arguments (q : string) : list string :=
  JsString.split_re JsString.re_spaces (JsString.trim q).

(** The verb of a command text: [args[0]]. *)
Definition verb (q : string) : string := hd EmptyString (arguments q).

(** [result.startsWith('{') || result.startsWith('[')] *)
Definition looks_like_json (result : string) : bool :=
  JsString.startsWith result "{" || JsString.startsWith result "[".

(** [xs.includes(x)] *)
Definition includes (xs : list string) (x : string) : bool :=
  existsb (String.eqb x) xs.

Definition invalidQuery : value :=
  VObj [("success", VBool false);
        ("error", VStr "Invalid query");
        ("message", VStr "Query must be a non-empty string")].

Definition commandNotAllowed : value :=
  VObj [("success", VBool false);
        ("error", VStr "Command not allowed");
        ("message", VStr ("Only these commands are allowed: "
                          ++ JsString.join ", " allowedCommands))].

Definition executionFailed (message query : string) : value :=
  VObj [("success", VBool false);
        ("error", VStr "Query execution failed");
        ("message", VStr message);
        ("query", VStr (JsString.substring0 200 query))].

Definition succeeded (data : value) (executionTime : Z) (query : string)
    (queryType : value) : value :=
  VObj [("success", VBool true);
        ("data", data);
        ("executionTime", VStr (show_Z executionTime ++ "ms"));
        ("query", VStr (JsString.substring0 200 query));
        ("queryType", queryType)].

(** The two shapes the formatter returns. *)
Definition table (columns : list value) (rows : list (list value)) : value :=
  VObj [("columns", VArr columns);
        ("rows", VArr (map VArr rows));
        ("rowCount", VNum (Z.of_nat (List.length rows)))].

Definition message (text : value) (rowCount : Z) : value :=
  VObj [("message", text); ("rowCount", VNum rowCount)].

(** *** The projections of [executeSQLLikeQuery] *)

(** [v.k1.k2...]: each step throws on [undefined] and [null]. *)
Fixpoint path (v : value) (ks : list string) : Js.result value :=
  match ks with
  | [] => Ok v
  | k :: rest => Js.bind (get v k) (fun x => path x rest)
  end.

(** The receiver of a call [v.method(...)] of an array method: the items
    of the array; otherwise the call throws a [TypeError].  [expr] is the
    callee as the source writes it before the name of the method, with the
    [?] of an optional call. *)
Definition array_method (v : value) (expr method : string) : Js.result (list value) :=
  match v with
  | VArr items => Ok items
  | VUndefined | VNull =>
      Throw ("Cannot read properties of " ++ show_nullish v
             ++ " (reading '" ++ method ++ "')")
  | _ => Throw (expr ++ "." ++ method ++ " is not a function")
  end.

Definition project_pod (pod : value) : Js.result value :=
  (name <- path pod ["metadata"; "name"];;
   namespace <- path pod ["metadata"; "namespace"];;
   status <- path pod ["status"; "phase"];;
   created <- path pod ["metadata"; "creationTimestamp"];;
   containerStatuses <- path pod ["status"; "containerStatuses"];;
   (* containerStatuses?.[0]?.restartCount *)
   let restartCount := get_opt (get_opt containerStatuses "0") "restartCount" in
   Ok (VObj [("name", name);
             ("namespace", namespace);
             ("status", status);
             ("created", created);
             ("restarts", or_else restartCount (VNum 0))]))%js.

Definition project_deployment (deployment : value) : Js.result value :=
  (name <- path deployment ["metadata"; "name"];;
   namespace <- path deployment ["metadata"; "namespace"];;
   replicas <- path deployment ["status"; "replicas"];;
   readyReplicas <- path deployment ["status"; "readyReplicas"];;
   availableReplicas <- path deployment ["status"; "availableReplicas"];;
   created <- path deployment ["metadata"; "creationTimestamp"];;
   Ok (VObj [("name", name);
             ("namespace", namespace);
             ("replicas", or_else replicas (VNum 0));
             ("ready", or_else readyReplicas (VNum 0));
             ("available", or_else availableReplicas (VNum 0));
             ("created", created)]))%js.

(** [`${p.port}:${p.targetPort}/${p.protocol}`] *)
Definition render_port (p : value) : Js.result value :=
  (port <- get p "port";;
   targetPort <- get p "targetPort";;
   protocol <- get p "protocol";;
   Ok (VStr (to_string port ++ ":" ++ to_string targetPort
             ++ "/" ++ to_string protocol)))%js.

(** [ports?.map(p => ...).join(', ')] *)
Definition render_ports (ports : value) : Js.result value :=
  if nullish ports then Ok VUndefined
  else
    (ps <- array_method ports "service.spec.ports?" "map";;
     rendered <- mapM render_port ps;;
     Ok (VStr (Js.join ", " rendered)))%js.

Definition project_service (service : value) : Js.result value :=
  (name <- path service ["metadata"; "name"];;
   namespace <- path service ["metadata"; "namespace"];;
   type <- path service ["spec"; "type"];;
   clusterIP <- path service ["spec"; "clusterIP"];;
   ports <- path service ["spec"; "ports"];;
   rendered <- render_ports ports;;
   Ok (VObj [("name", name);
             ("namespace", namespace);
             ("type", type);
             ("clusterIP", clusterIP);
             ("ports", or_else rendered (VStr "N/A"))]))%js.

(** [c => c.type === 'Ready'] *)
Definition is_ready (c : value) : Js.result bool :=
  (type <- get c "type";; Ok (eq_str type "Ready"))%js.

Definition project_node (node : value) : Js.result value :=
  (name <- path node ["metadata"; "name"];;
   conditions <- path node ["status"; "conditions"];;
   cs <- array_method conditions "node.status.conditions" "find";;
   ready <- Js.find is_ready cs;;
   version <- path node ["status"; "nodeInfo"; "kubeletVersion"];;
   os <- path node ["status"; "nodeInfo"; "osImage"];;
   arch <- path node ["status"; "nodeInfo"; "architecture"];;
   created <- path node ["metadata"; "creationTimestamp"];;
   Ok (VObj [("name", name);
             ("status", or_else (get_opt ready "status") (VStr "Unknown"));
             ("version", version);
             ("os", os);
             ("arch", arch);
             ("created", created)]))%js.

(** *** The four resource kinds

    The route has one branch per kind; the definitions below name the
    branches so that statements can range over them. *)

Inductive kind : Type := Pods | Deployments | Services | Nodes.

Definition project (k : kind) : value -> Js.result value :=
  match k with
  | Pods => project_pod
  | Deployments => project_deployment
  | Services => project_service
  | Nodes => project_node
  end.

(** The keys of the projected object, in the order of the object literal. *)
Definition columns (k : kind) : list string :=
  match k with
  | Pods => ["name"; "namespace"; "status"; "created"; "restarts"]
  | Deployments => ["name"; "namespace"; "replicas"; "ready"; "available"; "created"]
  | Services => ["name"; "namespace"; "type"; "clusterIP"; "ports"]
  | Nodes => ["name"; "status"; "version"; "os"; "arch"; "created"]
  end.

(** [v?.k1?.k2...]: the field at the end of a path, [undefined] when the
    path leaves the object. *)
Definition lenient (v : value) (ks : list string) : value :=
  fold_left get_opt ks v.


(** [v.k] is there to be dereferenced. *)
Definition holds (v : value) (k : string) : bool :=
  negb (nullish v) && negb (nullish (prop v k)).

(** Every entry of a [ports] array is there. *)
Definition all_present (v : value) : bool :=
  match v with
  | VArr items => forallb (fun x => negb (nullish x)) items
  | _ => false
  end.

(** The entries of a [conditions] array that [find] visits -- those up to
    the first [Ready] one -- are there. *)
Fixpoint visited_present (cs : list value) : bool :=
  match cs with
  | [] => true
  | cond :: rest =>
      negb (nullish cond)
      && (eq_str (prop cond "type") "Ready" || visited_present rest)
  end.

Definition conditions_present (v : value) : bool :=
  match v with
  | VArr cs => visited_present cs
  | _ => false
  end.

(** The objects on which every dereference that the projection makes
    without a guard finds something: [metadata] and [status] (or [spec]);
    for a service, [spec.ports] absent or an array of entries; for a node,
    [status.nodeInfo] and an array [status.conditions] whose visited
    entries are there. *)
Definition shaped (k : kind) (obj : value) : bool :=
  match k with
  | Pods | Deployments => holds obj "metadata" && holds obj "status"
  | Services =>
      holds obj "metadata" && holds obj "spec"
      && (nullish (prop (prop obj "spec") "ports")
          || all_present (prop (prop obj "spec") "ports"))
  | Nodes =>
      holds obj "metadata" && holds obj "status"
      && holds (prop obj "status") "nodeInfo"
      && conditions_present (prop (prop obj "status") "conditions")
  end.



(** The falsy values of the model. *)
Definition falsy (v : value) : Prop :=
  v = VUndefined \/ v = VNull \/ v = VBool false \/ v = VNum 0
  \/ v = VStr EmptyString.

Section Route.

Variable c : env.

Definition respond (status : nat) (body : value) : M unit :=
  Handler.emit (Respond status body);;
  match send c status body with
  | Some m => Handler.throw m
  | None => Handler.ret tt
  end.

(** [initializeKubeClient()] *)
Definition initializeKubeClient : M unit :=
  Handler.emit InitializeKubeClient;;
  match kubeconfig c with
  | Some m => Handler.throw m
  | None => Handler.ret tt
  end.

(** What the [close] handler of [executeKubectl] resolves with on exit
    code 0: the [try] parses output that starts with a brace or a bracket,
    the [catch] falls back to the trimmed text. *)
Definition resolved (stdout : string) : value :=
  let result := JsString.trim stdout in
  match (if looks_like_json result
         then JSON_parse c result
         else Ok (VStr result)) with
  | Ok v => v
  | Throw _ => VStr (JsString.trim stdout)
  end.

(** [executeKubectl(command, args)] *)
Definition executeKubectl (command : string) (args : list string) : M value :=
  Handler.emit (Spawn command args);;
  match kubectl c command args with
  | Close code stdout stderr =>
      if (code =? 0)%Z
      then Handler.ret (resolved stdout)
      else Handler.throw
             ("kubectl command failed: "
              ++ text (or_else (VStr stderr) (VStr stdout)))
  | Error m => Handler.throw ("Failed to execute kubectl: " ++ m)
  | Thrown m => Handler.throw m
  end.

(** One branch of [executeSQLLikeQuery]: the list call and the projection
    of every item. *)
Definition list_and_project (call : event) (answer : Js.result (list value))
    (project : value -> Js.result value) : M value :=
  Handler.emit call;;
  items <- Handler.await answer;;
  rows <- Handler.await (mapM project items);;
  Handler.ret (VArr rows).

(** [executeSQLLikeQuery(sqlQuery)] *)
Definition executeSQLLikeQuery (sqlQuery : string) : M value :=
  initializeKubeClient;;
  let upperQuery := JsString.trim (JsString.toUpperCase sqlQuery) in
  if JsString.startsWith upperQuery "SELECT * FROM PODS" then
    list_and_project ListPodForAllNamespaces
      (listPodForAllNamespaces c) project_pod
  else if JsString.startsWith upperQuery "SELECT * FROM DEPLOYMENTS" then
    list_and_project ListDeploymentForAllNamespaces
      (listDeploymentForAllNamespaces c) project_deployment
  else if JsString.startsWith upperQuery "SELECT * FROM SERVICES" then
    list_and_project ListServiceForAllNamespaces
      (listServiceForAllNamespaces c) project_service
  else if JsString.startsWith upperQuery "SELECT * FROM NODES" then
    list_and_project ListNode (listNode c) project_node
  else
    Handler.throw
      "Unsupported SQL query. Try: SELECT * FROM PODS|DEPLOYMENTS|SERVICES|NODES".

Definition nonempty (s : string) : bool := truthy (VStr s).

(** One cell of the table built from a list of objects: [obj[col] || ''] *)
Definition cell (obj : value) (col : string) : Js.result value :=
  (x <- Js.index (inherited c) obj col;; Ok (or_else x (VStr EmptyString)))%js.

(** [formatKubernetesResult(result)] *)
Definition formatKubernetesResult (result : value) : Js.result value :=
  match result with
  | VStr s =>
      let lines :=
        filter (fun line => nonempty (JsString.trim line))
               (JsString.split_str JsString.backslash_n s) in
      if 1 <? List.length lines then
        let headers :=
          filter nonempty
                 (JsString.split_re JsString.re_backslash_s
                                    (hd EmptyString lines)) in
        let rows :=
          map (fun line =>
                 filter nonempty (JsString.split_re JsString.re_backslash_s line))
              (tl lines) in
        Ok (table (map VStr headers) (map (map VStr) rows))
      else
        Ok (message result 0)
  | VArr items =>
      match items with
      | [] => Ok (message (VStr "No results found") 0)
      | first :: _ =>
          (columns <- keys first;;
           rows <- mapM (fun obj => mapM (cell obj) columns) items;;
           Ok (table (map VStr columns) rows))%js
      end
  | _ => Ok (message (JSON_stringify c result) 1)
  end.

(** [router.post('/execute', ...)], applied to [req.body].  The inner
    computation answers [None] where the handler has returned early. *)
Definition post_execute (req : request) : M unit :=
  let query := query req in
  let queryType :=
    match queryType req with VUndefined => VStr "kubectl" | t => t end in
  if negb (truthy query) || negb (is_string query)
  then respond 400 invalidQuery
  else
    let q := text query in
    Handler.try_catch
      (result <-
         (if eq_str queryType "kubectl" then
            let args := arguments q in
            let command := hd EmptyString args in
            let commandArgs := tl args in
            if negb (includes allowedCommands command)
            then respond 400 commandNotAllowed;; Handler.ret None
            else
              v <- executeKubectl command commandArgs;;
              Handler.ret (Some v)
          else if eq_str queryType "sql" then
            v <- executeSQLLikeQuery q;;
            Handler.ret (Some v)
          else
            Handler.throw
              ("Invalid query type. Use " ++ dquote ++ "kubectl" ++ dquote
               ++ " or " ++ dquote ++ "sql" ++ dquote));;
       match result with
       | None => Handler.ret tt
       | Some result =>
           let executionTime := (endTime c - startTime c)%Z in
           data <- Handler.await (formatKubernetesResult result);;
           respond 200 (succeeded data executionTime q queryType)
       end)
      (fun m => respond 500 (executionFailed m q)).

(** One request, from the initial state of the handler. *)
Definition handle (req : request) : Js.result unit * (unit * list event) :=
  Handler.run (post_execute req) tt.

End Route.

(** A call to a backend: the orchestration client or the spawned tool. *)
Definition is_backend_call (e : event) : bool :=
  match e with Respond _ _ => false | _ => true end.

Definition is_spawn (e : event) : bool :=
  match e with Spawn _ _ => true | _ => false end.

End Eks.

(* ================================================================== *)
(** ** Scenarios

    Concrete environments and inputs at which the routes are evaluated. *)

Module Scenario.

(** The members of [Object.prototype]: what a plain object inherits.
    [__proto__] reads as the prototype itself, an object without
    enumerable properties of its own. *)
Definition object_prototype : list (string * value) :=
  [("constructor", VFun "Object" 1);
   ("__defineGetter__", VFun "__defineGetter__" 2);
   ("__defineSetter__", VFun "__defineSetter__" 2);
   ("hasOwnProperty", VFun "hasOwnProperty" 1);
   ("__lookupGetter__", VFun "__lookupGetter__" 1);
   ("__lookupSetter__", VFun "__lookupSetter__" 1);
   ("isPrototypeOf", VFun "isPrototypeOf" 1);
   ("propertyIsEnumerable", VFun "propertyIsEnumerable" 1);
   ("toString", VFun "toString" 0);
   ("valueOf", VFun "valueOf" 0);
   ("__proto__", VObj []);
   ("toLocaleString", VFun "toLocaleString" 0)].

(** The prototype chain of the plain objects of the scenarios.  The
    chains of arrays, strings, numbers and booleans hold further members;
    no scenario reads a computed key on one of those. *)
Definition builtins (v : value) (k : string) : option value :=
  match v with
  | VObj _ => assoc k object_prototype
  | _ => None
  end.

(** A warehouse that connects and completes every statement with an empty
    result set. *)
Definition warehouse_up : Snowflake.env :=
  {| Snowflake.connect := Ok 1;
     Snowflake.execute := fun _ _ => Snowflake.Completed [] (VArr []) (VStr "01b2c3");
     Snowflake.send := fun _ _ => None;
     Snowflake.startTime := 1000;
     Snowflake.endTime := 1012 |}.

(** A warehouse whose driver fails the statement, and whose response
    object throws while the error is being sent. *)
Definition warehouse_failing : Snowflake.env :=
  {| Snowflake.connect := Ok 7;
     Snowflake.execute := fun _ _ => Snowflake.Failed "SQL compilation error";
     Snowflake.send := fun _ _ => Some "write after end";
     Snowflake.startTime := 0;
     Snowflake.endTime := 0 |}.

Definition pod_running : value :=
  VObj [("metadata", VObj [("name", VStr "web-0");
                           ("namespace", VStr "default");
                           ("creationTimestamp", VStr "2024-01-01T00:00:00Z")]);
        ("status", VObj [("phase", VStr "Running");
                         ("containerStatuses",
                          VArr [VObj [("name", VStr "web");
                                      ("restartCount", VNum 3)]])])].

(** A pod that has not started a container yet: no [containerStatuses]. *)
Definition pod_pending : value :=
  VObj [("metadata", VObj [("name", VStr "job-1");
                           ("namespace", VStr "batch");
                           ("creationTimestamp", VStr "2024-01-02T00:00:00Z")]);
        ("status", VObj [("phase", VStr "Pending")])].


(** Tabular output of [kubectl get nodes]: two lines separated by a line
    feed. *)
Definition nodes_stdout : string :=
  "NAME STATUS" ++ JsString.LF ++ "node-1 Ready".

(** A log line that starts with a bracket and is not JSON. *)
Definition log_stdout : string := "[2024-01-01] started".

(** A cluster that lists [pods], and whose tool prints [stdout] and exits
    with code 0.  [JSON.parse] rejects the text it is given: in the
    scenarios below that text is [log_stdout]. *)
Definition cluster (pods : list value) (stdout : string) : Eks.env :=
  {| Eks.kubeconfig := None;
     Eks.kubectl := fun _ _ => Eks.Close 0 stdout EmptyString;
     Eks.listPodForAllNamespaces := Ok pods;
     Eks.listDeploymentForAllNamespaces := Ok [];
     Eks.listServiceForAllNamespaces := Ok [];
     Eks.listNode := Ok [];
     Eks.JSON_parse := fun _ => Throw "Unexpected token in JSON";
     Eks.JSON_stringify := fun _ => VStr "{}";
     Eks.inherited := builtins;
     Eks.send := fun _ _ => None;
     Eks.startTime := 1000;
     Eks.endTime := 1040 |}.

(** The cluster of the two pods above, with a silent tool. *)
Definition two_pods : Eks.env := cluster [pod_running; pod_pending] EmptyString.

Definition kubectl_request (q : string) : Eks.request :=
  {| Eks.query := VStr q; Eks.queryType := VUndefined |}.

Definition sql_request (q : string) : Eks.request :=
  {| Eks.query := VStr q; Eks.queryType := VStr "sql" |}.

End Scenario.

(* ================================================================== *)
(** ** The read-only warehouse routes of [server/route/snowflake.js] *)

Module SnowflakeBrowse.

Local Open Scope handler_scope.

(** A template literal, given by its lines. *)
Definition template (lines : list string) : string :=
  JsString.join JsString.LF lines.

Definition test_sql : string :=
  "SELECT CURRENT_VERSION() as VERSION, CURRENT_USER() as USER, CURRENT_DATABASE() as DATABASE".

Definition schemas_sql : string :=
  template
    [EmptyString;
     "      SELECT ";
     "        DATABASE_NAME,";
     "        SCHEMA_NAME,";
     "        SCHEMA_OWNER,";
     "        CREATED,";
     "        LAST_ALTERED";
     "      FROM INFORMATION_SCHEMA.SCHEMATA";
     "      ORDER BY DATABASE_NAME, SCHEMA_NAME";
     "    "].

Definition tables_sql : string :=
  template
    [EmptyString;
     "      SELECT ";
     "        TABLE_CATALOG,";
     "        TABLE_SCHEMA,";
     "        TABLE_NAME,";
     "        TABLE_TYPE,";
     "        CREATED,";
     "        LAST_ALTERED,";
     "        ROW_COUNT,";
     "        BYTES";
     "      FROM INFORMATION_SCHEMA.TABLES";
     "      WHERE TABLE_SCHEMA = CURRENT_SCHEMA()";
     "      ORDER BY TABLE_NAME";
     "    "].

Definition failed (error message : string) : value :=
  VObj [("success", VBool false);
        ("error", VStr error);
        ("message", VStr message)].

Definition connected (result : value) : value :=
  VObj [("success", VBool true);
        ("message", VStr "Successfully connected to Snowflake");
        ("data", result)].

Definition fetched (result : value) : value :=
  VObj [("success", VBool true); ("data", result)].

Section Routes.

Variable w : Snowflake.env.

(** The block the three routes repeat: [try] to connect, execute a fixed
    statement and answer; [catch] with status 500; [finally] destroy the
    connection. *)
Definition acquire_execute_release (sqlText : string)
    (answer : value -> value) (error : string) : Snowflake.M unit :=
  Handler.try_finally
    (Handler.try_catch
       (conn <- Snowflake.createConnection w;;
        Handler.assign (Some conn);;
        result <- Snowflake.executeQuery w conn sqlText;;
        Snowflake.respond w 200 (answer result))
       (fun message => Snowflake.respond w 500 (failed error message)))
    Snowflake.release.

(** [router.get('/test-connection', ...)] *)
Definition get_test_connection : Snowflake.M unit :=
  acquire_execute_release test_sql connected "Connection failed".

(** [router.get('/schemas', ...)] *)
Definition get_schemas : Snowflake.M unit :=
  acquire_execute_release schemas_sql fetched "Failed to fetch schemas".

(** [router.get('/tables', ...)] *)
Definition get_tables : Snowflake.M unit :=
  acquire_execute_release tables_sql fetched "Failed to fetch tables".

End Routes.

(** The three routes. *)
Inductive route : Type := TestConnection | Schemas | Tables.

Definition handler (w : Snowflake.env) (r : route) : Snowflake.M unit :=
  match r with
  | TestConnection => get_test_connection w
  | Schemas => get_schemas w
  | Tables => get_tables w
  end.

Definition statement (r : route) : string :=
  match r with
  | TestConnection => test_sql
  | Schemas => schemas_sql
  | Tables => tables_sql
  end.

Definition handle (w : Snowflake.env) (r : route)
  : Js.result unit * (option Snowflake.connection * list Snowflake.event) :=
  Handler.run (handler w r) None.

End SnowflakeBrowse.

(** The calls a warehouse handler makes to the driver: its history without
    the responses. *)
Definition driver_calls (tr : list Snowflake.event) : list Snowflake.event :=
  filter (fun e => match e with Snowflake.Respond _ _ => false | _ => true end) tr.

Definition warehouse_responses (tr : list Snowflake.event) : list (nat * value) :=
  flat_map (fun e => match e with
                     | Snowflake.Respond status body => [(status, body)]
                     | _ => []
                     end) tr.

(* ================================================================== *)
(** ** The read-only cluster routes *)

Module EksBrowse.

Local Open Scope handler_scope.

Inductive event : Type :=
| InitializeKubeClient
| ListNode
| ListNamespace
| ListNamespacedPod (namespace : string)
| Respond (status : nat) (body : value).

(** The cluster environment, and what the two list calls of these routes
    answer: [response.body.items], or the rejection. *)
Record env : Type := {
  cluster : Eks.env;
  listNamespace : Js.result (list value);
  listNamespacedPod : string -> Js.result (list value)
}.

Definition M : Type -> Type := Handler.M unit event.

(** [xs.filter(p)] where the predicate may throw *)
Fixpoint filterM {A} (p : A -> Js.result bool) (xs : list A) : Js.result (list A) :=
  match xs with
  | [] => Ok []
  | x :: rest =>
      Js.bind (p x) (fun keep =>
      Js.bind (filterM p rest) (fun kept =>
      Ok (if keep then x :: kept else kept)))
  end.

Definition failed (error message : string) : value :=
  VObj [("success", VBool false);
        ("error", VStr error);
        ("message", VStr message)].

(** The summary of a node in [/test-connection]. *)
Definition summarize_node (node : value) : Js.result value :=
  (name <- Eks.path node ["metadata"; "name"];;
   conditions <- Eks.path node ["status"; "conditions"];;
   cs <- Eks.array_method conditions "node.status.conditions" "find";;
   ready <- Js.find Eks.is_ready cs;;
   version <- Eks.path node ["status"; "nodeInfo"; "kubeletVersion"];;
   os <- Eks.path node ["status"; "nodeInfo"; "osImage"];;
   Ok (VObj [("name", name);
             ("status", or_else (get_opt ready "status") (VStr "Unknown"));
             ("version", version);
             ("os", os)]))%js.

(** The object built for a namespace in [/namespaces]. *)
Definition project_namespace (ns : value) : Js.result value :=
  (name <- Eks.path ns ["metadata"; "name"];;
   status <- Eks.path ns ["status"; "phase"];;
   created <- Eks.path ns ["metadata"; "creationTimestamp"];;
   Ok (VObj [("name", name); ("status", status); ("created", created)]))%js.

(** [c => c.ready] *)
Definition is_container_ready (c : value) : Js.result bool :=
  (ready <- get c "ready";; Ok (truthy ready))%js.

(** [containerStatuses?.filter(c => c.ready).length] *)
Definition ready_count (containerStatuses : value) : Js.result value :=
  if nullish containerStatuses then Ok VUndefined
  else
    (cs <- Eks.array_method containerStatuses
             "pod.status.containerStatuses?" "filter";;
     kept <- filterM is_container_ready cs;;
     Ok (VNum (Z.of_nat (List.length kept))))%js.

(** The object built for a pod in [/namespaces/:namespace/pods]. *)
Definition project_namespaced_pod (pod : value) : Js.result value :=
  (name <- Eks.path pod ["metadata"; "name"];;
   status <- Eks.path pod ["status"; "phase"];;
   containerStatuses <- Eks.path pod ["status"; "containerStatuses"];;
   ready <- ready_count containerStatuses;;
   containerStatuses' <- Eks.path pod ["status"; "containerStatuses"];;
   let restartCount := get_opt (get_opt containerStatuses' "0") "restartCount" in
   age <- Eks.path pod ["metadata"; "creationTimestamp"];;
   Ok (VObj [("name", name);
             ("status", status);
             ("ready", or_else ready (VNum 0));
             ("restarts", or_else restartCount (VNum 0));
             ("age", age)]))%js.

(** [objs.map(o => [o.k1, o.k2, ...])] on objects just built *)
Definition row_of (ks : list string) (obj : value) : list value :=
  map (prop obj) ks.

Section Routes.

Variable b : env.

Definition respond (status : nat) (body : value) : M unit :=
  Handler.emit (Respond status body);;
  match Eks.send (cluster b) status body with
  | Some m => Handler.throw m
  | None => Handler.ret tt
  end.

Definition initializeKubeClient : M unit :=
  Handler.emit InitializeKubeClient;;
  match Eks.kubeconfig (cluster b) with
  | Some m => Handler.throw m
  | None => Handler.ret tt
  end.

(** [router.get('/test-connection', ...)] *)
Definition get_test_connection : M unit :=
  Handler.try_catch
    (initializeKubeClient;;
     Handler.emit ListNode;;
     nodes <- Handler.await (Eks.listNode (cluster b));;
     summaries <- Handler.await (mapM summarize_node nodes);;
     respond 200
       (VObj [("success", VBool true);
              ("message", VStr "Successfully connected to EKS cluster");
              ("data",
               VObj [("nodeCount", VNum (Z.of_nat (List.length nodes)));
                     ("nodes", VArr summaries)])]))
    (fun m => respond 500 (failed "EKS connection failed" m)).

(** [router.get('/namespaces', ...)] *)
Definition get_namespaces : M unit :=
  Handler.try_catch
    (initializeKubeClient;;
     Handler.emit ListNamespace;;
     items <- Handler.await (listNamespace b);;
     namespaces <- Handler.await (mapM project_namespace items);;
     respond 200
       (VObj [("success", VBool true);
              ("data",
               Eks.table [VStr "name"; VStr "status"; VStr "created"]
                         (map (row_of ["name"; "status"; "created"])
                              namespaces))]))
    (fun m => respond 500 (failed "Failed to fetch namespaces" m)).

(** [router.get('/namespaces/:namespace/pods', ...)], applied to
    [req.params.namespace]. *)
Definition get_namespaced_pods (namespace : string) : M unit :=
  Handler.try_catch
    (initializeKubeClient;;
     Handler.emit (ListNamespacedPod namespace);;
     items <- Handler.await (listNamespacedPod b namespace);;
     pods <- Handler.await (mapM project_namespaced_pod items);;
     respond 200
       (VObj [("success", VBool true);
              ("data",
               Eks.table
                 [VStr "name"; VStr "status"; VStr "ready"; VStr "restarts";
                  VStr "age"]
                 (map (row_of ["name"; "status"; "ready"; "restarts"; "age"])
                      pods))]))
    (fun m => respond 500 (failed "Failed to fetch pods" m)).

End Routes.

Definition trace_of_run (m : M unit) : list event :=
  Handler.trace_of (Handler.run m tt).

End EksBrowse.

(* ================================================================== *)
(** ** The editor component, [src/MonacoEditor.tsx]

    The state of the component and its event handlers.  A handler is
    modelled by its net effect: the state it leaves once it has run to its
    end, and the requests it has sent.  [fetch] followed by
    [response.json()] is a function of the environment from a request to a
    reply. *)

Module Ui.

Inductive ConnectionType : Type := snowflake | eks.

Inductive QueryType : Type := sql | kubectl.

Inductive ConnectionStatus : Type :=
| disconnected | connecting | connected | errored.

(** The strings the source writes for the three enumerations. *)
Definition connectionType_name (t : ConnectionType) : string :=
  match t with snowflake => "snowflake" | eks => "eks" end.

Definition queryType_name (t : QueryType) : string :=
  match t with sql => "sql" | kubectl => "kubectl" end.

Definition connectionStatus_name (s : ConnectionStatus) : string :=
  match s with
  | disconnected => "disconnected"
  | connecting => "connecting"
  | connected => "connected"
  | errored => "error"
  end.

(** The [useState] cells.  [results] and [error] hold [null] or what the
    handlers store in them. *)
Record state : Type := {
  query : string;
  results : value;
  isExecuting : bool;
  error : value;
  connectionType : ConnectionType;
  queryType : QueryType;
  connectionStatus : ConnectionStatus
}.

Definition setQuery (q : string) (s : state) : state :=
  {| query := q; results := results s; isExecuting := isExecuting s;
     error := error s; connectionType := connectionType s;
     queryType := queryType s; connectionStatus := connectionStatus s |}.

Definition setResults (r : value) (s : state) : state :=
  {| query := query s; results := r; isExecuting := isExecuting s;
     error := error s; connectionType := connectionType s;
     queryType := queryType s; connectionStatus := connectionStatus s |}.

Definition setIsExecuting (b : bool) (s : state) : state :=
  {| query := query s; results := results s; isExecuting := b;
     error := error s; connectionType := connectionType s;
     queryType := queryType s; connectionStatus := connectionStatus s |}.

Definition setError (e : value) (s : state) : state :=
  {| query := query s; results := results s; isExecuting := isExecuting s;
     error := e; connectionType := connectionType s;
     queryType := queryType s; connectionStatus := connectionStatus s |}.

Definition setConnectionType (t : ConnectionType) (s : state) : state :=
  {| query := query s; results := results s; isExecuting := isExecuting s;
     error := error s; connectionType := t;
     queryType := queryType s; connectionStatus := connectionStatus s |}.

Definition setQueryType (t : QueryType) (s : state) : state :=
  {| query := query s; results := results s; isExecuting := isExecuting s;
     error := error s; connectionType := connectionType s;
     queryType := t; connectionStatus := connectionStatus s |}.

Definition setConnectionStatus (c : ConnectionStatus) (s : state) : state :=
  {| query := query s; results := results s; isExecuting := isExecuting s;
     error := error s; connectionType := connectionType s;
     queryType := queryType s; connectionStatus := c |}.

Definition lines (ls : list string) : string := JsString.join JsString.LF ls.

(** The initial values of the [useState] cells. *)
Definition initial : state :=
  {| query := lines ["-- SQL Editor"; "SELECT * FROM users WHERE id = 1;"];
     results := VNull;
     isExecuting := false;
     error := VNull;
     connectionType := snowflake;
     queryType := sql;
     connectionStatus := disconnected |}.

(** [sampleQueries] *)
Definition sample_snowflake_sql : string :=
  lines ["-- Snowflake SQL Query";
         "SELECT CURRENT_VERSION(), CURRENT_USER(), CURRENT_DATABASE();";
         EmptyString;
         "-- Example queries:";
         "-- SELECT * FROM INFORMATION_SCHEMA.TABLES LIMIT 10;";
         "-- SELECT COUNT(*) FROM your_table_name;"].

Definition sample_eks_sql : string :=
  lines ["-- Kubernetes SQL-like Queries";
         "SELECT * FROM PODS;";
         EmptyString;
         "-- Available tables:";
         "-- SELECT * FROM NODES";
         "-- SELECT * FROM DEPLOYMENTS";
         "-- SELECT * FROM SERVICES"].

Definition sample_eks_kubectl : string :=
  lines ["get pods --all-namespaces";
         EmptyString;
         "# Other kubectl commands:";
         "# get nodes";
         "# get deployments";
         "# get services";
         "# describe pod <pod-name>";
         "# logs <pod-name>"].

Definition sample_eks (t : QueryType) : string :=
  match t with sql => sample_eks_sql | kubectl => sample_eks_kubectl end.

(** A request made with [fetch]; [body] is the object given to
    [JSON.stringify], [VUndefined] when there is none. *)
Record request : Type := {
  method : string;
  url : string;
  body : value
}.

(** What [await fetch(...)] and [await response.json()] give: the parsed
    body, or an exception with its [message]. *)
Inductive reply : Type :=
| Json (data : value)
| Rejected (message : value).

Definition network : Type := request -> reply.

Definition origin : string := "http://localhost:3001".

(** [handleEditorChange(value)]; [None] is [undefined]. *)
Definition handleEditorChange (value : option string) (s : state) : state :=
  setQuery (match value with
            | Some v => text (or_else (VStr v) (VStr EmptyString))
            | None => EmptyString
            end) s.

(** The body of a [try] block reading the reply: the state it reaches,
    or the message of the exception it ends with. *)
Definition reading (r : reply) (k : value -> Js.result state) : state + value :=
  match r with
  | Rejected m => inr m
  | Json data =>
      match k data with
      | Ok s => inl s
      | Throw m => inr (VStr m)
      end
  end.

Definition test_request (s : state) : request :=
  {| method := "GET";
     url := origin ++ match connectionType s with
                      | snowflake => "/api/snowflake/test-connection"
                      | eks => "/api/eks/test-connection"
                      end;
     body := VUndefined |}.

(** [testConnection()] *)
Definition testConnection (net : network) (s : state) : state * list request :=
  let s1 := setError VNull (setConnectionStatus connecting s) in
  let req := test_request s in
  let s2 :=
    match reading (net req)
            (fun data =>
               (success <- get data "success";;
                if truthy success
                then Ok (setResults (prop data "data")
                           (setConnectionStatus connected s1))
                else Ok (setError (or_else (prop data "message")
                                           (VStr "Connection failed"))
                           (setConnectionStatus errored s1)))%js) with
    | inl s' => s'
    | inr m =>
        setError (or_else m (VStr "Failed to connect to backend server"))
                 (setConnectionStatus errored s1)
    end in
  (s2, [req]).

Definition execute_request (s : state) : request :=
  {| method := "POST";
     url := origin ++ match connectionType s with
                      | snowflake => "/api/snowflake/execute"
                      | eks => "/api/eks/execute"
                      end;
     body := VObj [("query", VStr (query s));
                   ("queryType",
                    VStr (match connectionType s with
                          | eks => queryType_name (queryType s)
                          | snowflake => "sql"
                          end))] |}.

(** [executeQuery()] *)
Definition executeQuery (net : network) (s : state) : state * list request :=
  if negb (truthy (VStr (JsString.trim (query s))))
  then (setError (VStr "Please enter a query") s, [])
  else
    let s1 := setResults VNull (setError VNull (setIsExecuting true s)) in
    let req := execute_request s in
    let s2 :=
      match reading (net req)
              (fun data =>
                 (success <- get data "success";;
                  if truthy success
                  then Ok (setResults (prop data "data") s1)
                  else Ok (setError (or_else (prop data "message")
                                             (VStr "Query execution failed"))
                             s1))%js) with
      | inl s' => s'
      | inr m => setError (or_else m (VStr "Failed to execute query")) s1
      end in
    (setIsExecuting false s2, [req]).

(** [handleConnectionTypeChange(newType)] *)
Definition handleConnectionTypeChange (newType : ConnectionType) (s : state)
  : state :=
  let s1 := setError VNull
              (setResults VNull
                 (setConnectionStatus disconnected
                    (setConnectionType newType s))) in
  match newType with
  | snowflake => setQuery sample_snowflake_sql (setQueryType sql s1)
  | eks => setQuery sample_eks_sql (setQueryType sql s1)
  end.

(** [handleQueryTypeChange(newType)] *)
Definition handleQueryTypeChange (newType : QueryType) (s : state) : state :=
  let s1 := setQueryType newType s in
  match connectionType s with
  | eks => setQuery (sample_eks newType) s1
  | snowflake => s1
  end.

(** [getEditorLanguage()] *)
Definition getEditorLanguage (s : state) : string :=
  match connectionType s, queryType s with
  | eks, kubectl => "shell"
  | _, _ => "sql"
  end.

(** [getConnectionStatusColor()] *)
Definition getConnectionStatusColor (s : state) : string :=
  match connectionStatus s with
  | connected => "#4caf50"
  | connecting => "#ff9800"
  | errored => "#f44336"
  | disconnected => "#9e9e9e"
  end.

(** The text of a table cell: [String(cell || '')] *)
Definition cell_text (cell : value) : string :=
  to_string (or_else cell (VStr EmptyString)).

(** The Execute button is disabled: [isExecuting || !query.trim()] *)
Definition execute_disabled (s : state) : bool :=
  isExecuting s || negb (truthy (VStr (JsString.trim (query s)))).

End Ui.

(* ================================================================== *)
(** ** The editor in front of the routes

    The two [execute] routes behind [fetch]: the request body is the
    object the editor serialises, the reply is the first response of the
    handler after its passage through JSON.  The transport is taken to
    deliver both unchanged. *)

Module Stack.

(** What [JSON.parse(JSON.stringify(v))] makes of a value inside a body:
    [undefined] and a function become [null] in an array and are left out
    of an object. *)
Fixpoint wire (v : value) : value :=
  match v with
  | VArr items =>
      VArr (map (fun x => match x with
                          | VUndefined | VFun _ _ => VNull
                          | _ => wire x
                          end) items)
  | VObj fields =>
      VObj (flat_map (fun kv => match kv with
                                | (_, VUndefined) | (_, VFun _ _) => []
                                | (k, x) => [(k, wire x)]
                                end) fields)
  | _ => v
  end.

Definition first_response_eks (tr : list Eks.event) : option value :=
  match flat_map (fun e => match e with Eks.Respond _ b => [b] | _ => [] end) tr with
  | b :: _ => Some b
  | [] => None
  end.

Definition first_response_snowflake (tr : list Snowflake.event) : option value :=
  match warehouse_responses tr with
  | (_, b) :: _ => Some b
  | [] => None
  end.

Definition served (b : option value) : Ui.reply :=
  match b with
  | Some body => Ui.Json (wire body)
  | None => Ui.Rejected (VStr "Failed to fetch")
  end.

(** The two [POST /execute] routes as a network. *)
Definition network (w : Snowflake.env) (c : Eks.env) : Ui.network :=
  fun req =>
    if (Ui.url req =? Ui.origin ++ "/api/snowflake/execute")%string then
      served (first_response_snowflake
                (Handler.trace_of (Snowflake.handle w (prop (Ui.body req) "query"))))
    else if (Ui.url req =? Ui.origin ++ "/api/eks/execute")%string then
      served (first_response_eks
                (Handler.trace_of
                   (Eks.handle c {| Eks.query := prop (Ui.body req) "query";
                                    Eks.queryType := prop (Ui.body req) "queryType" |})))
    else Ui.Rejected (VStr "Failed to fetch").

End Stack.

(* ================================================================== *)
(** ** Vocabulary of the further properties *)

Module Facts.

(** Every call a computation adds to a history satisfies [P], when those
    already there do. *)
Definition only {L E A : Type} (P : E -> Prop) (m : Handler.M L E A) : Prop :=
  forall st, Forall P (snd st) -> Forall P (snd (snd (m st))).

(** The last character of the text is not white space. *)
Definition ends_solid (s : string) : Prop :=
  exists body c,
    s = body ++ String c EmptyString /\ JsString.is_space c = false.

(** The text holds no white space. *)
Fixpoint spaceless (s : string) : bool :=
  match s with
  | EmptyString => true
  | String c s' => negb (JsString.is_space c) && spaceless s'
  end.

(** The text is all white space. *)
Definition blank (s : string) : Prop :=
  JsString.span JsString.is_space s = String.length s.

(** The phrase a resource query has to start with, per kind. *)
Definition phrase (k : Eks.kind) : string :=
  match k with
  | Eks.Pods => "SELECT * FROM PODS"
  | Eks.Deployments => "SELECT * FROM DEPLOYMENTS"
  | Eks.Services => "SELECT * FROM SERVICES"
  | Eks.Nodes => "SELECT * FROM NODES"
  end.

Definition unsupported : string :=
  "Unsupported SQL query. Try: SELECT * FROM PODS|DEPLOYMENTS|SERVICES|NODES".

(** A list call of the orchestration client. *)
Definition is_list_call (e : Eks.event) : bool :=
  match e with
  | Eks.ListPodForAllNamespaces | Eks.ListDeploymentForAllNamespaces
  | Eks.ListServiceForAllNamespaces | Eks.ListNode => true
  | _ => false
  end.

(** What a response to a request with the text [q] echoes of it: nothing
    under status 400; under every other status a prefix of [q] of at most
    200 characters. *)
Definition echo_bounded (q : string) (status : nat) (body : value) : Prop :=
  if status =? 400 then prop body "query" = VUndefined
  else exists t,
         prop body "query" = VStr t
         /\ String.length t <= 200 /\ String.prefix t q = true.

(** The responses of a read-only cluster route, in order. *)
Definition cluster_responses (tr : list EksBrowse.event) : list (nat * value) :=
  flat_map (fun e => match e with
                     | EksBrowse.Respond status body => [(status, body)]
                     | _ => []
                     end) tr.

(** The three fields of a namespace object that [/namespaces] reads. *)
Definition namespace_row (ns : value) : list value :=
  [prop (prop ns "metadata") "name";
   prop (prop ns "status") "phase";
   prop (prop ns "metadata") "creationTimestamp"].

End Facts.

(** Further environments at which the routes are evaluated. *)
Module Cases.

(** A cluster whose tool exits with code 0 after printing [stdout], a JSON
    text that denotes [parsed]. *)
Definition cluster_printing (stdout : string) (parsed : value) : Eks.env :=
  {| Eks.kubeconfig := None;
     Eks.kubectl := fun _ _ => Eks.Close 0 stdout EmptyString;
     Eks.listPodForAllNamespaces := Ok [];
     Eks.listDeploymentForAllNamespaces := Ok [];
     Eks.listServiceForAllNamespaces := Ok [];
     Eks.listNode := Ok [];
     Eks.JSON_parse := fun t =>
       if (t =? stdout)%string then Ok parsed
       else Throw "Unexpected token in JSON";
     Eks.JSON_stringify := fun _ => VStr "{}";
     Eks.inherited := Scenario.builtins;
     Eks.send := fun _ _ => None;
     Eks.startTime := 0;
     Eks.endTime := 0 |}.

(** The tool prints a list of two objects, the second one empty. *)
Definition cluster_printing_objects : Eks.env :=
  cluster_printing
    ("[{" ++ dquote ++ "toString" ++ dquote ++ ":0,"
     ++ dquote ++ "a" ++ dquote ++ ":2},{}]")
    (VArr [VObj [("toString", VNum 0); ("a", VNum 2)]; VObj []]).

(** The tool prints the list that holds [null] alone. *)
Definition cluster_printing_null : Eks.env :=
  cluster_printing "[null]" (VArr [VNull]).

(** A command text with a NUL character inside its one argument. *)
Definition argument_with_nul : string :=
  "a" ++ String (ascii_of_nat 0) "b".

Definition command_with_nul : string := "get " ++ argument_with_nul.

(** The tool cannot be started: [spawn] throws on the NUL character in an
    argument. *)
Definition cluster_refusing_spawn : Eks.env :=
  {| Eks.kubeconfig := None;
     Eks.kubectl := fun _ _ =>
       Eks.Thrown
         "The argument 'args[1]' must be a string without null bytes. Received 'a\x00b'";
     Eks.listPodForAllNamespaces := Ok [];
     Eks.listDeploymentForAllNamespaces := Ok [];
     Eks.listServiceForAllNamespaces := Ok [];
     Eks.listNode := Ok [];
     Eks.JSON_parse := fun _ => Throw "Unexpected token in JSON";
     Eks.JSON_stringify := fun _ => VStr "{}";
     Eks.inherited := Scenario.builtins;
     Eks.send := fun _ _ => None;
     Eks.startTime := 0;
     Eks.endTime := 0 |}.

(** A cluster whose tool exits with code 1 and an error on its standard
    error. *)
Definition cluster_not_found : Eks.env :=
  {| Eks.kubeconfig := None;
     Eks.kubectl := fun _ _ =>
       Eks.Close 1 EmptyString "Error from server (NotFound)";
     Eks.listPodForAllNamespaces := Ok [];
     Eks.listDeploymentForAllNamespaces := Ok [];
     Eks.listServiceForAllNamespaces := Ok [];
     Eks.listNode := Ok [];
     Eks.JSON_parse := fun _ => Throw "Unexpected token in JSON";
     Eks.JSON_stringify := fun _ => VStr "{}";
     Eks.inherited := Scenario.builtins;
     Eks.send := fun _ _ => None;
     Eks.startTime := 0;
     Eks.endTime := 0 |}.

Definition node_ready : value :=
  VObj [("metadata", VObj [("name", VStr "node-1");
                           ("creationTimestamp", VStr "2024-01-01T00:00:00Z")]);
        ("status",
         VObj [("conditions",
                VArr [VObj [("type", VStr "MemoryPressure");
                            ("status", VStr "False")];
                      VObj [("type", VStr "Ready"); ("status", VStr "True")]]);
               ("nodeInfo",
                VObj [("kubeletVersion", VStr "v1.29.0");
                      ("osImage", VStr "Amazon Linux 2");
                      ("architecture", VStr "amd64")])])].

Definition namespace_default : value :=
  VObj [("metadata", VObj [("name", VStr "default");
                           ("creationTimestamp", VStr "2024-01-01T00:00:00Z")]);
        ("status", VObj [("phase", VStr "Active")])].

(** A pod with two containers, one of them ready, that never restarted. *)
Definition pod_half_ready : value :=
  VObj [("metadata", VObj [("name", VStr "api-0");
                           ("creationTimestamp", VStr "2024-01-03T00:00:00Z")]);
        ("status",
         VObj [("phase", VStr "Running");
               ("containerStatuses",
                VArr [VObj [("name", VStr "api");
                            ("ready", VBool true);
                            ("restartCount", VNum 0)];
                      VObj [("name", VStr "sidecar");
                            ("ready", VBool false);
                            ("restartCount", VNum 2)]])])].

(** What [/namespaces/:namespace/pods] builds for that pod. *)
Definition pod_half_ready_projected : value :=
  VObj [("name", VStr "api-0");
        ("status", VStr "Running");
        ("ready", VNum 1);
        ("restarts", VNum 0);
        ("age", VStr "2024-01-03T00:00:00Z")].

(** A cluster with one node, one namespace and the pod above in every
    namespace. *)
Definition browse : EksBrowse.env :=
  {| EksBrowse.cluster :=
       {| Eks.kubeconfig := None;
          Eks.kubectl := fun _ _ => Eks.Close 0 EmptyString EmptyString;
          Eks.listPodForAllNamespaces := Ok [pod_half_ready];
          Eks.listDeploymentForAllNamespaces := Ok [];
          Eks.listServiceForAllNamespaces := Ok [];
          Eks.listNode := Ok [node_ready];
          Eks.JSON_parse := fun _ => Throw "Unexpected token in JSON";
          Eks.JSON_stringify := fun _ => VStr "{}";
          Eks.inherited := Scenario.builtins;
          Eks.send := fun _ _ => None;
          Eks.startTime := 0;
          Eks.endTime := 5 |};
     EksBrowse.listNamespace := Ok [namespace_default];
     EksBrowse.listNamespacedPod := fun _ => Ok [pod_half_ready] |}.

(** The same cluster when the configuration file cannot be read. *)
Definition browse_without_config : EksBrowse.env :=
  {| EksBrowse.cluster :=
       {| Eks.kubeconfig := Some "ENOENT: no such file or directory";
          Eks.kubectl := Eks.kubectl (EksBrowse.cluster browse);
          Eks.listPodForAllNamespaces := Ok [pod_half_ready];
          Eks.listDeploymentForAllNamespaces := Ok [];
          Eks.listServiceForAllNamespaces := Ok [];
          Eks.listNode := Ok [node_ready];
          Eks.JSON_parse := fun _ => Throw "Unexpected token in JSON";
          Eks.JSON_stringify := fun _ => VStr "{}";
          Eks.inherited := Scenario.builtins;
          Eks.send := fun _ _ => None;
          Eks.startTime := 0;
          Eks.endTime := 5 |};
     EksBrowse.listNamespace := Ok [namespace_default];
     EksBrowse.listNamespacedPod := fun _ => Ok [pod_half_ready] |}.

End Cases.

(* ================================================================== *)
(** * Properties *)

(** ** The built-ins on a few inputs *)

Example trim_strips_both_ends : JsString.trim "  get  pods " = "get  pods".
Proof. reflexivity. Qed.

Example split_on_spaces :
  JsString.split_re JsString.re_spaces "get pods   -A" = ["get"; "pods"; "-A"].
Proof. reflexivity. Qed.

Example split_of_empty_text :
  JsString.split_re JsString.re_spaces EmptyString = [EmptyString].
Proof. reflexivity. Qed.

Example split_keeps_outer_pieces :
  JsString.split_re JsString.re_spaces " a " = [EmptyString; "a"; EmptyString].
Proof. reflexivity. Qed.

Example split_on_backslash_n :
  JsString.split_str JsString.backslash_n "NAME\nnode-1" = ["NAME"; "node-1"].
Proof. reflexivity. Qed.

Example upper_case_of_query :
  JsString.toUpperCase "select * from Pods" = "SELECT * FROM PODS".
Proof. reflexivity. Qed.

Example ports_are_rendered :
  Eks.render_ports
    (VArr [VObj [("port", VNum 80); ("targetPort", VNum 8080);
                 ("protocol", VStr "TCP")];
           VObj [("port", VNum 443); ("targetPort", VStr "https");
                 ("protocol", VStr "TCP")]])
  = Ok (VStr "80:8080/TCP, 443:https/TCP").
Proof. reflexivity. Qed.

Example patterns_ignore_case_and_spacing :
  map Snowflake.isSuspicious
      ["drop   Table t"; "droptable"; "Delete From t Where 1 = 1";
       "select 1 union all select 2"; "SELECT union_id FROM t"]
  = [true; false; true; true; false].
Proof. reflexivity. Qed.

(** ** Stepping through a handler *)

Ltac step_handler :=
  unfold Handler.run, Handler.trace_of, Handler.bind, Handler.try_finally,
    Handler.try_catch, Handler.emit, Handler.ret, Handler.throw,
    Handler.await, Handler.read, Handler.assign;
  cbn [fst snd app].

(** Split a membership in an explicit list into its cases. *)
Ltac in_cases H :=
  simpl in H;
  repeat match type of H with
         | _ \/ _ => destruct H as [H | H]
         | False => contradiction
         end.

Lemma nonempty_truthy (q : string) : q <> EmptyString -> truthy (VStr q) = true.
Proof. destruct q; [congruence | reflexivity]. Qed.

Lemma includes_false (xs : list string) (x : string) :
  ~ In x xs -> Eks.includes xs x = false.
Proof.
  intros Hn. unfold Eks.includes.
  destruct (existsb (String.eqb x) xs) eqn:Hex; [ | reflexivity].
  apply existsb_exists in Hex. destruct Hex as [y [Hy Heq]].
  apply String.eqb_eq in Heq. subst y. contradiction.
Qed.

(** ** Regular expressions: the derivative matcher decides the language *)

Module RegexFacts.

Import Regex.

Lemma append_nil_r (s : string) : s ++ EmptyString = s.
Proof. induction s; simpl; congruence. Qed.

Lemma append_eq_nil (a b : string) :
  a ++ b = EmptyString -> a = EmptyString /\ b = EmptyString.
Proof. destruct a; simpl; [auto | discriminate]. Qed.

Lemma no_match_Fail s : ~ Matches Fail s.
Proof. intros H; inversion H. Qed.

Lemma match_Eps s : Matches Eps s -> s = EmptyString.
Proof. intros H; inversion H; reflexivity. Qed.

Lemma nullable_sound r : nullable r = true -> Matches r EmptyString.
Proof.
  induction r; simpl; intros H; try discriminate.
  - constructor.
  - apply andb_true_iff in H. destruct H.
    change EmptyString with (EmptyString ++ EmptyString). constructor; auto.
  - apply orb_true_iff in H. destruct H; [apply MAltL | apply MAltR]; auto.
  - constructor.
Qed.

Lemma nullable_complete r s : Matches r s -> s = EmptyString -> nullable r = true.
Proof.
  induction 1; simpl; intros E; try reflexivity; try discriminate.
  - apply append_eq_nil in E. destruct E. rewrite IHMatches1, IHMatches2; auto.
  - rewrite IHMatches; auto.
  - rewrite IHMatches; auto using orb_true_r.
Qed.

Lemma seq_sound r1 r2 s : Matches (seq_ r1 r2) s -> Matches (Seq r1 r2) s.
Proof.
  assert (E : forall t, Matches r2 t -> Matches (Seq Eps r2) t).
  { intros t Ht. change t with (EmptyString ++ t). constructor; [constructor | exact Ht]. }
  destruct r1, r2; simpl; intros H; auto; try (exfalso; exact (no_match_Fail H)).
Qed.

Lemma seq_complete r1 r2 s1 s2 :
  Matches r1 s1 -> Matches r2 s2 -> Matches (seq_ r1 r2) (s1 ++ s2).
Proof.
  intros H1 H2.
  destruct r1; try (exfalso; exact (no_match_Fail H1));
    destruct r2; try (exfalso; exact (no_match_Fail H2)); simpl;
    try (constructor; assumption);
    apply match_Eps in H1; subst s1; exact H2.
Qed.

Lemma alt_sound r1 r2 s : Matches (alt_ r1 r2) s -> Matches (Alt r1 r2) s.
Proof.
  destruct r1, r2; simpl; intros H; auto;
    solve [ apply MAltL; exact H | apply MAltR; exact H ].
Qed.

Lemma alt_complete_l r1 r2 s : Matches r1 s -> Matches (alt_ r1 r2) s.
Proof.
  intros H. destruct r1; try (exfalso; exact (no_match_Fail H));
    destruct r2; simpl; auto using MAltL.
Qed.

Lemma alt_complete_r r1 r2 s : Matches r2 s -> Matches (alt_ r1 r2) s.
Proof.
  intros H. destruct r2; try (exfalso; exact (no_match_Fail H));
    destruct r1; simpl; auto using MAltR.
Qed.

Lemma deriv_sound c r : forall s, Matches (deriv c r) s -> Matches r (String c s).
Proof.
  induction r; simpl; intros s H.
  - inversion H.
  - inversion H.
  - destruct (p c) eqn:Hp; [ | inversion H].
    apply match_Eps in H. subst s. constructor. exact Hp.
  - apply alt_sound in H. inversion H; subst.
    + apply seq_sound in H3. inversion H3; subst.
      change (String c (s1 ++ s2)) with (String c s1 ++ s2). constructor; auto.
    + destruct (nullable r1) eqn:Hn; [ | inversion H3].
      change (String c s) with (EmptyString ++ String c s).
      constructor; auto using nullable_sound.
  - apply alt_sound in H. inversion H; subst; [apply MAltL | apply MAltR]; auto.
  - apply seq_sound in H. inversion H; subst.
    change (String c (s1 ++ s2)) with (String c s1 ++ s2). constructor; auto.
Qed.

Lemma deriv_complete c r t :
  Matches r t -> forall u, t = String c u -> Matches (deriv c r) u.
Proof.
  induction 1; intros u E; simpl.
  - discriminate.
  - inversion E; subst. rewrite H. constructor.
  - destruct s1 as [|a s1'].
    + simpl in E. subst s2.
      apply alt_complete_r.
      rewrite (nullable_complete H eq_refl). auto.
    + simpl in E. inversion E; subst.
      apply alt_complete_l. apply seq_complete; auto.
  - apply alt_complete_l; auto.
  - apply alt_complete_r; auto.
  - discriminate.
  - destruct s1 as [|a s1'].
    + simpl in E. auto.
    + simpl in E. inversion E; subst.
      apply seq_complete; auto.
Qed.

Theorem matchb_spec s : forall r, matchb r s = true <-> Matches r s.
Proof.
  induction s as [|c s IH]; intros r; simpl.
  - split; [apply nullable_sound | intros H; exact (nullable_complete H eq_refl)].
  - rewrite IH. split; [apply deriv_sound | intros H; exact (deriv_complete H eq_refl)].
Qed.

Lemma star_any s : Matches (Star any) s.
Proof.
  induction s as [|c s IH]; [constructor | ].
  change (String c s) with (String c EmptyString ++ s).
  constructor; [constructor; reflexivity | exact IH].
Qed.

Theorem test_spec r s : test r s = true <-> found r s.
Proof.
  unfold test, found. rewrite matchb_spec. split.
  - intros H. inversion H; subst. inversion H4; subst. eauto.
  - intros [pre [mid [post [E H]]]]. subst s.
    constructor; [apply star_any | constructor; [exact H | apply star_any]].
Qed.

End RegexFacts.

(** ** The command whitelist *)

(** C1.  A cluster request in native-command mode (query type [kubectl], or
    none given) whose verb is outside the whitelist is answered with status
    400 and the [Command not allowed] failure, whose message lists the eight
    allowed verbs; the handler makes no call to a backend, so no process is
    spawned.  The text of a request is non-empty, as in the data model. *)
Theorem kubectl_verb_outside_whitelist_rejected :
  forall (c : Eks.env) (q : string) (queryType : value),
    q <> EmptyString ->
    queryType = VUndefined \/ queryType = VStr "kubectl" ->
    ~ In (Eks.verb q) Eks.allowedCommands ->
    let tr := Handler.trace_of
                (Eks.handle c {| Eks.query := VStr q; Eks.queryType := queryType |}) in
    hd_error tr = Some (Eks.Respond 400 Eks.commandNotAllowed)
    /\ filter Eks.is_backend_call tr = []
    /\ filter Eks.is_spawn tr = []
    /\ (Eks.send c 400 Eks.commandNotAllowed = None ->
        tr = [Eks.Respond 400 Eks.commandNotAllowed])
    /\ prop Eks.commandNotAllowed "error" = VStr "Command not allowed"
    /\ prop Eks.commandNotAllowed "message"
       = VStr "Only these commands are allowed: get, describe, logs, top, explain, api-resources, api-versions, cluster-info".
Proof.
  intros c q queryType Hq Ht Hv tr. subst tr.
  apply includes_false in Hv.
  unfold Eks.handle, Eks.post_execute. cbn [Eks.query Eks.queryType].
  rewrite (nonempty_truthy Hq). cbn [negb orb is_string text].
  destruct Ht; subst queryType; cbv iota.
  all: change (eq_str (VStr "kubectl") "kubectl") with true; cbv iota.
  all: fold (Eks.verb q); rewrite Hv; cbn [negb].
  all: unfold Eks.respond; step_handler.
  all: destruct (Eks.send c 400 Eks.commandNotAllowed) eqn:Hs; cbn [fst snd app].
  all: try (destruct (Eks.send c 500 _)).
  all: cbn; repeat split; congruence.
Qed.

Lemma kubectl_verb_outside_whitelist_rejected_witness :
  Handler.trace_of (Eks.handle Scenario.two_pods
                               (Scenario.kubectl_request "delete pod web-0"))
  = [Eks.Respond 400 Eks.commandNotAllowed].
Proof.
  apply (@kubectl_verb_outside_whitelist_rejected
           Scenario.two_pods "delete pod web-0" VUndefined).
  - discriminate.
  - left; reflexivity.
  - vm_compute. intuition discriminate.
  - reflexivity.
Defined.

(** ** The injection guard *)

Lemma isSuspicious_spec (q : string) :
  Snowflake.isSuspicious q = true
  <-> exists pattern,
        In pattern Snowflake.suspiciousPatterns /\ Regex.found pattern q.
Proof.
  unfold Snowflake.isSuspicious. rewrite existsb_exists.
  split; intros [p [Hin H]]; exists p; split; auto;
    apply RegexFacts.test_spec; exact H.
Qed.

Lemma isSuspicious_nonempty (q : string) :
  Snowflake.isSuspicious q = true -> truthy (VStr q) = true.
Proof.
  destruct q as [|a q]; [intros H; vm_compute in H; discriminate | reflexivity].
Qed.

(** C2.  A warehouse statement in which some substring matches one of the
    four injection patterns is answered with status 400 and the [Query
    blocked] failure, and that response is the only call the handler makes:
    no connection is opened.  The statements of the testable properties that
    carry no injection ([SELECT * FROM PODS] in either case, [get nodes], the
    empty text) are not flagged. *)
Theorem injection_patterns_blocked_before_connect :
  (forall (w : Snowflake.env) (q : string),
      (exists pattern,
          In pattern Snowflake.suspiciousPatterns /\ Regex.found pattern q) ->
      Handler.trace_of (Snowflake.handle w (VStr q))
      = [Snowflake.Respond 400 Snowflake.queryBlocked])
  /\ prop Snowflake.queryBlocked "error" = VStr "Query blocked"
  /\ Forall (fun q => Snowflake.isSuspicious q = false)
            ["SELECT * FROM PODS"; "select * from pods"; "get nodes"; EmptyString].
Proof.
  split; [ | split; [reflexivity | repeat constructor]].
  intros w q H. apply isSuspicious_spec in H.
  unfold Snowflake.handle, Snowflake.post_execute.
  rewrite (isSuspicious_nonempty _ H). cbn [negb orb is_string text].
  rewrite H.
  unfold Snowflake.respond. step_handler.
  destruct (Snowflake.send w 400 Snowflake.queryBlocked); reflexivity.
Qed.

Lemma injection_patterns_blocked_before_connect_witness :
  Forall (fun q => Snowflake.isSuspicious q = true)
         ["DROP TABLE users";
          "SELECT * FROM x UNION SELECT * FROM y";
          "DELETE FROM accounts WHERE 1=1"]
  /\ Handler.trace_of
       (Snowflake.handle Scenario.warehouse_up (VStr "DROP TABLE users"))
     = [Snowflake.Respond 400 Snowflake.queryBlocked].
Proof.
  split; [repeat constructor | ].
  apply (proj1 injection_patterns_blocked_before_connect
               Scenario.warehouse_up "DROP TABLE users").
  apply isSuspicious_spec. vm_compute. reflexivity.
Defined.

(** ** Release of the warehouse connection *)

Lemma held_after_app (a b : list Snowflake.event) :
  forall held,
    Snowflake.held_after held (a ++ b)
    = Snowflake.held_after (Snowflake.held_after held a) b.
Proof.
  induction a as [|e a IH]; intros held; [reflexivity | ].
  destruct e as [[conn | m] | conn sql | conn | status body]; simpl; apply IH.
Qed.

Lemma attempt_outcome (w : Snowflake.env) (q : string) :
  Snowflake.attempted (snd (Snowflake.attempt w q (None, []))).
Proof.
  unfold Snowflake.attempt, Snowflake.createConnection, Snowflake.executeQuery,
    Snowflake.respond, Snowflake.attempted.
  step_handler.
  destruct (Snowflake.connect w) as [conn | m] eqn:Hc; cbn [fst snd app].
  - destruct (Snowflake.execute w conn q) as [m | cols rows sid]; cbn [fst snd app].
    + destruct (Snowflake.send w 500 _); cbn; repeat split; auto;
        intros conn' Hin; in_cases Hin; congruence.
    + destruct (Snowflake.send w 200 _); cbn [fst snd app];
        [destruct (Snowflake.send w 500 _) | ]; cbn; repeat split; auto;
        intros conn' Hin; in_cases Hin; congruence.
  - destruct (Snowflake.send w 500 _); cbn; repeat split; auto;
      intros conn' Hin; in_cases Hin; congruence.
Qed.

Lemma release_after_attempt (A : Type) (body : Snowflake.M A) :
  Snowflake.attempted (snd (body (None, []))) ->
  let tr := Handler.trace_of
              (Handler.try_finally body Snowflake.release (None, [])) in
  Snowflake.held_after [] tr = []
  /\ forall conn,
       In (Snowflake.Connect (Ok conn)) tr ->
       exists before,
         tr = (before ++ [Snowflake.Destroy conn])%list
         /\ filter Snowflake.is_destroy before = [].
Proof.
  unfold Snowflake.release. step_handler.
  destruct (body (None, [])) as [r [held tr]]. cbn [fst snd].
  intros [Hd [Hc Hh]].
  destruct held as [conn | ]; cbn [fst snd].
  - split.
    + rewrite held_after_app, Hh. simpl.
      destruct (Nat.eq_dec conn conn); [reflexivity | contradiction].
    + intros conn' Hin. apply in_app_or in Hin.
      destruct Hin as [Hin | [E | []]]; [ | discriminate].
      apply Hc in Hin. inversion Hin; subst conn'.
      exists tr. split; [reflexivity | exact Hd].
  - split; [exact Hh | ].
    intros conn' Hin. apply Hc in Hin. discriminate.
Qed.

(** C3.  On the warehouse execute route, whatever the driver answers and
    wherever sending a response throws, the history of calls of a request
    leaves no connection held: when the driver has handed out a connection,
    the last call of the request destroys it, and nothing destroys it
    before. *)
Theorem warehouse_connection_released_on_every_exit :
  forall (w : Snowflake.env) (query : value),
    let tr := Handler.trace_of (Snowflake.handle w query) in
    Snowflake.held_after [] tr = []
    /\ forall conn,
         In (Snowflake.Connect (Ok conn)) tr ->
         exists before,
           tr = (before ++ [Snowflake.Destroy conn])%list
           /\ filter Snowflake.is_destroy before = [].
Proof.
  intros w query. unfold Snowflake.handle, Snowflake.post_execute.
  destruct (negb (truthy query) || negb (is_string query)).
  - unfold Snowflake.respond. step_handler.
    destruct (Snowflake.send w 400 _); cbn; (split; [reflexivity | ]);
      intros conn Hin; in_cases Hin; discriminate.
  - destruct (Snowflake.isSuspicious (text query)).
    + unfold Snowflake.respond. step_handler.
      destruct (Snowflake.send w 400 _); cbn; (split; [reflexivity | ]);
        intros conn Hin; in_cases Hin; discriminate.
    + apply release_after_attempt. apply attempt_outcome.
Qed.

Lemma warehouse_connection_released_on_every_exit_witness :
  Handler.trace_of (Snowflake.handle Scenario.warehouse_failing (VStr "SELECT 1"))
  = [Snowflake.Connect (Ok 7);
     Snowflake.Execute 7 "SELECT 1";
     Snowflake.Respond 500
       (Snowflake.executionFailed "SQL compilation error" "SELECT 1");
     Snowflake.Destroy 7]
  /\ exists before,
       Handler.trace_of
         (Snowflake.handle Scenario.warehouse_failing (VStr "SELECT 1"))
       = (before ++ [Snowflake.Destroy 7])%list
       /\ filter Snowflake.is_destroy before = [].
Proof.
  split; [reflexivity | ].
  apply (proj2 (warehouse_connection_released_on_every_exit
                  Scenario.warehouse_failing (VStr "SELECT 1"))).
  vm_compute. left; reflexivity.
Defined.

(** ** The check of the request text *)

(** C4, as the claim states it, fails: a text of three spaces is not
    answered with [Invalid query].  The warehouse route passes it to the
    driver; the cluster route, in native-command mode, answers [Command not
    allowed]. *)
Lemma whitespace_only_text_passes_the_check :
  JsString.trim "   " = EmptyString
  /\ Handler.trace_of (Snowflake.handle Scenario.warehouse_up (VStr "   "))
     = [Snowflake.Connect (Ok 1);
        Snowflake.Execute 1 "   ";
        Snowflake.Respond 200
          (Snowflake.succeeded
             (VObj [("columns", VArr []); ("columnMetadata", VArr []);
                    ("rows", VArr []); ("rowCount", VNum 0);
                    ("executionTime", VStr "01b2c3")])
             12 "   ");
        Snowflake.Destroy 1]
  /\ Handler.trace_of (Eks.handle Scenario.two_pods
                                  (Scenario.kubectl_request "   "))
     = [Eks.Respond 400 Eks.commandNotAllowed]
  /\ Eks.commandNotAllowed <> Eks.invalidQuery.
Proof.
  repeat split; try reflexivity. discriminate.
Qed.

(** C4, amended.  A request whose text is empty -- or absent, or not a
    string -- is answered with status 400 and [Invalid query], [Query must
    be a non-empty string], on the warehouse route and on the cluster route
    alike, and that response is the only call the handler makes. *)
Theorem empty_text_rejected_before_any_backend_call :
  forall (w : Snowflake.env) (c : Eks.env) (query queryType : value),
    truthy query = false \/ is_string query = false ->
    Handler.trace_of (Snowflake.handle w query)
    = [Snowflake.Respond 400 Snowflake.invalidQuery]
    /\ Handler.trace_of
         (Eks.handle c {| Eks.query := query; Eks.queryType := queryType |})
       = [Eks.Respond 400 Eks.invalidQuery]
    /\ prop Eks.invalidQuery "message" = VStr "Query must be a non-empty string"
    /\ prop Snowflake.invalidQuery "message"
       = VStr "Query must be a non-empty string".
Proof.
  intros w c query queryType H.
  assert (G : negb (truthy query) || negb (is_string query) = true).
  { destruct H as [H | H]; rewrite H; auto using orb_true_r. }
  unfold Snowflake.handle, Snowflake.post_execute,
    Eks.handle, Eks.post_execute.
  cbn [Eks.query Eks.queryType]. rewrite G.
  unfold Snowflake.respond, Eks.respond. step_handler.
  destruct (Snowflake.send w 400 _), (Eks.send c 400 _); repeat split.
Qed.

Lemma empty_text_rejected_before_any_backend_call_witness :
  Handler.trace_of (Snowflake.handle Scenario.warehouse_up (VStr EmptyString))
  = [Snowflake.Respond 400 Snowflake.invalidQuery]
  /\ Handler.trace_of
       (Eks.handle Scenario.two_pods
                   {| Eks.query := VStr EmptyString; Eks.queryType := VStr "sql" |})
     = [Eks.Respond 400 Eks.invalidQuery].
Proof.
  destruct (@empty_text_rejected_before_any_backend_call
              Scenario.warehouse_up Scenario.two_pods
              (VStr EmptyString) (VStr "sql")) as [Hw [Hc _]].
  - left; reflexivity.
  - split; [exact Hw | exact Hc].
Defined.

(** ** Values, properties and [map] with exceptions *)

Ltac bind_inv H :=
  repeat match type of H with
         | Js.bind ?r _ = Ok _ =>
             let E := fresh "E" in
             destruct r eqn:E; cbn [Js.bind] in H; [ | discriminate H]
         end.

Lemma get_present (v : value) (k : string) :
  nullish v = false -> get v k = Ok (prop v k).
Proof. unfold get. intros H. rewrite H. reflexivity. Qed.

Lemma get_opt_present (v : value) (k : string) :
  nullish v = false -> get_opt v k = prop v k.
Proof. unfold get_opt. intros H. rewrite H. reflexivity. Qed.

Lemma holds_inv (v : value) (k : string) :
  Eks.holds v k = true -> nullish v = false /\ nullish (prop v k) = false.
Proof.
  unfold Eks.holds. intros H. apply andb_true_iff in H. destruct H as [H1 H2].
  split; apply negb_true_iff; assumption.
Qed.







Lemma path_cons_inv (v x : value) (k : string) (ks : list string) :
  Eks.path v (k :: ks) = Ok x ->
  nullish v = false /\ Eks.path (prop v k) ks = Ok x.
Proof.
  simpl. unfold get. destruct (nullish v); cbn [Js.bind]; intros H.
  - discriminate.
  - auto.
Qed.

Lemma path_holds (v x : value) (a b : string) (ks : list string) :
  Eks.path v (a :: b :: ks) = Ok x -> Eks.holds v a = true.
Proof.
  intros H. apply path_cons_inv in H. destruct H as [Hv H].
  apply path_cons_inv in H. destruct H as [Ha _].
  unfold Eks.holds. rewrite Hv, Ha. reflexivity.
Qed.





Lemma mapM_Forall2 (A B : Type) (f : A -> Js.result B) (xs : list A) :
  forall ys, mapM f xs = Ok ys -> Forall2 (fun x y => f x = Ok y) xs ys.
Proof.
  induction xs as [|x xs IH]; simpl; intros ys H.
  - inversion H. constructor.
  - bind_inv H. inversion H; subst. constructor; auto.
Qed.

Lemma mapM_map (A B : Type) (f : A -> Js.result B) (g : A -> B) (xs : list A) :
  (forall x, In x xs -> f x = Ok (g x)) -> mapM f xs = Ok (map g xs).
Proof.
  induction xs as [|x xs IH]; simpl; intros H; [reflexivity | ].
  rewrite (H x (or_introl eq_refl)). cbn [Js.bind].
  rewrite IH by auto. reflexivity.
Qed.

Lemma truthy_false_iff (v : value) : truthy v = false <-> Eks.falsy v.
Proof.
  unfold Eks.falsy. destruct v as [ | | b | n | s | xs | fs | f l]; simpl.
  - tauto.
  - tauto.
  - destruct b; intuition congruence.
  - rewrite negb_false_iff, Z.eqb_eq. intuition congruence.
  - rewrite negb_false_iff, String.eqb_eq. intuition congruence.
  - intuition congruence.
  - intuition congruence.
  - intuition congruence.
Qed.

Lemma cell_inv (c : Eks.env) (obj x : value) (col : string) :
  Eks.cell c obj col = Ok x ->
  nullish obj = false
  /\ x = or_else (Js.read (Eks.inherited c) obj col) (VStr EmptyString).
Proof.
  unfold Eks.cell, Js.index. destruct (nullish obj); cbn [Js.bind]; intros H.
  - discriminate.
  - inversion H. auto.
Qed.


Lemma format_array_inv (c : Eks.env) (first : value) (rest : list value) (data : value) :
  Eks.formatKubernetesResult c (VArr (first :: rest)) = Ok data ->
  exists cols rows,
    keys first = Ok cols
    /\ mapM (fun obj => mapM (Eks.cell c obj) cols) (first :: rest) = Ok rows
    /\ data = Eks.table (map VStr cols) rows.
Proof.
  cbn [Eks.formatKubernetesResult]. intros H. bind_inv H. inversion H. eauto.
Qed.


(** ** The formatter on plain text *)

Lemma prefix_head_neq (a c : ascii) (p s : string) :
  a <> c -> String.prefix (String a p) (String c s) = false.
Proof.
  intros H. simpl. destruct (ascii_dec a c); [contradiction | reflexivity].
Qed.

Lemma snoc_append (cur : string) (c : ascii) (s : string) :
  JsString.snoc cur c ++ s = cur ++ String c s.
Proof. unfold JsString.snoc. induction cur; simpl; congruence. Qed.

(** Splitting at the two code units backslash, [n] leaves a text without
    backslash in one piece. *)
Lemma split_without_backslash (s : string) :
  forall cur,
    JsString.no_backslash s = true ->
    JsString.split_str_go JsString.backslash_n 0 cur s = [cur ++ s].
Proof.
  induction s as [|ch s IH]; intros cur H.
  - simpl. rewrite RegexFacts.append_nil_r. reflexivity.
  - simpl in H. apply andb_true_iff in H. destruct H as [Hc Hs].
    cbn [JsString.split_str_go]. unfold JsString.backslash_n at 1.
    rewrite prefix_head_neq.
    + rewrite (IH _ Hs), snoc_append. reflexivity.
    + intros E. subst ch. vm_compute in Hc. discriminate.
Qed.

(** C5.  What the code does: the formatter splits a text at the two code
    units backslash, [n], not at line feeds, so every text that holds no
    backslash -- the tabular standard output of [kubectl get nodes], with
    its line feeds, among them -- comes back as a message holding the whole
    text, with [rowCount] 0, and never as a table. *)
Theorem text_without_backslash_formats_as_message :
  forall (c : Eks.env) (s : string),
    JsString.no_backslash s = true ->
    Eks.formatKubernetesResult c (VStr s) = Ok (Eks.message (VStr s) 0).
Proof.
  intros c s H. unfold Eks.formatKubernetesResult, JsString.split_str.
  rewrite (split_without_backslash s EmptyString H). cbn [append filter].
  destruct (Eks.nonempty (JsString.trim s)); reflexivity.
Qed.

Lemma text_without_backslash_formats_as_message_witness :
  Eks.formatKubernetesResult Scenario.two_pods (VStr Scenario.nodes_stdout)
  = Ok (Eks.message (VStr Scenario.nodes_stdout) 0).
Proof.
  apply (@text_without_backslash_formats_as_message
           Scenario.two_pods Scenario.nodes_stdout).
  reflexivity.
Defined.

(** The same through the route: [get nodes] with two lines of output. *)
Example get_nodes_answers_a_message :
  Handler.trace_of
    (Eks.handle (Scenario.cluster [] Scenario.nodes_stdout)
                (Scenario.kubectl_request "get nodes"))
  = [Eks.Spawn "get" ["nodes"];
     Eks.Respond 200
       (Eks.succeeded (Eks.message (VStr Scenario.nodes_stdout) 0) 40
                      "get nodes" (VStr "kubectl"))].
Proof. reflexivity. Qed.

(** ** The projections of the resource queries *)

Ltac present :=
  unfold Eks.path, Eks.lenient; cbn [fold_left];
  repeat match goal with
    | H : nullish ?v = false |- context [get ?v ?k] => rewrite (@get_present v k H)
    | H : nullish ?v = false |- context [get_opt ?v ?k] => rewrite (@get_opt_present v k H)
    | H : nullish ?v = false, G : context [get_opt ?v ?k] |- _ => rewrite (@get_opt_present v k H) in G
    | |- _ => progress cbn [Js.bind]
    end.


Lemma project_pod_shaped (obj : value) :
  Eks.shaped Eks.Pods obj = true ->
  Eks.project_pod obj
  = Ok (VObj [("name", prop (prop obj "metadata") "name");
              ("namespace", prop (prop obj "metadata") "namespace");
              ("status", prop (prop obj "status") "phase");
              ("created", prop (prop obj "metadata") "creationTimestamp");
              ("restarts",
               or_else (get_opt (get_opt (prop (prop obj "status")
                                               "containerStatuses") "0")
                                "restartCount")
                       (VNum 0))]).
Proof.
  intros H. simpl in H. apply andb_true_iff in H. destruct H as [Hm Hs].
  apply holds_inv in Hm. destruct Hm as [Ho Hm].
  apply holds_inv in Hs. destruct Hs as [_ Hs].
  unfold Eks.project_pod. present. reflexivity.
Qed.






Lemma path_two (v x : value) (a b : string) :
  Eks.path v [a; b] = Ok x -> x = prop (prop v a) b.
Proof.
  intros H. apply path_cons_inv in H. destruct H as [_ H].
  apply path_cons_inv in H. destruct H as [_ H].
  simpl in H. congruence.
Qed.

Lemma array_method_inv (v : value) (expr method : string) (items : list value) :
  Eks.array_method v expr method = Ok items -> v = VArr items.
Proof.
  destruct v; simpl; intros H; try discriminate. congruence.
Qed.








(** The restart count of a pod that has none, or has 0: the projection
    holds 0, and the cell the formatter builds from it is the empty
    string. *)
Lemma defaulted_restart_count_is_blanked (pod : value) :
  Eks.shaped Eks.Pods pod = true ->
  truthy (Eks.lenient pod ["status"; "containerStatuses"; "0"; "restartCount"])
  = false ->
  exists row,
    Eks.project Eks.Pods pod = Ok (VObj row)
    /\ assoc "restarts" row = Some (VNum 0)
    /\ (forall c, Eks.cell c (VObj row) "restarts" = Ok (VStr EmptyString)).
Proof.
  intros H Hr. eexists. split; [exact (project_pod_shaped _ H) | ].
  simpl in H. apply andb_true_iff in H. destruct H as [Hm Hs].
  apply holds_inv in Hm. destruct Hm as [Ho _].
  apply holds_inv in Hs. destruct Hs as [_ Hs].
  revert Hr. present. intros Hr.
  split; [cbn; unfold or_else; rewrite Hr; reflexivity | intros c].
  unfold Eks.cell. cbn. unfold or_else. rewrite Hr. reflexivity.
Qed.

(** C7.  What the code does on [SELECT * FROM PODS] with two pods: the
    columns are name, namespace, status, created, restarts and there is one
    row per pod, but the row of the pod without a restart count ends with
    the empty string: the 0 of the projection is falsy and the formatter
    replaces it. *)
Theorem pods_query_blanks_the_defaulted_restart_count :
  Eks.project Eks.Pods Scenario.pod_pending
  = Ok (VObj [("name", VStr "job-1");
              ("namespace", VStr "batch");
              ("status", VStr "Pending");
              ("created", VStr "2024-01-02T00:00:00Z");
              ("restarts", VNum 0)])
  /\ Handler.trace_of
       (Eks.handle Scenario.two_pods (Scenario.sql_request "SELECT * FROM PODS"))
     = [Eks.InitializeKubeClient;
        Eks.ListPodForAllNamespaces;
        Eks.Respond 200
          (Eks.succeeded
             (Eks.table
                [VStr "name"; VStr "namespace"; VStr "status"; VStr "created";
                 VStr "restarts"]
                [[VStr "web-0"; VStr "default"; VStr "Running";
                  VStr "2024-01-01T00:00:00Z"; VNum 3];
                 [VStr "job-1"; VStr "batch"; VStr "Pending";
                  VStr "2024-01-02T00:00:00Z"; VStr EmptyString]])
             40 "SELECT * FROM PODS" (VStr "sql"))].
Proof. split; reflexivity. Qed.

(** ** The formatter on lists of objects *)





(** C10, as the claim states it, fails.  The tool prints a list of two
    objects: the first has the keys [toString] and [a], with the value 0
    under [toString]; the second is empty.  The 0 that is present becomes
    the empty string, but the key that is missing does not: the read
    [obj[col]] finds [Object.prototype.toString], and the cell holds that
    function.  In the body that is sent the cell is [null], not the empty
    string, so the absent field can be told from the present 0. *)
Lemma missing_key_reads_an_inherited_member :
  Eks.formatKubernetesResult Cases.cluster_printing_objects
    (VArr [VObj [("toString", VNum 0); ("a", VNum 2)]; VObj []])
  = Ok (Eks.table [VStr "toString"; VStr "a"]
          [[VStr EmptyString; VNum 2];
           [VFun "toString" 0; VStr EmptyString]])
  /\ Handler.trace_of
       (Eks.handle Cases.cluster_printing_objects
                   (Scenario.kubectl_request "get pods -o json"))
     = [Eks.Spawn "get" ["pods"; "-o"; "json"];
        Eks.Respond 200
          (Eks.succeeded
             (Eks.table [VStr "toString"; VStr "a"]
                [[VStr EmptyString; VNum 2];
                 [VFun "toString" 0; VStr EmptyString]])
             0 "get pods -o json" (VStr "kubectl"))]
  /\ prop (Stack.wire
             (Eks.table [VStr "toString"; VStr "a"]
                [[VStr EmptyString; VNum 2];
                 [VFun "toString" 0; VStr EmptyString]]))
          "rows"
     = VArr [VArr [VStr EmptyString; VNum 2]; VArr [VNull; VStr EmptyString]].
Proof. repeat split; reflexivity. Qed.

(** C10, amended.  In the table the formatter builds from a non-empty
    list, the columns are the keys of the first element, and every cell is
    read from its element under its column.  A value that the element
    holds itself and that is falsy -- the number 0, [false], [null],
    [undefined], the empty string -- becomes the empty string; any other
    value it holds itself is kept.  Where the element holds nothing under
    the column, the cell is the empty string unless the element inherits a
    member of that name: then the cell is that member. *)
Theorem falsy_cells_become_empty_strings :
  forall (c : Eks.env) (first : value) (rest : list value) (data : value),
    Eks.formatKubernetesResult c (VArr (first :: rest)) = Ok data ->
    exists cols rows,
      keys first = Ok cols
      /\ data = Eks.table (map VStr cols) rows
      /\ Forall2
           (fun obj row =>
              Forall2
                (fun col x =>
                   match Js.own obj col with
                   | Some v =>
                       (Eks.falsy v -> x = VStr EmptyString)
                       /\ (~ Eks.falsy v -> x = v)
                   | None =>
                       match Eks.inherited c obj col with
                       | Some member => x = or_else member (VStr EmptyString)
                       | None => x = VStr EmptyString
                       end
                   end)
                cols row)
           (first :: rest) rows.
Proof.
  intros c first rest data H.
  apply format_array_inv in H. destruct H as [cols [rows [Hk [Hrows Hdata]]]].
  exists cols, rows. split; [exact Hk | split; [exact Hdata | ]].
  apply mapM_Forall2 in Hrows.
  eapply Forall2_impl; [ | exact Hrows].
  intros obj row Hrow. cbv beta in Hrow. apply mapM_Forall2 in Hrow.
  eapply Forall2_impl; [ | exact Hrow].
  intros col x Hx. cbv beta in Hx. apply cell_inv in Hx. destruct Hx as [_ Hx].
  subst x. unfold Js.read.
  destruct (Js.own obj col) as [v | ].
  - unfold or_else. rewrite <- truthy_false_iff.
    destruct (truthy v); split; congruence.
  - destruct (Eks.inherited c obj col); reflexivity.
Qed.

Lemma falsy_cells_become_empty_strings_witness :
  exists cols rows,
    keys (VObj [("name", VStr "web-0"); ("ready", VBool false);
                ("restarts", VNum 0); ("node", VNull);
                ("note", VStr EmptyString)])
    = Ok cols
    /\ Eks.table
         [VStr "name"; VStr "ready"; VStr "restarts"; VStr "node"; VStr "note"]
         [[VStr "web-0"; VStr EmptyString; VStr EmptyString; VStr EmptyString;
           VStr EmptyString];
          [VStr "web-1"; VBool true; VNum 2; VStr "node-1"; VStr EmptyString]]
       = Eks.table (map VStr cols) rows
    /\ Forall2
         (fun obj row =>
            Forall2
              (fun col x =>
                 match Js.own obj col with
                 | Some v =>
                     (Eks.falsy v -> x = VStr EmptyString)
                     /\ (~ Eks.falsy v -> x = v)
                 | None =>
                     match Eks.inherited Scenario.two_pods obj col with
                     | Some member => x = or_else member (VStr EmptyString)
                     | None => x = VStr EmptyString
                     end
                 end)
              cols row)
         [VObj [("name", VStr "web-0"); ("ready", VBool false);
                ("restarts", VNum 0); ("node", VNull);
                ("note", VStr EmptyString)];
          VObj [("name", VStr "web-1"); ("ready", VBool true);
                ("restarts", VNum 2); ("node", VStr "node-1")]]
         rows.
Proof.
  apply (@falsy_cells_become_empty_strings Scenario.two_pods).
  reflexivity.
Defined.

(** ** Standard output of a native command *)

(** C9, as the claim states it, fails.  The log line [[2024-01-01] started]
    starts with a bracket; [JSON.parse] rejects it, the [catch] of
    [executeKubectl] falls back to the trimmed text, and the output reaches
    the formatter as plain text. *)
Lemma bracketed_output_can_stay_plain_text :
  Eks.looks_like_json (JsString.trim Scenario.log_stdout) = true
  /\ Eks.resolved (Scenario.cluster [] Scenario.log_stdout) Scenario.log_stdout
     = VStr Scenario.log_stdout
  /\ Handler.trace_of
       (Eks.handle (Scenario.cluster [] Scenario.log_stdout)
                   (Scenario.kubectl_request "logs web-0"))
     = [Eks.Spawn "logs" ["web-0"];
        Eks.Respond 200
          (Eks.succeeded (Eks.message (VStr Scenario.log_stdout) 0) 40
                         "logs web-0" (VStr "kubectl"))].
Proof. repeat split; reflexivity. Qed.

(** What enters the formatter after a successful native command. *)
Lemma resolved_cases (c : Eks.env) (stdout : string) :
  Eks.resolved c stdout
  = if Eks.looks_like_json (JsString.trim stdout)
    then match Eks.JSON_parse c (JsString.trim stdout) with
         | Ok v => v
         | Throw _ => VStr (JsString.trim stdout)
         end
    else VStr (JsString.trim stdout).
Proof.
  unfold Eks.resolved.
  destruct (Eks.looks_like_json (JsString.trim stdout)); reflexivity.
Qed.

(** C9, amended.  When an allowed native command exits with code 0, the
    handler spawns the tool once and then answers with the formatter applied
    to this value: the trimmed standard output parsed as JSON when it starts
    with a brace or a bracket and the parse succeeds; the trimmed standard
    output as plain text when the parse throws, or when it starts with
    neither.  A failure of the formatter is answered with status 500. *)
Theorem native_output_parsed_or_kept_as_text :
  forall (c : Eks.env) (q stdout stderr : string),
    q <> EmptyString ->
    In (Eks.verb q) Eks.allowedCommands ->
    Eks.kubectl c (Eks.verb q) (tl (Eks.arguments q)) = Eks.Close 0 stdout stderr ->
    let result := JsString.trim stdout in
    let entering :=
      if Eks.looks_like_json result
      then match Eks.JSON_parse c result with
           | Ok v => v
           | Throw _ => VStr result
           end
      else VStr result in
    let answer :=
      match Eks.formatKubernetesResult c entering with
      | Ok data =>
          Eks.Respond 200
            (Eks.succeeded data (Eks.endTime c - Eks.startTime c) q
                           (VStr "kubectl"))
      | Throw m => Eks.Respond 500 (Eks.executionFailed m q)
      end in
    exists rest,
      Handler.trace_of (Eks.handle c (Scenario.kubectl_request q))
      = Eks.Spawn (Eks.verb q) (tl (Eks.arguments q)) :: answer :: rest.
Proof.
  intros c q stdout stderr Hq Hv Hk result entering answer.
  assert (Hi : Eks.includes Eks.allowedCommands (Eks.verb q) = true).
  { unfold Eks.includes. apply existsb_exists.
    exists (Eks.verb q). split; [exact Hv | apply String.eqb_refl]. }
  unfold Eks.handle, Eks.post_execute, Scenario.kubectl_request.
  cbn [Eks.query Eks.queryType].
  rewrite (nonempty_truthy Hq). cbn [negb orb is_string text].
  change (eq_str (VStr "kubectl") "kubectl") with true. cbv iota.
  fold (Eks.verb q). rewrite Hi. cbn [negb].
  unfold Eks.executeKubectl, Eks.respond. step_handler.
  rewrite Hk. cbn [Z.eqb fst snd app]. rewrite resolved_cases.
  fold result. fold entering. subst answer.
  destruct (Eks.formatKubernetesResult c entering) as [data | m];
    cbn [fst snd app].
  - destruct (Eks.send c 200 _); cbn [fst snd app];
      [destruct (Eks.send c 500 _) | ]; cbn [fst snd]; eauto.
  - destruct (Eks.send c 500 _); cbn [fst snd]; eauto.
Qed.

Lemma native_output_parsed_or_kept_as_text_witness :
  exists rest,
    Handler.trace_of
      (Eks.handle (Scenario.cluster [] Scenario.log_stdout)
                  (Scenario.kubectl_request "logs web-0"))
    = Eks.Spawn "logs" ["web-0"]
      :: Eks.Respond 200
           (Eks.succeeded (Eks.message (VStr Scenario.log_stdout) 0) 40
                          "logs web-0" (VStr "kubectl"))
      :: rest.
Proof.
  apply (@native_output_parsed_or_kept_as_text
           (Scenario.cluster [] Scenario.log_stdout) "logs web-0"
           Scenario.log_stdout EmptyString).
  - discriminate.
  - vm_compute. tauto.
  - reflexivity.
Defined.

(** Output that is parsed can still fail in the formatter: the text
    [[null]] parses to a list, [Object.keys(null)] throws, and the request
    is answered with status 500. *)
Example parsed_list_of_null_is_answered_500 :
  Handler.trace_of
    (Eks.handle Cases.cluster_printing_null
                (Scenario.kubectl_request "get pods -o json"))
  = [Eks.Spawn "get" ["pods"; "-o"; "json"];
     Eks.Respond 500
       (Eks.executionFailed "Cannot convert undefined or null to object"
                            "get pods -o json")].
Proof. reflexivity. Qed.


(* ================================================================== *)
(** * Further properties of the routes and of the editor *)

(** ** Trimming, prefixes and upper case *)

Module StringFacts.

Import Facts.

Lemma chars_app (a b : string) :
  list_ascii_of_string (a ++ b)
  = (list_ascii_of_string a ++ list_ascii_of_string b)%list.
Proof. induction a; simpl; congruence. Qed.

Lemma text_of_app (a b : list ascii) :
  string_of_list_ascii (a ++ b)%list
  = string_of_list_ascii a ++ string_of_list_ascii b.
Proof. induction a; simpl; congruence. Qed.

Lemma rev_app (a b : string) :
  JsString.rev (a ++ b) = JsString.rev b ++ JsString.rev a.
Proof.
  unfold JsString.rev. rewrite chars_app, rev_app_distr, text_of_app. reflexivity.
Qed.

Lemma rev_involutive (s : string) : JsString.rev (JsString.rev s) = s.
Proof.
  unfold JsString.rev.
  rewrite list_ascii_of_string_of_list_ascii, List.rev_involutive.
  apply string_of_list_ascii_of_string.
Qed.

Lemma rev_snoc (body : string) (c : ascii) :
  JsString.rev (body ++ String c EmptyString) = String c (JsString.rev body).
Proof. rewrite rev_app. reflexivity. Qed.

Lemma length_app (a b : string) :
  String.length (a ++ b) = String.length a + String.length b.
Proof. induction a; simpl; congruence. Qed.

Lemma trimStart_stops (s : string) :
  JsString.span JsString.is_space s = 0 -> JsString.trimStart s = s.
Proof.
  destruct s as [|c s]; simpl; [reflexivity | ].
  destruct (JsString.is_space c); [discriminate | reflexivity].
Qed.

(** [trimStart] drops white space and nothing else, and stops at the first
    other character. *)
Lemma trimStart_split (s : string) :
  exists lead,
    s = lead ++ JsString.trimStart s
    /\ blank lead
    /\ JsString.span JsString.is_space (JsString.trimStart s) = 0.
Proof.
  unfold blank.
  induction s as [|c s [lead [E [Hl Hr]]]]; simpl.
  - exists EmptyString. auto.
  - destruct (JsString.is_space c) eqn:Hc.
    + exists (String c lead). simpl. rewrite Hc, Hl. split; [congruence | auto].
    + exists EmptyString. simpl. rewrite Hc. auto.
Qed.

Lemma trimStart_app (lead s : string) :
  blank lead -> JsString.trimStart (lead ++ s) = JsString.trimStart s.
Proof.
  unfold blank. induction lead as [|c lead IH]; simpl; [reflexivity | ].
  destruct (JsString.is_space c); [ | discriminate].
  intros H. apply IH. congruence.
Qed.

Lemma trimStart_keeps_suffix (a b : string) :
  JsString.span JsString.is_space b = 0 -> b <> EmptyString ->
  exists a', JsString.trimStart (a ++ b) = a' ++ b.
Proof.
  intros Hb Hne. induction a as [|c a [a' IH]]; simpl.
  - exists EmptyString. simpl. apply trimStart_stops. exact Hb.
  - destruct (JsString.is_space c).
    + exists a'. exact IH.
    + exists (String c a). reflexivity.
Qed.

(** [trimEnd] keeps a prefix that ends with a character other than white
    space. *)
Lemma trimEnd_keeps_prefix (p t : string) :
  ends_solid p -> exists u, JsString.trimEnd (p ++ t) = p ++ u.
Proof.
  intros [body [c [E Hc]]]. unfold JsString.trimEnd.
  rewrite rev_app.
  destruct (@trimStart_keeps_suffix (JsString.rev t) (JsString.rev p)) as [a' Ha].
  - subst p. rewrite rev_snoc. simpl. rewrite Hc. reflexivity.
  - subst p. rewrite rev_snoc. discriminate.
  - rewrite Ha, rev_app, rev_involutive. eauto.
Qed.

Lemma prefix_app (p u : string) : String.prefix p (p ++ u) = true.
Proof.
  induction p as [|c p IH]; simpl; [destruct u; reflexivity | ].
  destruct (ascii_dec c c); [exact IH | contradiction].
Qed.

(** [trim] keeps a prefix that starts and ends with characters other than
    white space. *)
Lemma trim_keeps_prefix (p t : string) :
  JsString.span JsString.is_space p = 0 -> ends_solid p ->
  exists u, JsString.trim (p ++ t) = p ++ u.
Proof.
  intros Hs He. unfold JsString.trim.
  rewrite (@trimStart_stops (p ++ t)).
  - exact (trimEnd_keeps_prefix t He).
  - destruct He as [body [c [E Hc]]]. destruct p as [|a p]; simpl in *.
    + destruct body; discriminate.
    + destruct (JsString.is_space a); [discriminate | reflexivity].
Qed.

Lemma trim_app_blank (lead s : string) :
  blank lead -> JsString.trim (lead ++ s) = JsString.trim s.
Proof.
  intros H. unfold JsString.trim. rewrite (trimStart_app s H). reflexivity.
Qed.

Lemma append_upper (u : string) (a b : string) : (u ++ a) ++ b = u ++ (a ++ b).
Proof. induction u; simpl; congruence. Qed.

Lemma toUpperCase_app (a b : string) :
  JsString.toUpperCase (a ++ b)
  = JsString.toUpperCase a ++ JsString.toUpperCase b.
Proof.
  induction a as [|c a IH]; simpl; [reflexivity | ].
  rewrite IH. symmetry. apply append_upper.
Qed.

(** White space has no upper case of its own. *)
Lemma upper_char_space (c : ascii) :
  JsString.is_space c = true -> JsString.upper_char c = String c EmptyString.
Proof.
  destruct c as [[] [] [] [] [] [] [] []]; intros H;
    solve [discriminate H | reflexivity].
Qed.

Lemma toUpperCase_blank (lead : string) :
  blank lead -> JsString.toUpperCase lead = lead.
Proof.
  unfold blank. induction lead as [|c lead IH]; simpl; [reflexivity | ].
  destruct (JsString.is_space c) eqn:Hc; [ | discriminate].
  intros H. rewrite (upper_char_space _ Hc), IH by congruence. reflexivity.
Qed.

(** The upper case of a character that is not white space starts with a
    character that is not white space. *)
Lemma upper_char_solid (c : ascii) :
  JsString.is_space c = false ->
  exists u rest,
    JsString.upper_char c = String u rest /\ JsString.is_space u = false.
Proof.
  destruct c as [[] [] [] [] [] [] [] []]; intros H;
    solve [discriminate H | eexists; eexists; split; reflexivity].
Qed.

(** [substring(0, n)] is a prefix, of at most [n] characters. *)
Lemma substring0_spec (n : nat) (s : string) :
  String.length (JsString.substring0 n s) = Nat.min n (String.length s)
  /\ String.prefix (JsString.substring0 n s) s = true.
Proof.
  unfold JsString.substring0. revert s.
  induction n as [|n IH]; intros s; destruct s as [|c s]; simpl; auto.
  destruct (IH s) as [Hl Hp]. split; [congruence | ].
  destruct (ascii_dec c c); [exact Hp | contradiction].
Qed.

End StringFacts.


(** ** Histories of calls *)

Module TraceFacts.

Import Facts.

Section Only.

Variables L E : Type.
Variable P : E -> Prop.

Lemma only_ret (A : Type) (a : A) : only P (@Handler.ret L E A a).
Proof. intros st H. exact H. Qed.

Lemma only_throw (A : Type) (m : string) : only P (@Handler.throw L E A m).
Proof. intros st H. exact H. Qed.

Lemma only_await (A : Type) (r : Js.result A) : only P (@Handler.await L E A r).
Proof. intros st H. exact H. Qed.

Lemma only_read : only P (@Handler.read L E).
Proof. intros st H. exact H. Qed.

Lemma only_assign (l : L) : only P (@Handler.assign L E l).
Proof. intros st H. exact H. Qed.

Lemma only_emit (e : E) : P e -> only P (@Handler.emit L E e).
Proof.
  intros He st H. simpl. apply Forall_app. split; [exact H | ].
  constructor; [exact He | constructor].
Qed.

Lemma only_bind (A B : Type) (m : Handler.M L E A) (k : A -> Handler.M L E B) :
  only P m -> (forall a, only P (k a)) -> only P (Handler.bind m k).
Proof.
  intros Hm Hk st H. unfold Handler.bind.
  specialize (Hm st H). destruct (m st) as [[a | e] st'].
  - apply Hk. exact Hm.
  - exact Hm.
Qed.

Lemma only_try_catch (A : Type) (body : Handler.M L E A)
    (handler : string -> Handler.M L E A) :
  only P body -> (forall e, only P (handler e)) ->
  only P (Handler.try_catch body handler).
Proof.
  intros Hb Hh st H. unfold Handler.try_catch.
  specialize (Hb st H). destruct (body st) as [[a | e] st'].
  - exact Hb.
  - apply Hh. exact Hb.
Qed.

Lemma only_try_finally (A : Type) (body : Handler.M L E A)
    (cleanup : Handler.M L E unit) :
  only P body -> only P cleanup -> only P (Handler.try_finally body cleanup).
Proof.
  intros Hb Hc st H. unfold Handler.try_finally.
  specialize (Hb st H). destruct (body st) as [r st'].
  specialize (Hc st' Hb). destruct (cleanup st') as [[u | e] st'']; exact Hc.
Qed.

Lemma only_run (A : Type) (m : Handler.M L E A) (l0 : L) :
  only P m -> Forall P (Handler.trace_of (Handler.run m l0)).
Proof. intros H. apply (H (l0, [])). constructor. Qed.

End Only.

End TraceFacts.

(** One step through the structure of a handler. *)
Ltac only_step :=
  match goal with
  | |- Facts.only _ (Handler.bind _ _) =>
      apply TraceFacts.only_bind; [ | intros ? ]
  | |- Facts.only _ (Handler.try_catch _ _) =>
      apply TraceFacts.only_try_catch; [ | intros ? ]
  | |- Facts.only _ (Handler.try_finally _ _) =>
      apply TraceFacts.only_try_finally
  | |- Facts.only _ (Handler.ret _) => apply TraceFacts.only_ret
  | |- Facts.only _ (Handler.throw _) => apply TraceFacts.only_throw
  | |- Facts.only _ (Handler.await _) => apply TraceFacts.only_await
  | |- Facts.only _ Handler.read => apply TraceFacts.only_read
  | |- Facts.only _ (Handler.assign _) => apply TraceFacts.only_assign
  | |- Facts.only _ (Handler.emit _) => apply TraceFacts.only_emit
  | |- Facts.only _ (if ?b then _ else _) => destruct b
  | |- Facts.only _ (match ?x with _ => _ end) => destruct x
  end.

(** ** The warehouse routes *)

(** X1.  A statement that passes the checks of the warehouse execute route
    reaches the driver once and unchanged: the handler connects once,
    executes the text of the request as it was sent (neither trimmed nor
    cut) on the connection it was given, and destroys that connection last;
    when the driver refuses the connection, it makes no other call.  There
    is no second attempt. *)
Theorem statement_reaches_driver_once_verbatim :
  forall (w : Snowflake.env) (q : string),
    q <> EmptyString ->
    Snowflake.isSuspicious q = false ->
    driver_calls (Handler.trace_of (Snowflake.handle w (VStr q)))
    = match Snowflake.connect w with
      | Ok conn => [Snowflake.Connect (Ok conn); Snowflake.Execute conn q;
                    Snowflake.Destroy conn]
      | Throw m => [Snowflake.Connect (Throw m)]
      end.
Proof.
  intros w q Hq Hs.
  unfold Snowflake.handle, Snowflake.post_execute.
  rewrite (nonempty_truthy Hq). cbn [negb orb is_string text]. rewrite Hs.
  unfold Snowflake.attempt, Snowflake.release, Snowflake.createConnection,
    Snowflake.executeQuery, Snowflake.respond.
  step_handler.
  destruct (Snowflake.connect w) as [conn | m]; cbn [fst snd app].
  - destruct (Snowflake.execute w conn q) as [m | cols rows sid]; cbn [fst snd app].
    + destruct (Snowflake.send w 500 _); reflexivity.
    + destruct (Snowflake.send w 200 _); cbn [fst snd app];
        [destruct (Snowflake.send w 500 _) | ]; reflexivity.
  - destruct (Snowflake.send w 500 _); reflexivity.
Qed.

Lemma statement_reaches_driver_once_verbatim_witness :
  driver_calls
    (Handler.trace_of
       (Snowflake.handle Scenario.warehouse_up (VStr "  SELECT 1;  ")))
  = [Snowflake.Connect (Ok 1); Snowflake.Execute 1 "  SELECT 1;  ";
     Snowflake.Destroy 1].
Proof.
  apply (@statement_reaches_driver_once_verbatim
           Scenario.warehouse_up "  SELECT 1;  ").
  - discriminate.
  - reflexivity.
Defined.

(** X2.  When sending a response does not throw, the warehouse execute
    route answers every request exactly once, and the [success] flag of the
    body agrees with the status.  Status 200 is sent only when the driver
    completed the statement, status 500 carries the message of the driver
    (of the connection or of the statement), and a request answered with
    status 400 has made no call to the driver. *)
Theorem warehouse_execute_answers_once :
  forall (w : Snowflake.env) (query : value),
    (forall status body, Snowflake.send w status body = None) ->
    let tr := Handler.trace_of (Snowflake.handle w query) in
    exists status body,
      warehouse_responses tr = [(status, body)]
      /\ prop body "success" = VBool (status =? 200)
      /\ (status = 200 ->
          exists conn cols rows sid,
            Snowflake.connect w = Ok conn
            /\ Snowflake.execute w conn (text query)
               = Snowflake.Completed cols rows sid)
      /\ (status = 500 ->
          exists m,
            prop body "message" = VStr m
            /\ (Snowflake.connect w = Throw m
                \/ exists conn,
                     Snowflake.connect w = Ok conn
                     /\ Snowflake.execute w conn (text query)
                        = Snowflake.Failed m))
      /\ (status <> 200 -> status <> 500 ->
          status = 400 /\ driver_calls tr = []).
Proof.
  intros w query Hsend.
  unfold Snowflake.handle, Snowflake.post_execute.
  destruct (negb (truthy query) || negb (is_string query)).
  - unfold Snowflake.respond. step_handler. rewrite Hsend. cbn.
    exists 400, Snowflake.invalidQuery.
    repeat split; try discriminate; auto.
  - destruct (Snowflake.isSuspicious (text query)).
    + unfold Snowflake.respond. step_handler. rewrite Hsend. cbn.
      exists 400, Snowflake.queryBlocked.
      repeat split; try discriminate; auto.
    + unfold Snowflake.attempt, Snowflake.release, Snowflake.createConnection,
        Snowflake.executeQuery, Snowflake.respond.
      step_handler.
      destruct (Snowflake.connect w) as [conn | m] eqn:Hc; cbn [fst snd app].
      * destruct (Snowflake.execute w conn (text query))
          as [m | cols rows sid] eqn:He; cbn [fst snd app];
          rewrite Hsend; cbn.
        -- eexists 500, _. repeat split; try discriminate; try congruence.
           intros _. exists m. split; [reflexivity | ]. right. eauto.
        -- eexists 200, _. repeat split; try discriminate; try congruence.
           intros _. eauto 6.
      * rewrite Hsend. cbn.
        eexists 500, _. repeat split; try discriminate; try congruence.
        intros _. exists m. split; [reflexivity | ]. left. reflexivity.
Qed.

Lemma warehouse_execute_answers_once_witness :
  exists status body,
    warehouse_responses
      (Handler.trace_of (Snowflake.handle Scenario.warehouse_up (VStr "SELECT 1")))
    = [(status, body)]
    /\ prop body "success" = VBool (status =? 200).
Proof.
  destruct (@warehouse_execute_answers_once Scenario.warehouse_up (VStr "SELECT 1"))
    as [status [body [H1 [H2 _]]]].
  - reflexivity.
  - exists status, body. split; [exact H1 | exact H2].
Defined.

(** X3.  The three read-only warehouse routes ([/test-connection],
    [/schemas], [/tables]) follow the same discipline as the execute
    route, whatever the driver answers and wherever sending throws: one
    connection, their fixed statement executed once on it, the connection
    destroyed last, and no connection left held. *)
Theorem browse_routes_release_the_connection :
  forall (w : Snowflake.env) (r : SnowflakeBrowse.route),
    let tr := Handler.trace_of (SnowflakeBrowse.handle w r) in
    Snowflake.held_after [] tr = []
    /\ driver_calls tr
       = match Snowflake.connect w with
         | Ok conn =>
             [Snowflake.Connect (Ok conn);
              Snowflake.Execute conn (SnowflakeBrowse.statement r);
              Snowflake.Destroy conn]
         | Throw m => [Snowflake.Connect (Throw m)]
         end.
Proof.
  intros w r.
  assert (G : forall sql answer error,
             let tr := Handler.trace_of
                         (Handler.run
                            (SnowflakeBrowse.acquire_execute_release
                               w sql answer error) None) in
             Snowflake.held_after [] tr = []
             /\ driver_calls tr
                = match Snowflake.connect w with
                  | Ok conn =>
                      [Snowflake.Connect (Ok conn); Snowflake.Execute conn sql;
                       Snowflake.Destroy conn]
                  | Throw m => [Snowflake.Connect (Throw m)]
                  end).
  { intros sql answer error.
    unfold SnowflakeBrowse.acquire_execute_release, Snowflake.release,
      Snowflake.createConnection, Snowflake.executeQuery, Snowflake.respond.
    step_handler.
    destruct (Snowflake.connect w) as [conn | m]; cbn [fst snd app].
    - destruct (Snowflake.execute w conn sql) as [m | cols rows sid];
        cbn [fst snd app].
      + destruct (Snowflake.send w 500 _); cbn;
          destruct (Nat.eq_dec conn conn); try contradiction; auto.
      + destruct (Snowflake.send w 200 _); cbn [fst snd app];
          [destruct (Snowflake.send w 500 _) | ]; cbn;
          destruct (Nat.eq_dec conn conn); try contradiction; auto.
    - destruct (Snowflake.send w 500 _); cbn; auto. }
  destruct r; apply G.
Qed.

(** X4.  What [executeQuery] resolves with.  When the driver completes a
    statement, [columns] lists the names of [columnMetadata] in the same
    order, one per column of the statement; when the driver passes an array
    of rows, [rows] is that array and [rowCount] its length; when it passes
    none, [rows] is the empty array and [rowCount] is 0.  When the driver
    fails the statement, [executeQuery] rejects with the driver's message. *)
Theorem executeQuery_result_is_consistent :
  forall (w : Snowflake.env) (conn : Snowflake.connection) (sql : string)
         (st : option Snowflake.connection * list Snowflake.event),
    match Snowflake.execute w conn sql with
    | Snowflake.Failed m =>
        fst (Snowflake.executeQuery w conn sql st) = Throw m
    | Snowflake.Completed cols rows sid =>
        exists r meta,
          fst (Snowflake.executeQuery w conn sql st) = Ok r
          /\ prop r "columnMetadata" = VArr meta
          /\ List.length meta = List.length cols
          /\ prop r "columns" = VArr (map (fun m => prop m "name") meta)
          /\ map (fun m => prop m "name") meta = map Snowflake.getName cols
          /\ (forall xs, rows = VArr xs ->
              prop r "rows" = VArr xs
              /\ prop r "rowCount" = VNum (Z.of_nat (List.length xs)))
          /\ (truthy rows = false ->
              prop r "rows" = VArr []
              /\ prop r "rowCount" = VNum 0)
    end.
Proof.
  intros w conn sql st. unfold Snowflake.executeQuery. step_handler.
  destruct (Snowflake.execute w conn sql) as [m | cols rows sid];
    [reflexivity | ].
  eexists. eexists. split; [reflexivity | ].
  cbn [prop assoc String.eqb Ascii.eqb Bool.eqb].
  repeat split.
  - apply length_map.
  - rewrite map_map. reflexivity.
  - subst rows. reflexivity.
  - subst rows. reflexivity.
  - unfold or_else. rewrite H. reflexivity.
  - rewrite H. reflexivity.
Qed.


(** ** The echoed query *)

(** X5.  What the two execute routes echo of the query.  A response with
    status 400 echoes nothing; every other response echoes a prefix of the
    text of the request, of at most 200 characters.  This holds on every
    path of both handlers, wherever sending throws. *)
Theorem echoed_query_is_a_bounded_prefix :
  forall (w : Snowflake.env) (c : Eks.env) (q : string) (queryType : value),
    Forall (fun e => match e with
                     | Snowflake.Respond status body =>
                         Facts.echo_bounded q status body
                     | _ => True
                     end)
           (Handler.trace_of (Snowflake.handle w (VStr q)))
    /\ Forall (fun e => match e with
                        | Eks.Respond status body =>
                            Facts.echo_bounded q status body
                        | _ => True
                        end)
              (Handler.trace_of
                 (Eks.handle c {| Eks.query := VStr q;
                                  Eks.queryType := queryType |})).
Proof.
  intros w c q queryType.
  assert (B : exists t,
             VStr (JsString.substring0 200 q) = VStr t
             /\ String.length t <= 200 /\ String.prefix t q = true).
  { destruct (StringFacts.substring0_spec 200 q) as [Hl Hp].
    eexists. split; [reflexivity | ].
    split; [rewrite Hl; apply Nat.le_min_l | exact Hp]. }
  assert (E1 : forall m, Facts.echo_bounded q 500 (Snowflake.executionFailed m q)).
  { intros m. exact B. }
  assert (E2 : forall d t, Facts.echo_bounded q 200 (Snowflake.succeeded d t q)).
  { intros d t. exact B. }
  assert (E3 : forall m, Facts.echo_bounded q 500 (Eks.executionFailed m q)).
  { intros m. exact B. }
  assert (E4 : forall d t qt, Facts.echo_bounded q 200 (Eks.succeeded d t q qt)).
  { intros d t qt. exact B. }
  assert (N1 : Facts.echo_bounded q 400 Snowflake.invalidQuery) by reflexivity.
  assert (N2 : Facts.echo_bounded q 400 Snowflake.queryBlocked) by reflexivity.
  assert (N3 : Facts.echo_bounded q 400 Eks.invalidQuery) by reflexivity.
  assert (N4 : Facts.echo_bounded q 400 Eks.commandNotAllowed) by reflexivity.
  split.
  - apply TraceFacts.only_run.
    unfold Snowflake.post_execute, Snowflake.attempt, Snowflake.release,
      Snowflake.createConnection, Snowflake.executeQuery, Snowflake.respond.
    cbn [text].
    repeat only_step; auto; exact I.
  - apply TraceFacts.only_run.
    unfold Eks.post_execute, Eks.executeKubectl, Eks.executeSQLLikeQuery,
      Eks.list_and_project, Eks.initializeKubeClient, Eks.respond.
    cbn [Eks.query Eks.queryType text].
    repeat only_step; auto; exact I.
Qed.


(** ** The words of a command text *)

Module WordFacts.

Import Facts.

Lemma spaceless_snoc (cur : string) (c : ascii) :
  spaceless (JsString.snoc cur c) = spaceless cur && negb (JsString.is_space c).
Proof.
  unfold JsString.snoc. induction cur as [|a cur IH]; simpl.
  - apply andb_true_r.
  - rewrite IH. apply andb_assoc.
Qed.

Lemma snoc_nonempty (cur : string) (c : ascii) : JsString.snoc cur c <> EmptyString.
Proof. destruct cur; discriminate. Qed.

Lemma re_spaces_cons (c : ascii) (s : string) :
  JsString.re_spaces (String c s)
  = if JsString.is_space c
    then Some (S (JsString.span JsString.is_space s))
    else None.
Proof.
  unfold JsString.re_spaces. simpl. destruct (JsString.is_space c); reflexivity.
Qed.

(** No piece of a split at white space holds white space. *)
Lemma split_pieces_spaceless (s : string) :
  forall skip cur,
    spaceless cur = true ->
    Forall (fun piece => spaceless piece = true)
           (JsString.split_re_go JsString.re_spaces skip cur s).
Proof.
  induction s as [|c s IH]; intros skip cur Hcur.
  - simpl. constructor; [exact Hcur | constructor].
  - cbn [JsString.split_re_go]. destruct skip as [|k]; [ | apply IH; exact Hcur].
    rewrite re_spaces_cons. destruct (JsString.is_space c) eqn:Hc.
    + constructor; [exact Hcur | apply IH; reflexivity].
    + apply IH. rewrite spaceless_snoc, Hcur, Hc. reflexivity.
Qed.

Lemma ends_solid_cons (c : ascii) (s : string) :
  ends_solid (String c s) ->
  (s = EmptyString /\ JsString.is_space c = false) \/ ends_solid s.
Proof.
  intros [body [d [E Hd]]]. destruct body as [|b body]; simpl in E.
  - inversion E; subst. left. auto.
  - inversion E; subst. right. exists body, d. auto.
Qed.

Lemma ends_solid_nonempty (s : string) : ends_solid s -> s <> EmptyString.
Proof. intros [body [d [E _]]]. subst s. destruct body; discriminate. Qed.

(** In a text that ends with a character other than white space, a split
    that has read something, or that stands in front of the white space it
    is about to pass over, yields no empty piece. *)
Lemma split_pieces_nonempty (s : string) :
  (forall cur,
      cur <> EmptyString -> s = EmptyString \/ ends_solid s ->
      Forall (fun piece => piece <> EmptyString)
             (JsString.split_re_go JsString.re_spaces 0 cur s))
  /\ (ends_solid s ->
      Forall (fun piece => piece <> EmptyString)
             (JsString.split_re_go JsString.re_spaces
                (JsString.span JsString.is_space s) EmptyString s)).
Proof.
  induction s as [|c s [IHa IHb]].
  - split.
    + intros cur Hcur _. simpl. constructor; [exact Hcur | constructor].
    + intros H. apply ends_solid_nonempty in H. contradiction.
  - assert (T : ends_solid (String c s) -> JsString.is_space c = true ->
                ends_solid s).
    { intros H Hc. destruct (ends_solid_cons H) as [[_ Hn] | H']; [congruence | exact H']. }
    split.
    + intros cur Hcur He. cbn [JsString.split_re_go]. rewrite re_spaces_cons.
      destruct He as [He | He]; [discriminate | ].
      destruct (JsString.is_space c) eqn:Hc.
      * constructor; [exact Hcur | apply IHb; auto].
      * apply IHa; [apply snoc_nonempty | ].
        destruct (ends_solid_cons He) as [[E _] | H']; auto.
    + intros He. cbn [JsString.span]. destruct (JsString.is_space c) eqn:Hc.
      * cbn [JsString.split_re_go]. apply IHb; auto.
      * cbn [JsString.split_re_go]. rewrite re_spaces_cons, Hc.
        apply IHa; [apply snoc_nonempty | ].
        destruct (ends_solid_cons He) as [[E _] | H']; auto.
Qed.

(** A trimmed text is empty, or starts and ends with characters other than
    white space. *)
Lemma trim_is_solid (s : string) :
  JsString.span JsString.is_space (JsString.trim s) = 0
  /\ (JsString.trim s = EmptyString \/ ends_solid (JsString.trim s)).
Proof.
  unfold JsString.trim, JsString.trimEnd.
  destruct (StringFacts.trimStart_split s) as [_ [_ [_ Hu]]].
  set (u := JsString.trimStart s) in *.
  destruct (StringFacts.trimStart_split (JsString.rev u)) as [lead [E [Hl Hd]]].
  set (d := JsString.trimStart (JsString.rev u)) in *.
  assert (Eu : u = JsString.rev d ++ JsString.rev lead).
  { rewrite <- StringFacts.rev_app, <- E. symmetry. apply StringFacts.rev_involutive. }
  split.
  - destruct (JsString.rev d) as [|a r] eqn:Hr; [reflexivity | ].
    rewrite Eu in Hu. simpl in Hu. simpl.
    destruct (JsString.is_space a); [discriminate | reflexivity].
  - destruct d as [|a d'] eqn:Hdd; [left; reflexivity | right].
    exists (JsString.rev d'), a. split.
    + change (String a d') with (String a EmptyString ++ d').
      rewrite StringFacts.rev_app. reflexivity.
    + simpl in Hd. destruct (JsString.is_space a); [discriminate | reflexivity].
Qed.

End WordFacts.

(** X6.  The words of a command text.  [query.trim().split(/\s+/)] yields
    pieces without white space, whatever the text; when the text holds
    anything but white space, no piece is empty, so the verb and every
    argument handed to [kubectl] is a non-empty word; and a text of white
    space alone yields the single empty verb. *)
Theorem arguments_are_words :
  forall q : string,
    Forall (fun a => Facts.spaceless a = true) (Eks.arguments q)
    /\ (JsString.trim q <> EmptyString ->
        Forall (fun a => a <> EmptyString) (Eks.arguments q))
    /\ (JsString.trim q = EmptyString -> Eks.arguments q = [EmptyString]).
Proof.
  intros q. unfold Eks.arguments, JsString.split_re. split; [ | split].
  - apply WordFacts.split_pieces_spaceless. reflexivity.
  - intros Hne. destruct (WordFacts.trim_is_solid q) as [Hs [He | He]];
      [contradiction | ].
    rewrite <- Hs at 1.
    apply (proj2 (WordFacts.split_pieces_nonempty (JsString.trim q))). exact He.
  - intros E. rewrite E. reflexivity.
Qed.

Lemma arguments_are_words_witness :
  Forall (fun a => a <> EmptyString)
         (Eks.arguments ("  get   pods" ++ JsString.LF ++ "-n kube-system  ")).
Proof.
  apply (proj1 (proj2 (arguments_are_words
                         ("  get   pods" ++ JsString.LF ++ "-n kube-system  ")))).
  vm_compute. discriminate.
Defined.


(** ** Native commands *)

Lemma includes_true (xs : list string) (x : string) :
  In x xs -> Eks.includes xs x = true.
Proof.
  intros H. unfold Eks.includes. apply existsb_exists.
  exists x. split; [exact H | apply String.eqb_refl].
Qed.

(** The calls of the route for an allowed native command. *)
Lemma allowed_command_backend_calls :
  forall (c : Eks.env) (q : string) (queryType : value),
    q <> EmptyString ->
    queryType = VUndefined \/ queryType = VStr "kubectl" ->
    In (Eks.verb q) Eks.allowedCommands ->
    filter Eks.is_backend_call
      (Handler.trace_of
         (Eks.handle c {| Eks.query := VStr q; Eks.queryType := queryType |}))
    = [Eks.Spawn (Eks.verb q) (tl (Eks.arguments q))].
Proof.
  intros c q queryType Hq Ht Hv. apply includes_true in Hv.
  unfold Eks.handle, Eks.post_execute. cbn [Eks.query Eks.queryType].
  rewrite (nonempty_truthy Hq). cbn [negb orb is_string text].
  destruct Ht; subst queryType; cbv iota.
  all: change (eq_str (VStr "kubectl") "kubectl") with true; cbv iota.
  all: fold (Eks.verb q); rewrite Hv; cbn [negb].
  all: unfold Eks.executeKubectl, Eks.respond; step_handler.
  all: destruct (Eks.kubectl c (Eks.verb q) (tl (Eks.arguments q)))
         as [code out err | m | m]; cbn [fst snd app].
  all: try destruct (code =? 0)%Z; cbn [fst snd app].
  all: try destruct (Eks.formatKubernetesResult c _); cbn [fst snd app].
  all: try destruct (Eks.send c 200 _); cbn [fst snd app].
  all: try destruct (Eks.send c 500 _); cbn [fst snd app].
  all: reflexivity.
Qed.

(** X7.  An allowed native command spawns the tool exactly once, with the
    verb and the remaining words of the text, and makes no other call to a
    backend -- however the tool ends, whatever it prints and wherever
    sending throws.  A failed command is not spawned again. *)
Theorem native_command_spawns_once :
  forall (c : Eks.env) (q : string) (queryType : value),
    q <> EmptyString ->
    queryType = VUndefined \/ queryType = VStr "kubectl" ->
    In (Eks.verb q) Eks.allowedCommands ->
    filter Eks.is_backend_call
      (Handler.trace_of
         (Eks.handle c {| Eks.query := VStr q; Eks.queryType := queryType |}))
    = [Eks.Spawn (Eks.verb q) (tl (Eks.arguments q))].
Proof. exact allowed_command_backend_calls. Qed.

Lemma native_command_spawns_once_witness :
  filter Eks.is_backend_call
    (Handler.trace_of
       (Eks.handle (Scenario.cluster [] Scenario.nodes_stdout)
                   (Scenario.kubectl_request "get nodes -o wide")))
  = [Eks.Spawn "get" ["nodes"; "-o"; "wide"]].
Proof.
  apply (@native_command_spawns_once
           (Scenario.cluster [] Scenario.nodes_stdout) "get nodes -o wide"
           VUndefined).
  - discriminate.
  - left; reflexivity.
  - vm_compute. tauto.
Defined.

(** X8.  When an allowed native command does not succeed, the request is
    answered with status 500 and [Query execution failed], and nothing
    reaches the formatter.  After an exit with a code other than 0 the
    message is [kubectl command failed: ] followed by the standard error
    of the tool, or by its standard output when the standard error is
    empty; after an [error] event it is [Failed to execute kubectl: ]
    followed by the message of the event; and when [spawn] itself throws,
    as on an argument with a NUL character, it is the message of that
    error, with no prefix. *)
Theorem failed_native_command_is_reported :
  forall (c : Eks.env) (q : string),
    q <> EmptyString ->
    In (Eks.verb q) Eks.allowedCommands ->
    (forall stdout stderr,
        Eks.kubectl c (Eks.verb q) (tl (Eks.arguments q))
        <> Eks.Close 0 stdout stderr) ->
    Handler.trace_of (Eks.handle c (Scenario.kubectl_request q))
    = [Eks.Spawn (Eks.verb q) (tl (Eks.arguments q));
       Eks.Respond 500
         (Eks.executionFailed
            (match Eks.kubectl c (Eks.verb q) (tl (Eks.arguments q)) with
             | Eks.Close _ stdout stderr =>
                 "kubectl command failed: "
                 ++ (if (stderr =? EmptyString)%string then stdout else stderr)
             | Eks.Error m => "Failed to execute kubectl: " ++ m
             | Eks.Thrown m => m
             end)
            q)].
Proof.
  intros c q Hq Hv Hfail. apply includes_true in Hv.
  unfold Eks.handle, Eks.post_execute, Scenario.kubectl_request.
  cbn [Eks.query Eks.queryType].
  rewrite (nonempty_truthy Hq). cbn [negb orb is_string text].
  change (eq_str (VStr "kubectl") "kubectl") with true. cbv iota.
  fold (Eks.verb q). rewrite Hv. cbn [negb].
  unfold Eks.executeKubectl, Eks.respond. step_handler.
  destruct (Eks.kubectl c (Eks.verb q) (tl (Eks.arguments q)))
    as [code out err | m | m]; cbn [fst snd app].
  - destruct (code =? 0)%Z eqn:Hcode.
    + apply Z.eqb_eq in Hcode. subst code. exfalso. exact (Hfail out err eq_refl).
    + cbn [fst snd app]. unfold or_else. cbn [truthy text].
      destruct (err =? EmptyString)%string; cbn [negb text];
        destruct (Eks.send c 500 _); reflexivity.
  - destruct (Eks.send c 500 _); reflexivity.
  - destruct (Eks.send c 500 _); reflexivity.
Qed.

Lemma failed_native_command_is_reported_witness :
  Handler.trace_of
    (Eks.handle Cases.cluster_refusing_spawn
                (Scenario.kubectl_request Cases.command_with_nul))
  = [Eks.Spawn "get" [Cases.argument_with_nul];
     Eks.Respond 500
       (Eks.executionFailed
          "The argument 'args[1]' must be a string without null bytes. Received 'a\x00b'"
          Cases.command_with_nul)].
Proof.
  apply (@failed_native_command_is_reported
           Cases.cluster_refusing_spawn Cases.command_with_nul).
  - discriminate.
  - vm_compute. tauto.
  - discriminate.
Defined.

(** The same for a tool that exits with code 1. *)
Example describe_of_a_missing_pod_fails :
  Handler.trace_of
    (Eks.handle Cases.cluster_not_found
                (Scenario.kubectl_request "describe pod web-9"))
  = [Eks.Spawn "describe" ["pod"; "web-9"];
     Eks.Respond 500
       (Eks.executionFailed
          "kubectl command failed: Error from server (NotFound)"
          "describe pod web-9")].
Proof. reflexivity. Qed.

(** ** Resource queries *)

Lemma list_and_project_calls (call : Eks.event)
    (answer : Js.result (list value)) (project : value -> Js.result value)
    (st : unit * list Eks.event) :
  snd (snd (Eks.list_and_project call answer project st))
  = (snd st ++ [call])%list.
Proof.
  unfold Eks.list_and_project. step_handler.
  destruct answer as [items | m]; cbn [fst snd]; [ | reflexivity].
  destruct (mapM project items); reflexivity.
Qed.

(** The calls of [executeSQLLikeQuery]: the client is set up first, then
    at most one list call follows, and none when setting up fails. *)
Lemma resource_query_backend_calls (c : Eks.env) (q : string)
    (st : unit * list Eks.event) :
  exists calls,
    snd (snd (Eks.executeSQLLikeQuery c q st))
    = (snd st ++ Eks.InitializeKubeClient :: calls)%list
    /\ List.length calls <= 1
    /\ forallb Facts.is_list_call calls = true
    /\ (forall m, Eks.kubeconfig c = Some m ->
        calls = [] /\ fst (Eks.executeSQLLikeQuery c q st) = Throw m).
Proof.
  unfold Eks.executeSQLLikeQuery, Eks.initializeKubeClient.
  unfold Handler.bind at 1 2. unfold Handler.emit at 1. cbn [fst snd].
  destruct (Eks.kubeconfig c) as [m | ] eqn:Hk.
  - exists []. unfold Handler.throw. cbn [fst snd length forallb].
    split; [reflexivity | split; [auto | split; [reflexivity | ]]].
    intros m' E. inversion E. split; reflexivity.
  - unfold Handler.ret. cbn [fst snd].
    repeat match goal with
           | |- context [if ?b then _ else _] => destruct b
           end.
    all: try (rewrite list_and_project_calls; cbn [snd];
              eexists [_]; rewrite <- app_assoc; cbn [app length forallb];
              split; [reflexivity | split; [auto | split; [reflexivity | ]]];
              intros m E; discriminate).
    exists []. unfold Handler.throw. cbn [fst snd length forallb].
    split; [reflexivity | split; [auto | split; [reflexivity | ]]].
    intros m E. discriminate.
Qed.

Lemma list_calls_filtered (calls rest : list Eks.event) :
  forallb Facts.is_list_call calls = true ->
  filter Eks.is_backend_call (calls ++ rest)%list
  = (calls ++ filter Eks.is_backend_call rest)%list.
Proof.
  induction calls as [|e calls IH]; intros H; [reflexivity | ].
  simpl in H. apply andb_true_iff in H. destruct H as [He Hr].
  destruct e; try discriminate; simpl; rewrite (IH Hr); reflexivity.
Qed.

(** X9.  A resource query sets up the orchestration client before it looks
    at the text, and then makes at most one list call: none when the client
    cannot be set up -- the request is then answered with status 500 and
    the message of that failure, whatever the text -- and never a spawn. *)
Theorem resource_query_makes_at_most_one_list_call :
  forall (c : Eks.env) (q : string),
    q <> EmptyString ->
    let tr := Handler.trace_of (Eks.handle c (Scenario.sql_request q)) in
    exists calls,
      filter Eks.is_backend_call tr = Eks.InitializeKubeClient :: calls
      /\ List.length calls <= 1
      /\ forallb Facts.is_list_call calls = true
      /\ (forall m, Eks.kubeconfig c = Some m ->
          tr = Eks.InitializeKubeClient
               :: [Eks.Respond 500 (Eks.executionFailed m q)]).
Proof.
  intros c q Hq tr.
  assert (G : exists calls rest,
             tr = (Eks.InitializeKubeClient :: calls ++ rest)%list
             /\ filter Eks.is_backend_call rest = []
             /\ List.length calls <= 1
             /\ forallb Facts.is_list_call calls = true
             /\ (forall m, Eks.kubeconfig c = Some m ->
                 calls = []
                 /\ rest = [Eks.Respond 500 (Eks.executionFailed m q)])).
  { subst tr.
    unfold Eks.handle, Eks.post_execute, Scenario.sql_request.
    cbn [Eks.query Eks.queryType].
    rewrite (nonempty_truthy Hq). cbn [negb orb is_string text].
    change (eq_str (VStr "sql") "kubectl") with false.
    change (eq_str (VStr "sql") "sql") with true. cbv iota.
    unfold Handler.run, Handler.trace_of, Handler.try_catch.
    unfold Handler.bind at 1 2.
    destruct (resource_query_backend_calls c q (tt, []))
      as [calls [Hc [Hl [Hlist Hcfg]]]].
    destruct (Eks.executeSQLLikeQuery c q (tt, [])) as [[v | m] [u tr]];
      cbn [fst snd app] in *; subst tr; exists calls.
    - unfold Handler.ret, Handler.await, Eks.respond. step_handler.
      destruct (Eks.formatKubernetesResult c v); cbn [fst snd app];
        [destruct (Eks.send c 200 _); cbn [fst snd app];
         [destruct (Eks.send c 500 _) | ] | destruct (Eks.send c 500 _)];
        cbn [fst snd]; rewrite <- ?app_assoc;
        eexists; (split; [reflexivity | ]);
        (split; [reflexivity | ]); (split; [exact Hl | ]);
        (split; [exact Hlist | ]);
        intros m Hm; destruct (Hcfg m Hm) as [_ E]; discriminate.
    - unfold Eks.respond. step_handler.
      destruct (Eks.send c 500 _); cbn [fst snd];
        eexists; (split; [reflexivity | ]);
        (split; [reflexivity | ]); (split; [exact Hl | ]);
        (split; [exact Hlist | ]);
        intros m' Hm; destruct (Hcfg m' Hm) as [Ec E];
        inversion E; subst; split; reflexivity. }
  destruct G as [calls [rest [E [Hrest [Hl [Hlist Hcfg]]]]]].
  exists calls. rewrite E. split; [ | split; [exact Hl | split; [exact Hlist | ]]].
  - cbn [filter Eks.is_backend_call].
    rewrite (@list_calls_filtered calls rest Hlist), Hrest, app_nil_r. reflexivity.
  - intros m Hm. destruct (Hcfg m Hm) as [Ec Er]. subst calls rest. reflexivity.
Qed.

Lemma resource_query_makes_at_most_one_list_call_witness :
  exists calls,
    filter Eks.is_backend_call
      (Handler.trace_of
         (Eks.handle Scenario.two_pods (Scenario.sql_request "select * from pods")))
    = Eks.InitializeKubeClient :: calls
    /\ List.length calls <= 1.
Proof.
  destruct (@resource_query_makes_at_most_one_list_call
              Scenario.two_pods "select * from pods")
    as [calls [H1 [H2 _]]].
  - discriminate.
  - exists calls. split; [exact H1 | exact H2].
Defined.


Lemma phrase_is_solid (k : Eks.kind) :
  JsString.span JsString.is_space (Facts.phrase k) = 0
  /\ Facts.ends_solid (Facts.phrase k).
Proof.
  split; [destruct k; reflexivity | ].
  destruct k.
  - exists "SELECT * FROM POD", "S"%char. split; reflexivity.
  - exists "SELECT * FROM DEPLOYMENT", "S"%char. split; reflexivity.
  - exists "SELECT * FROM SERVICE", "S"%char. split; reflexivity.
  - exists "SELECT * FROM NODE", "S"%char. split; reflexivity.
Qed.

(** X10.  The translator reads a resource query without regard to case,
    to white space in front of it and to whatever follows the phrase: a
    text whose upper case is one of the four phrases, with white space
    before it and any text after it -- a [WHERE] clause, a semicolon, more
    letters -- is executed exactly as the phrase itself. *)
Theorem resource_query_matches_by_prefix :
  forall (c : Eks.env) (k : Eks.kind) (lead q rest : string)
         (st : unit * list Eks.event),
    Facts.blank lead ->
    JsString.toUpperCase q = Facts.phrase k ->
    Eks.executeSQLLikeQuery c (lead ++ q ++ rest) st
    = Eks.executeSQLLikeQuery c (Facts.phrase k) st.
Proof.
  intros c k lead q rest st Hlead Hq.
  unfold Eks.executeSQLLikeQuery.
  rewrite !StringFacts.toUpperCase_app, Hq, (StringFacts.toUpperCase_blank Hlead).
  rewrite (StringFacts.trim_app_blank _ Hlead).
  destruct (phrase_is_solid k) as [Hs He].
  destruct (StringFacts.trim_keeps_prefix (JsString.toUpperCase rest) Hs He)
    as [u Hu].
  rewrite Hu. unfold JsString.startsWith.
  destruct k; cbn [Facts.phrase]; rewrite StringFacts.prefix_app; reflexivity.
Qed.

Lemma resource_query_matches_by_prefix_witness :
  Eks.executeSQLLikeQuery Scenario.two_pods
    ("  " ++ "Select * From Pods" ++ " WHERE namespace = 'x';") (tt, [])
  = Eks.executeSQLLikeQuery Scenario.two_pods "SELECT * FROM PODS" (tt, []).
Proof.
  apply (@resource_query_matches_by_prefix Scenario.two_pods Eks.Pods
           "  " "Select * From Pods" " WHERE namespace = 'x';").
  - reflexivity.
  - reflexivity.
Defined.

(** A text that starts with a character that is neither white space nor a
    letter S starts with none of the four phrases, once upper-cased and
    trimmed. *)
Lemma no_phrase_matches (a : ascii) (t : string) (k : Eks.kind) :
  JsString.is_space a = false ->
  (forall rest, JsString.upper_char a <> String "S"%char rest) ->
  JsString.startsWith (JsString.trim (JsString.toUpperCase (String a t)))
                      (Facts.phrase k) = false.
Proof.
  intros Ha Hs.
  destruct (StringFacts.upper_char_solid _ Ha) as [u [r [Hu Hsolid]]].
  assert (Hne : "S"%char <> u).
  { intros E. subst u. exact (Hs r Hu). }
  assert (Hup : exists u',
             JsString.trim (JsString.toUpperCase (String a t)) = String u u').
  { cbn [JsString.toUpperCase]. rewrite Hu.
    change (String u r ++ JsString.toUpperCase t)
      with (String u EmptyString ++ (r ++ JsString.toUpperCase t)).
    apply StringFacts.trim_keeps_prefix.
    - simpl. rewrite Hsolid. reflexivity.
    - exists EmptyString, u. split; [reflexivity | exact Hsolid]. }
  destruct Hup as [u' Hup]. rewrite Hup. unfold JsString.startsWith.
  destruct k; exact (prefix_head_neq _ _ Hne).
Qed.

(** The route on such a text, as a resource query. *)
Lemma unsupported_trace (c : Eks.env) (a : ascii) (t : string) :
  JsString.is_space a = false ->
  (forall rest, JsString.upper_char a <> String "S"%char rest) ->
  Eks.kubeconfig c = None ->
  Handler.trace_of (Eks.handle c (Scenario.sql_request (String a t)))
  = [Eks.InitializeKubeClient;
     Eks.Respond 500 (Eks.executionFailed Facts.unsupported (String a t))].
Proof.
  intros Ha Hs Hk.
  pose proof (fun k => @no_phrase_matches a t k Ha Hs) as Hp.
  unfold Eks.handle, Eks.post_execute, Scenario.sql_request.
  cbn [Eks.query Eks.queryType truthy negb orb is_string text String.eqb].
  change (eq_str (VStr "sql") "kubectl") with false.
  change (eq_str (VStr "sql") "sql") with true. cbv iota.
  unfold Eks.executeSQLLikeQuery, Eks.initializeKubeClient.
  rewrite Hk.
  pose proof (Hp Eks.Pods) as H1. pose proof (Hp Eks.Deployments) as H2.
  pose proof (Hp Eks.Services) as H3. pose proof (Hp Eks.Nodes) as H4.
  cbn [Facts.phrase] in H1, H2, H3, H4. rewrite H1, H2, H3, H4.
  unfold Eks.respond. step_handler.
  destruct (Eks.send c 500 _); reflexivity.
Qed.

(** Among the characters of the model, only [s], [S] and sharp s have an
    upper case that starts with [S]. *)
Lemma upper_case_starting_with_S (a : ascii) (rest : string) :
  JsString.upper_char a = String "S"%char rest ->
  a = "s"%char \/ a = "S"%char \/ a = ascii_of_nat 223.
Proof.
  destruct a as [[] [] [] [] [] [] [] []]; vm_compute; intros H;
    try discriminate H; auto.
Qed.

(** The upper case of sharp s is [SS], which starts none of the phrases. *)
Lemma sharp_s_starts_no_phrase (t : string) (k : Eks.kind) :
  JsString.startsWith
    (JsString.trim (JsString.toUpperCase (String (ascii_of_nat 223) t)))
    (Facts.phrase k) = false.
Proof.
  cbn [JsString.toUpperCase].
  change (JsString.upper_char (ascii_of_nat 223)) with "SS".
  destruct (@StringFacts.trim_keeps_prefix "SS" (JsString.toUpperCase t))
    as [u Hu].
  - reflexivity.
  - exists "S", "S"%char. split; reflexivity.
  - rewrite Hu. destruct k; reflexivity.
Qed.

(** The route on a text that starts none of the phrases. *)
Lemma phraseless_trace (c : Eks.env) (q : string) :
  q <> EmptyString ->
  (forall k,
      JsString.startsWith (JsString.trim (JsString.toUpperCase q))
                          (Facts.phrase k) = false) ->
  Eks.kubeconfig c = None ->
  Handler.trace_of (Eks.handle c (Scenario.sql_request q))
  = [Eks.InitializeKubeClient;
     Eks.Respond 500 (Eks.executionFailed Facts.unsupported q)].
Proof.
  intros Hq Hp Hk.
  unfold Eks.handle, Eks.post_execute, Scenario.sql_request.
  cbn [Eks.query Eks.queryType].
  rewrite (nonempty_truthy Hq). cbn [negb orb is_string text].
  change (eq_str (VStr "sql") "kubectl") with false.
  change (eq_str (VStr "sql") "sql") with true. cbv iota.
  unfold Eks.executeSQLLikeQuery, Eks.initializeKubeClient.
  rewrite Hk.
  pose proof (Hp Eks.Pods) as H1. pose proof (Hp Eks.Deployments) as H2.
  pose proof (Hp Eks.Services) as H3. pose proof (Hp Eks.Nodes) as H4.
  cbn [Facts.phrase] in H1, H2, H3, H4. rewrite H1, H2, H3, H4.
  unfold Eks.respond. step_handler.
  destruct (Eks.send c 500 _); reflexivity.
Qed.

(** X11.  Among the texts of code units below 256, a text whose first
    character is neither white space nor a letter [s] or [S] is no resource
    query: with the client set up, the request is answered with status 500
    and the [Unsupported SQL query] message, and no list call is made.
    Sharp s is such a first character: its upper case is [SS].  A text that
    opens with a comment line is such a text, whatever follows the
    comment. *)
Theorem text_not_opening_with_select_is_unsupported :
  forall (c : Eks.env) (a : ascii) (t : string),
    JsString.is_space a = false ->
    a <> "s"%char ->
    a <> "S"%char ->
    Eks.kubeconfig c = None ->
    Handler.trace_of (Eks.handle c (Scenario.sql_request (String a t)))
    = [Eks.InitializeKubeClient;
       Eks.Respond 500 (Eks.executionFailed Facts.unsupported (String a t))]
    /\ Forall (fun e => Facts.is_list_call e = false)
              (Handler.trace_of
                 (Eks.handle c (Scenario.sql_request (String a t)))).
Proof.
  intros c a t Ha Hs HS Hk.
  assert (Hp : forall k,
             JsString.startsWith
               (JsString.trim (JsString.toUpperCase (String a t)))
               (Facts.phrase k) = false).
  { intros k. destruct (ascii_dec a (ascii_of_nat 223)) as [E | Hne].
    - subst a. apply sharp_s_starts_no_phrase.
    - apply no_phrase_matches; [exact Ha | ].
      intros rest Hu.
      destruct (upper_case_starting_with_S _ Hu) as [E | [E | E]];
        contradiction. }
  rewrite (@phraseless_trace c (String a t)) by (discriminate || assumption).
  split; [reflexivity | repeat constructor].
Qed.

Lemma text_not_opening_with_select_is_unsupported_witness :
  Handler.trace_of
    (Eks.handle Scenario.two_pods (Scenario.sql_request Ui.sample_eks_sql))
  = [Eks.InitializeKubeClient;
     Eks.Respond 500 (Eks.executionFailed Facts.unsupported Ui.sample_eks_sql)].
Proof.
  refine (proj1 (@text_not_opening_with_select_is_unsupported Scenario.two_pods
           "-"%char
           ("- Kubernetes SQL-like Queries" ++ JsString.LF
            ++ Ui.lines ["SELECT * FROM PODS;";
                         EmptyString;
                         "-- Available tables:";
                         "-- SELECT * FROM NODES";
                         "-- SELECT * FROM DEPLOYMENTS";
                         "-- SELECT * FROM SERVICES"]) _ _ _ _)).
  - reflexivity.
  - discriminate.
  - discriminate.
  - reflexivity.
Defined.

(** A text that opens with sharp s is answered in the same way. *)
Example text_opening_with_sharp_s_is_unsupported :
  Handler.trace_of
    (Eks.handle Scenario.two_pods
       (Scenario.sql_request (String (ascii_of_nat 223) "ELECT * FROM PODS")))
  = [Eks.InitializeKubeClient;
     Eks.Respond 500
       (Eks.executionFailed Facts.unsupported
          (String (ascii_of_nat 223) "ELECT * FROM PODS"))].
Proof. reflexivity. Qed.

(** ** The formatter on arrays *)

Lemma mapM_throws (A B : Type) (f : A -> Js.result B) (xs : list A) :
  (exists x m, In x xs /\ f x = Throw m) -> exists m, mapM f xs = Throw m.
Proof.
  induction xs as [|y ys IH]; intros [x [m [Hin Hx]]]; [contradiction | ].
  simpl. destruct (f y) as [b | m'] eqn:Hy; cbn [Js.bind]; [ | eauto].
  destruct Hin as [E | Hin]; [subst; congruence | ].
  destruct IH as [m'' Hm]; [eauto | ]. rewrite Hm. cbn [Js.bind]. eauto.
Qed.

Lemma cells_of_present (c : Eks.env) (obj : value) (cols : list string) :
  nullish obj = false ->
  mapM (Eks.cell c obj) cols
  = Ok (map (fun col => or_else (Js.read (Eks.inherited c) obj col)
                                (VStr EmptyString)) cols).
Proof.
  intros H. apply mapM_map. intros col _.
  unfold Eks.cell, Js.index. rewrite H. reflexivity.
Qed.

(** X12.  The table the formatter builds from an array.  Whenever the
    formatter returns on a non-empty array, the result is a table whose
    columns are the keys of the first element and of no other, with one row
    per element and as many cells in every row as there are columns; keys
    that only later elements have are left out.  On the empty array it is
    the message [No results found]. *)
Theorem array_table_is_rectangular :
  forall (c : Eks.env) (items : list value) (data : value),
    Eks.formatKubernetesResult c (VArr items) = Ok data ->
    match items with
    | [] => data = Eks.message (VStr "No results found") 0
    | first :: _ =>
        exists cols rows,
          keys first = Ok cols
          /\ data = Eks.table (map VStr cols) rows
          /\ List.length rows = List.length items
          /\ Forall (fun row => List.length row = List.length cols) rows
    end.
Proof.
  intros c items data H. destruct items as [|first rest].
  - simpl in H. congruence.
  - apply format_array_inv in H. destruct H as [cols [rows [Hk [Hr Hd]]]].
    exists cols, rows. split; [exact Hk | split; [exact Hd | ]].
    apply mapM_Forall2 in Hr. split.
    + symmetry. exact (Forall2_length Hr).
    + clear - Hr. induction Hr as [|obj row objs rows' Hrow _ IH]; constructor.
      * apply mapM_Forall2 in Hrow. symmetry. exact (Forall2_length Hrow).
      * exact IH.
Qed.

Lemma array_table_is_rectangular_witness :
  exists cols rows,
    keys (VObj [("name", VStr "a")]) = Ok cols
    /\ Eks.table [VStr "name"] [[VStr "a"]; [VStr "b"]]
       = Eks.table (map VStr cols) rows
    /\ List.length rows = 2
    /\ Forall (fun row => List.length row = List.length cols) rows.
Proof.
  apply (@array_table_is_rectangular Scenario.two_pods
           [VObj [("name", VStr "a")];
            VObj [("name", VStr "b"); ("extra", VNum 1)]]).
  reflexivity.
Defined.

(** X13.  When the formatter fails on an array.  It throws exactly when
    the first element is [null] or [undefined], or when the first element
    has a key and some later element is [null] or [undefined]; on every
    other array it returns. *)
Theorem array_formatting_fails_on_missing_elements :
  forall (c : Eks.env) (first : value) (rest : list value),
    (exists m, Eks.formatKubernetesResult c (VArr (first :: rest)) = Throw m)
    <-> (nullish first = true
         \/ (keys first <> Ok [] /\ existsb nullish rest = true)).
Proof.
  intros c first rest. cbn [Eks.formatKubernetesResult].
  destruct (nullish first) eqn:Hf.
  - split; [auto | intros _].
    destruct first; try discriminate; simpl; eauto.
  - assert (Hk : exists cols, keys first = Ok cols).
    { destruct first; try discriminate; simpl; eauto. }
    destruct Hk as [cols Hk]. rewrite Hk. cbn [Js.bind mapM].
    rewrite (@cells_of_present c first cols Hf). cbn [Js.bind].
    destruct cols as [|col cols].
    + split.
      * intros [m H].
        rewrite (@mapM_map _ _ (fun obj => mapM (Eks.cell c obj) [])
                   (fun _ => []) rest) in H by reflexivity.
        discriminate.
      * intros [H | [H _]]; [discriminate | congruence].
    + destruct (existsb nullish rest) eqn:He.
      * split; [intros _; right; split; [discriminate | reflexivity] | intros _].
        apply existsb_exists in He. destruct He as [x [Hin Hx]].
        destruct (@mapM_throws _ _
                    (fun obj => mapM (Eks.cell c obj) (col :: cols)) rest)
          as [m Hm].
        { exists x. unfold Eks.cell at 1. cbn [mapM]. unfold Js.index.
          rewrite Hx. cbn [Js.bind]. eauto. }
        rewrite Hm. cbn [Js.bind]. eauto.
      * split; [ | intros [H | [_ H]]; discriminate].
        intros [m H].
        rewrite (@mapM_map _ _ (fun obj => mapM (Eks.cell c obj) (col :: cols))
                   (fun obj =>
                      map (fun k => or_else (Js.read (Eks.inherited c) obj k)
                                            (VStr EmptyString))
                          (col :: cols)) rest) in H.
        -- discriminate.
        -- intros obj Hin. apply cells_of_present.
           destruct (nullish obj) eqn:Hn; [ | reflexivity].
           assert (existsb nullish rest = true)
             by (apply existsb_exists; eauto).
           congruence.
Qed.


(** ** The read-only cluster routes *)

Lemma mapM_length (A B : Type) (f : A -> Js.result B) (xs : list A) (ys : list B) :
  mapM f xs = Ok ys -> List.length ys = List.length xs.
Proof.
  intros H. apply mapM_Forall2 in H. symmetry. exact (Forall2_length H).
Qed.

(** X14.  The connection test of the cluster.  When sending does not
    throw, the route answers exactly once: with status 200 when the client
    is set up, the nodes are listed and every node is summarised -- then
    [nodeCount] is the number of nodes listed and [nodes] holds one summary
    per node -- and otherwise with status 500 and [EKS connection failed].
    One node that cannot be summarised fails the whole test. *)
Theorem cluster_test_connection_counts_nodes :
  forall b : EksBrowse.env,
    (forall status body, Eks.send (EksBrowse.cluster b) status body = None) ->
    exists status body,
      Facts.cluster_responses
        (EksBrowse.trace_of_run (EksBrowse.get_test_connection b))
      = [(status, body)]
      /\ (status = 200 ->
          exists nodes summaries,
            Eks.listNode (EksBrowse.cluster b) = Ok nodes
            /\ mapM EksBrowse.summarize_node nodes = Ok summaries
            /\ prop (prop body "data") "nodeCount"
               = VNum (Z.of_nat (List.length nodes))
            /\ prop (prop body "data") "nodes" = VArr summaries
            /\ List.length summaries = List.length nodes)
      /\ (status <> 200 ->
          status = 500 /\ prop body "error" = VStr "EKS connection failed"
          /\ prop body "success" = VBool false).
Proof.
  intros b Hsend.
  unfold EksBrowse.trace_of_run, EksBrowse.get_test_connection,
    EksBrowse.initializeKubeClient, EksBrowse.respond.
  step_handler.
  destruct (Eks.kubeconfig (EksBrowse.cluster b)) as [m | ]; cbn [fst snd app].
  - rewrite Hsend. cbn. eexists 500, _. split; [reflexivity | ].
    split; [discriminate | auto].
  - destruct (Eks.listNode (EksBrowse.cluster b)) as [nodes | m];
      cbn [fst snd app].
    + destruct (mapM EksBrowse.summarize_node nodes) as [summaries | m] eqn:Hs;
        cbn [fst snd app]; rewrite Hsend; cbn.
      * eexists 200, _. split; [reflexivity | ]. split; [ | congruence].
        intros _. exists nodes, summaries.
        repeat split; auto. exact (mapM_length _ _ Hs).
      * eexists 500, _. split; [reflexivity | ]. split; [discriminate | auto].
    + rewrite Hsend. cbn. eexists 500, _. split; [reflexivity | ].
      split; [discriminate | auto].
Qed.

Lemma cluster_test_connection_counts_nodes_witness :
  exists status body,
    Facts.cluster_responses
      (EksBrowse.trace_of_run (EksBrowse.get_test_connection Cases.browse))
    = [(status, body)]
    /\ (status = 200 ->
        exists nodes summaries,
          Eks.listNode (EksBrowse.cluster Cases.browse) = Ok nodes
          /\ mapM EksBrowse.summarize_node nodes = Ok summaries
          /\ prop (prop body "data") "nodeCount"
             = VNum (Z.of_nat (List.length nodes))
          /\ prop (prop body "data") "nodes" = VArr summaries
          /\ List.length summaries = List.length nodes)
    /\ (status <> 200 ->
        status = 500 /\ prop body "error" = VStr "EKS connection failed"
        /\ prop body "success" = VBool false).
Proof.
  apply (@cluster_test_connection_counts_nodes Cases.browse).
  intros status body. reflexivity.
Defined.

Lemma project_namespace_present (ns : value) :
  Eks.holds ns "metadata" && Eks.holds ns "status" = true ->
  Js.bind (EksBrowse.project_namespace ns)
          (fun obj => Ok (EksBrowse.row_of ["name"; "status"; "created"] obj))
  = Ok (Facts.namespace_row ns).
Proof.
  intros H. apply andb_true_iff in H. destruct H as [Hm Hs].
  apply holds_inv in Hm. destruct Hm as [Ho Hm].
  apply holds_inv in Hs. destruct Hs as [_ Hs].
  unfold EksBrowse.project_namespace. present. reflexivity.
Qed.

Lemma projected_rows (items : list value) :
  forallb (fun ns => Eks.holds ns "metadata" && Eks.holds ns "status") items
  = true ->
  exists objs,
    mapM EksBrowse.project_namespace items = Ok objs
    /\ map (EksBrowse.row_of ["name"; "status"; "created"]) objs
       = map Facts.namespace_row items.
Proof.
  induction items as [|ns items IH]; intros H.
  - exists []. split; reflexivity.
  - simpl in H. apply andb_true_iff in H. destruct H as [Hns Hrest].
    destruct (IH Hrest) as [objs [Hobjs Hrows]].
    pose proof (project_namespace_present ns Hns) as Hp.
    destruct (EksBrowse.project_namespace ns) as [obj | m] eqn:Ho;
      cbn [Js.bind] in Hp; [ | discriminate].
    exists (obj :: objs). cbn [mapM map]. rewrite Ho, Hobjs. cbn [Js.bind].
    split; [reflexivity | ]. f_equal; [congruence | exact Hrows].
Qed.

(** X15.  The table of [/namespaces].  When the client is set up and
    every listed namespace has its [metadata] and [status], the route
    answers with a table of the three columns name, status, created and one
    row per namespace, in the order listed; the cells are the fields of the
    namespace as they are -- an absent field stays [undefined], the route
    puts no empty string in its place. *)
Theorem namespaces_table_holds_the_fields :
  forall (b : EksBrowse.env) (items : list value),
    Eks.kubeconfig (EksBrowse.cluster b) = None ->
    EksBrowse.listNamespace b = Ok items ->
    forallb (fun ns => Eks.holds ns "metadata" && Eks.holds ns "status") items
    = true ->
    exists rest,
      EksBrowse.trace_of_run (EksBrowse.get_namespaces b)
      = EksBrowse.InitializeKubeClient
        :: EksBrowse.ListNamespace
        :: EksBrowse.Respond 200
             (VObj [("success", VBool true);
                    ("data",
                     Eks.table [VStr "name"; VStr "status"; VStr "created"]
                               (map Facts.namespace_row items))])
        :: rest.
Proof.
  intros b items Hk Hl Hitems.
  destruct (projected_rows items Hitems) as [objs [Ho Hr]].
  unfold EksBrowse.trace_of_run, EksBrowse.get_namespaces,
    EksBrowse.initializeKubeClient, EksBrowse.respond.
  step_handler. rewrite Hk. cbn [fst snd app]. rewrite Hl. cbn [fst snd app].
  rewrite Ho. cbn [fst snd app]. rewrite Hr.
  destruct (Eks.send (EksBrowse.cluster b) 200 _); cbn [fst snd app];
    [destruct (Eks.send (EksBrowse.cluster b) 500 _) | ]; cbn [fst snd]; eauto.
Qed.

Lemma namespaces_table_holds_the_fields_witness :
  exists rest,
    EksBrowse.trace_of_run (EksBrowse.get_namespaces Cases.browse)
    = EksBrowse.InitializeKubeClient
      :: EksBrowse.ListNamespace
      :: EksBrowse.Respond 200
           (VObj [("success", VBool true);
                  ("data",
                   Eks.table [VStr "name"; VStr "status"; VStr "created"]
                             (map Facts.namespace_row
                                  [Cases.namespace_default]))])
      :: rest.
Proof.
  apply (@namespaces_table_holds_the_fields Cases.browse
           [Cases.namespace_default]).
  - reflexivity.
  - reflexivity.
  - reflexivity.
Defined.


(** ** The pods of a namespace *)
Lemma kept_are_the_ready (cs kept : list value) :
  EksBrowse.filterM EksBrowse.is_container_ready cs = Ok kept ->
  kept = filter (fun c => truthy (prop c "ready")) cs.
Proof.
  revert kept. induction cs as [|c cs IH]; simpl; intros kept H.
  - congruence.
  - unfold EksBrowse.is_container_ready at 1, get in H.
    destruct (nullish c); cbn [Js.bind] in H; [discriminate | ].
    destruct (EksBrowse.filterM EksBrowse.is_container_ready cs) as [k | m];
      cbn [Js.bind] in H; [ | discriminate].
    rewrite <- (IH k eq_refl).
    destruct (truthy (prop c "ready")); congruence.
Qed.

(** X16.  The counts of [/namespaces/:namespace/pods].  For every pod the
    route can project, [ready] is a number: the number of container
    statuses whose [ready] flag is truthy, 0 when the pod has no container
    statuses; and a restart count that is absent or 0 is projected as the
    number 0.  The row of the table holds both as they are: unlike the
    table of the execute route, this one keeps a 0. *)
Theorem namespaced_pod_counts_are_numbers :
  forall pod obj : value,
    EksBrowse.project_namespaced_pod pod = Ok obj ->
    exists (n : nat) (name status age restarts : value),
      EksBrowse.row_of ["name"; "status"; "ready"; "restarts"; "age"] obj
      = [name; status; VNum (Z.of_nat n); restarts; age]
      /\ (forall cs,
             prop (prop pod "status") "containerStatuses" = VArr cs ->
             n = List.length (filter (fun c => truthy (prop c "ready")) cs)
             /\ n <= List.length cs)
      /\ (nullish (prop (prop pod "status") "containerStatuses") = true ->
          n = 0)
      /\ (truthy (Eks.lenient pod ["status"; "containerStatuses"; "0";
                                   "restartCount"]) = false ->
          restarts = VNum 0).
Proof.
  intros pod obj H. unfold EksBrowse.project_namespaced_pod in H.
  destruct (Eks.path pod ["metadata"; "name"]) as [name | ] eqn:Pn;
    cbn [Js.bind] in H; [ | discriminate].
  destruct (Eks.path pod ["status"; "phase"]) as [status | ] eqn:Pp;
    cbn [Js.bind] in H; [ | discriminate].
  destruct (Eks.path pod ["status"; "containerStatuses"]) as [cs | ] eqn:Pc;
    cbn [Js.bind] in H; [ | discriminate].
  destruct (EksBrowse.ready_count cs) as [ready | ] eqn:R;
    cbn [Js.bind] in H; [ | discriminate].
  destruct (Eks.path pod ["metadata"; "creationTimestamp"]) as [age | ] eqn:Pa;
    cbn [Js.bind] in H; [ | discriminate].
  pose proof (@path_holds _ _ _ _ _ Pc) as Hh.
  apply holds_inv in Hh. destruct Hh as [Hpod Hst].
  apply path_two in Pc.
  assert (Hready : exists n,
             or_else ready (VNum 0) = VNum (Z.of_nat n)
             /\ (forall items, cs = VArr items ->
                 n = List.length (filter (fun c => truthy (prop c "ready")) items)
                 /\ n <= List.length items)
             /\ (nullish cs = true -> n = 0)).
  { unfold EksBrowse.ready_count in R. destruct (nullish cs) eqn:Hn.
    - exists 0. inversion R; subst ready. split; [reflexivity | ].
      split; [ | reflexivity].
      intros items Hi. rewrite Hi in Hn. discriminate.
    - destruct (Eks.array_method cs "pod.status.containerStatuses?" "filter")
        as [items | ] eqn:Ha; cbn [Js.bind] in R; [ | discriminate].
      destruct (EksBrowse.filterM EksBrowse.is_container_ready items)
        as [kept | ] eqn:Hk; cbn [Js.bind] in R; [ | discriminate].
      inversion R; subst ready.
      apply array_method_inv in Ha.
      apply kept_are_the_ready in Hk. subst kept.
      exists (List.length (filter (fun c => truthy (prop c "ready")) items)).
      split.
      + unfold or_else. cbn [truthy].
        destruct (Z.of_nat _ =? 0)%Z eqn:Hz; cbn [negb]; [ | reflexivity].
        apply Z.eqb_eq in Hz. rewrite Hz. reflexivity.
      + split; [ | discriminate].
        intros items' Hi. rewrite Ha in Hi. inversion Hi; subst items'.
        split; [reflexivity | apply filter_length_le]. }
  destruct Hready as [n [Hn [Hcs Hnull]]].
  inversion H; subst obj.
  exists n. eexists. eexists. eexists. eexists.
  split; [cbn; rewrite Hn; reflexivity | ].
  rewrite <- Pc.
  split; [exact Hcs | split; [exact Hnull | ]].
  unfold Eks.lenient. cbn [fold_left].
  rewrite (get_opt_present pod "status" Hpod).
  rewrite (get_opt_present (prop pod "status") "containerStatuses" Hst).
  rewrite <- Pc. intros Hr. unfold or_else. rewrite Hr. reflexivity.
Qed.

Lemma namespaced_pod_counts_are_numbers_witness :
  exists (n : nat) (name status age restarts : value),
    EksBrowse.row_of ["name"; "status"; "ready"; "restarts"; "age"]
                     Cases.pod_half_ready_projected
    = [name; status; VNum (Z.of_nat n); restarts; age]
    /\ (forall cs,
           prop (prop Cases.pod_half_ready "status") "containerStatuses"
           = VArr cs ->
           n = List.length (filter (fun c => truthy (prop c "ready")) cs)
           /\ n <= List.length cs)
    /\ (nullish (prop (prop Cases.pod_half_ready "status")
                      "containerStatuses") = true ->
        n = 0)
    /\ (truthy (Eks.lenient Cases.pod_half_ready
                  ["status"; "containerStatuses"; "0"; "restartCount"])
        = false ->
        restarts = VNum 0).
Proof.
  apply (@namespaced_pod_counts_are_numbers Cases.pod_half_ready
           Cases.pod_half_ready_projected).
  reflexivity.
Defined.


(** ** Failure to set up the client *)

(** X17.  When the configuration of the cluster cannot be loaded, every
    route that needs the client answers once, with status 500 and the
    message of the loader, and makes no call to the cluster: the resource
    queries, whatever their text, and the three read-only routes.  Native
    commands do not set up the client. *)
Theorem client_failure_is_reported_by_every_route :
  forall (b : EksBrowse.env) (m q namespace : string),
    Eks.kubeconfig (EksBrowse.cluster b) = Some m ->
    q <> EmptyString ->
    Handler.trace_of
      (Eks.handle (EksBrowse.cluster b) (Scenario.sql_request q))
    = [Eks.InitializeKubeClient; Eks.Respond 500 (Eks.executionFailed m q)]
    /\ EksBrowse.trace_of_run (EksBrowse.get_test_connection b)
       = [EksBrowse.InitializeKubeClient;
          EksBrowse.Respond 500 (EksBrowse.failed "EKS connection failed" m)]
    /\ EksBrowse.trace_of_run (EksBrowse.get_namespaces b)
       = [EksBrowse.InitializeKubeClient;
          EksBrowse.Respond 500
            (EksBrowse.failed "Failed to fetch namespaces" m)]
    /\ EksBrowse.trace_of_run (EksBrowse.get_namespaced_pods b namespace)
       = [EksBrowse.InitializeKubeClient;
          EksBrowse.Respond 500 (EksBrowse.failed "Failed to fetch pods" m)].
Proof.
  intros b m q namespace Hk Hq. split; [ | split; [ | split]].
  - unfold Eks.handle, Eks.post_execute, Scenario.sql_request.
    cbn [Eks.query Eks.queryType].
    rewrite (nonempty_truthy Hq). cbn [negb orb is_string text].
    change (eq_str (VStr "sql") "kubectl") with false.
    change (eq_str (VStr "sql") "sql") with true. cbv iota.
    unfold Eks.executeSQLLikeQuery, Eks.initializeKubeClient.
    rewrite Hk. unfold Eks.respond. step_handler.
    destruct (Eks.send (EksBrowse.cluster b) 500 _); reflexivity.
  - unfold EksBrowse.trace_of_run, EksBrowse.get_test_connection,
      EksBrowse.initializeKubeClient, EksBrowse.respond.
    rewrite Hk. step_handler.
    destruct (Eks.send (EksBrowse.cluster b) 500 _); reflexivity.
  - unfold EksBrowse.trace_of_run, EksBrowse.get_namespaces,
      EksBrowse.initializeKubeClient, EksBrowse.respond.
    rewrite Hk. step_handler.
    destruct (Eks.send (EksBrowse.cluster b) 500 _); reflexivity.
  - unfold EksBrowse.trace_of_run, EksBrowse.get_namespaced_pods,
      EksBrowse.initializeKubeClient, EksBrowse.respond.
    rewrite Hk. step_handler.
    destruct (Eks.send (EksBrowse.cluster b) 500 _); reflexivity.
Qed.

Lemma client_failure_is_reported_by_every_route_witness :
  EksBrowse.trace_of_run
    (EksBrowse.get_namespaced_pods Cases.browse_without_config "default")
  = [EksBrowse.InitializeKubeClient;
     EksBrowse.Respond 500
       (EksBrowse.failed "Failed to fetch pods"
                         "ENOENT: no such file or directory")].
Proof.
  refine (proj2 (proj2 (proj2
    (@client_failure_is_reported_by_every_route Cases.browse_without_config
       "ENOENT: no such file or directory" "SELECT * FROM PODS" "default"
       _ _)))).
  - reflexivity.
  - discriminate.
Defined.


(** ** The editor component *)

Module EditorFacts.

Import Facts.

Lemma append_empty (s : string) : s ++ EmptyString = s.
Proof. induction s; simpl; congruence. Qed.

Lemma rev_empty (s : string) : JsString.rev s = EmptyString -> s = EmptyString.
Proof.
  intros H. rewrite <- (StringFacts.rev_involutive s), H. reflexivity.
Qed.

(** [trim] gives the empty text exactly on the texts of white space. *)
Lemma trim_empty_iff_blank (s : string) :
  JsString.trim s = EmptyString <-> blank s.
Proof.
  split.
  - intros H.
    destruct (StringFacts.trimStart_split s) as [lead [E [Hl Hu]]].
    destruct (JsString.trimStart s) as [|a r] eqn:Hs.
    + rewrite append_empty in E. subst s. exact Hl.
    + exfalso. unfold JsString.trim in H. rewrite Hs in H.
      simpl in Hu. destruct (JsString.is_space a) eqn:Ha; [discriminate | ].
      destruct (@StringFacts.trimEnd_keeps_prefix (String a EmptyString) r)
        as [u Hu'].
      * exists EmptyString, a. split; [reflexivity | exact Ha].
      * simpl in Hu'. rewrite Hu' in H. discriminate.
  - intros H. unfold JsString.trim.
    rewrite <- (append_empty s), (StringFacts.trimStart_app EmptyString H).
    reflexivity.
Qed.

Lemma truthy_trim (s : string) :
  truthy (VStr (JsString.trim s)) = false <-> blank s.
Proof.
  rewrite <- trim_empty_iff_blank. cbn [truthy].
  rewrite negb_false_iff. apply String.eqb_eq.
Qed.

Lemma or_else_truthy (x d : value) :
  truthy d = true -> truthy (or_else x d) = true.
Proof.
  intros H. unfold or_else. destruct (truthy x) eqn:Hx; assumption.
Qed.

End EditorFacts.

(** X18.  What the editor sends when Execute is pressed.  A text of white
    space alone is not sent: the handler sets the error [Please enter a
    query] and touches nothing else.  Any other text is sent once, as it
    stands in the editor, with [POST] to the execute route of the selected
    connection; the query type sent is the selected one for the cluster and
    [sql] for the warehouse.  The routes therefore never receive a text of
    white space alone from the editor. *)
Theorem editor_sends_a_text_unless_blank :
  forall (net : Ui.network) (s : Ui.state),
    (Facts.blank (Ui.query s) ->
     Ui.executeQuery net s
     = (Ui.setError (VStr "Please enter a query") s, []))
    /\ (~ Facts.blank (Ui.query s) ->
        exists req,
          snd (Ui.executeQuery net s) = [req]
          /\ Ui.method req = "POST"
          /\ prop (Ui.body req) "query" = VStr (Ui.query s)
          /\ match Ui.connectionType s with
             | Ui.snowflake =>
                 Ui.url req = "http://localhost:3001/api/snowflake/execute"
                 /\ prop (Ui.body req) "queryType" = VStr "sql"
             | Ui.eks =>
                 Ui.url req = "http://localhost:3001/api/eks/execute"
                 /\ prop (Ui.body req) "queryType"
                    = VStr (Ui.queryType_name (Ui.queryType s))
             end).
Proof.
  intros net s. unfold Ui.executeQuery. split; intros H.
  - apply EditorFacts.truthy_trim in H. rewrite H. reflexivity.
  - destruct (truthy (VStr (JsString.trim (Ui.query s)))) eqn:Ht.
    + cbn [negb snd]. eexists. split; [reflexivity | ].
      unfold Ui.execute_request. cbn [Ui.method Ui.body Ui.url].
      split; [reflexivity | ]. split; [reflexivity | ].
      destruct (Ui.connectionType s); split; reflexivity.
    + apply EditorFacts.truthy_trim in Ht. contradiction.
Qed.

Lemma editor_sends_a_text_unless_blank_witness :
  Ui.executeQuery (Stack.network Scenario.warehouse_up Scenario.two_pods)
    (Ui.setQuery ("  " ++ JsString.LF) Ui.initial)
  = (Ui.setError (VStr "Please enter a query")
       (Ui.setQuery ("  " ++ JsString.LF) Ui.initial), []).
Proof.
  apply (proj1 (editor_sends_a_text_unless_blank
                  (Stack.network Scenario.warehouse_up Scenario.two_pods)
                  (Ui.setQuery ("  " ++ JsString.LF) Ui.initial))).
  reflexivity.
Defined.

(** X19.  How a run of Execute ends, whatever the backend answers and
    however the request fails.  A text that is sent leaves the editor not
    executing, with the text and the selections as they were, and in one of
    two states: no error and the [data] of a reply whose [success] is
    truthy as results; or an error that is shown (a truthy value) and no
    results.  The results of an earlier run do not survive. *)
Theorem execute_ends_with_results_or_an_error :
  forall (net : Ui.network) (s : Ui.state),
    ~ Facts.blank (Ui.query s) ->
    let s' := fst (Ui.executeQuery net s) in
    Ui.isExecuting s' = false
    /\ Ui.query s' = Ui.query s
    /\ Ui.connectionType s' = Ui.connectionType s
    /\ Ui.queryType s' = Ui.queryType s
    /\ Ui.connectionStatus s' = Ui.connectionStatus s
    /\ ((Ui.error s' = VNull
         /\ exists data,
             net (Ui.execute_request s) = Ui.Json data
             /\ truthy (prop data "success") = true
             /\ Ui.results s' = prop data "data")
        \/ (truthy (Ui.error s') = true /\ Ui.results s' = VNull)).
Proof.
  intros net s H s'. subst s'. unfold Ui.executeQuery.
  destruct (truthy (VStr (JsString.trim (Ui.query s)))) eqn:Ht;
    [ | apply EditorFacts.truthy_trim in Ht; contradiction].
  cbn [negb fst].
  destruct (net (Ui.execute_request s)) as [data | m]; cbn [Ui.reading].
  - unfold get. destruct (nullish data) eqn:Hn; cbn [Js.bind].
    + cbn. repeat split. right. split; [ | reflexivity].
      first [reflexivity | apply EditorFacts.or_else_truthy; reflexivity].
    + destruct (truthy (prop data "success")) eqn:Hs.
      * cbn. repeat split. left. split; [reflexivity | ].
        exists data. auto.
      * cbn. repeat split. right. split; [ | reflexivity].
        first [reflexivity | apply EditorFacts.or_else_truthy; reflexivity].
  - cbn. repeat split. right. split; [ | reflexivity].
    first [reflexivity | apply EditorFacts.or_else_truthy; reflexivity].
Qed.

Lemma execute_ends_with_results_or_an_error_witness :
  Ui.isExecuting
    (fst (Ui.executeQuery
            (Stack.network Scenario.warehouse_up Scenario.two_pods)
            Ui.initial)) = false.
Proof.
  apply (@execute_ends_with_results_or_an_error
           (Stack.network Scenario.warehouse_up Scenario.two_pods) Ui.initial).
  unfold Facts.blank. vm_compute. discriminate.
Defined.

(** X20.  How a connection test ends, whatever the backend answers.  One
    [GET] request without a body goes to the test route of the selected
    connection.  The status never stays [connecting]: it ends [connected],
    with no error and the [data] of a reply whose [success] is truthy as
    results, or [error], with an error that is shown and the results left
    as they were.  The text of the editor is not touched. *)
Theorem connection_test_ends_connected_or_in_error :
  forall (net : Ui.network) (s : Ui.state),
    let s' := fst (Ui.testConnection net s) in
    snd (Ui.testConnection net s) = [Ui.test_request s]
    /\ Ui.body (Ui.test_request s) = VUndefined
    /\ Ui.query s' = Ui.query s
    /\ Ui.isExecuting s' = Ui.isExecuting s
    /\ ((Ui.connectionStatus s' = Ui.connected
         /\ Ui.error s' = VNull
         /\ exists data,
             net (Ui.test_request s) = Ui.Json data
             /\ truthy (prop data "success") = true
             /\ Ui.results s' = prop data "data")
        \/ (Ui.connectionStatus s' = Ui.errored
            /\ truthy (Ui.error s') = true
            /\ Ui.results s' = Ui.results s)).
Proof.
  intros net s s'. subst s'. unfold Ui.testConnection. cbn [fst snd].
  split; [reflexivity | ]. split; [reflexivity | ].
  destruct (net (Ui.test_request s)) as [data | m]; cbn [Ui.reading].
  - unfold get. destruct (nullish data) eqn:Hn; cbn [Js.bind].
    + cbn. repeat split. right. repeat split; try (apply EditorFacts.or_else_truthy; reflexivity).
    + destruct (truthy (prop data "success")) eqn:Hs.
      * cbn. repeat split. left. repeat split. exists data. auto.
      * cbn. repeat split. right. repeat split; try (apply EditorFacts.or_else_truthy; reflexivity).
  - cbn. repeat split. right. repeat split; try (apply EditorFacts.or_else_truthy; reflexivity).
Qed.

(** X21.  The query type matters for the cluster only.  While the
    warehouse is selected, changing the query type changes neither the
    text nor what Execute sends nor the language of the editor, which stays
    [sql]; while the cluster is selected, it replaces the text by the
    sample of the new type, and the language is [shell] exactly for
    [kubectl]. *)
Theorem query_type_matters_for_the_cluster_only :
  forall (t : Ui.QueryType) (s : Ui.state),
    let s' := Ui.handleQueryTypeChange t s in
    (Ui.connectionType s = Ui.snowflake ->
     Ui.query s' = Ui.query s
     /\ Ui.execute_request s' = Ui.execute_request s
     /\ (forall net, snd (Ui.executeQuery net s') = snd (Ui.executeQuery net s))
     /\ Ui.getEditorLanguage s' = "sql")
    /\ (Ui.connectionType s = Ui.eks ->
        Ui.query s' = Ui.sample_eks t
        /\ (Ui.getEditorLanguage s' = "shell" <-> t = Ui.kubectl)
        /\ prop (Ui.body (Ui.execute_request s')) "queryType"
           = VStr (Ui.queryType_name t)).
Proof.
  intros t s s'. subst s'. unfold Ui.handleQueryTypeChange. split; intros H.
  - rewrite H.
    assert (R : Ui.execute_request (Ui.setQueryType t s) = Ui.execute_request s).
    { unfold Ui.execute_request. cbn. rewrite H. reflexivity. }
    split; [reflexivity | ]. split; [exact R | ]. split.
    + intros net. unfold Ui.executeQuery. rewrite R. cbn [Ui.setQueryType Ui.query].
      destruct (negb _); reflexivity.
    + unfold Ui.getEditorLanguage. cbn. rewrite H. reflexivity.
  - rewrite H. split; [reflexivity | ]. split.
    + unfold Ui.getEditorLanguage. cbn. rewrite H.
      destruct t; split; intros E; try reflexivity; discriminate.
    + unfold Ui.execute_request. cbn. rewrite H. reflexivity.
Qed.

Lemma query_type_matters_for_the_cluster_only_witness :
  Ui.getEditorLanguage (Ui.handleQueryTypeChange Ui.kubectl Ui.initial) = "sql".
Proof.
  apply (proj1 (query_type_matters_for_the_cluster_only Ui.kubectl Ui.initial)).
  reflexivity.
Defined.

(** X22.  The text of a table cell in the editor, [String(cell || '')]:
    every falsy value -- [undefined], [null], [false], 0, the empty string
    -- is shown as the empty text, so a restart count of 0 that a route
    keeps is blank on the screen as well; and the [|| ''] of the formatter
    changes nothing of what is shown. *)
Theorem editor_blanks_falsy_cells :
  forall x : value,
    (truthy x = false -> Ui.cell_text x = EmptyString)
    /\ Ui.cell_text (or_else x (VStr EmptyString)) = Ui.cell_text x.
Proof.
  intros x. unfold Ui.cell_text, or_else. split.
  - intros H. rewrite H. reflexivity.
  - destruct (truthy x) eqn:H; [rewrite H; reflexivity | reflexivity].
Qed.

Lemma editor_blanks_falsy_cells_witness :
  Ui.cell_text (VNum 0) = EmptyString.
Proof.
  apply (proj1 (editor_blanks_falsy_cells (VNum 0))). reflexivity.
Defined.


(** ** The editor in front of the routes *)

(** X23.  The sample the editor loads for the cluster is no resource
    query.  After the cluster is selected, Execute sends the sample text
    as a resource query; the text opens with a comment line, so the route
    answers 500 and the editor ends with the [Unsupported SQL query]
    message as its error and no results -- whatever the cluster holds and
    whatever the editor showed before. *)
Theorem cluster_sample_query_is_unsupported :
  forall (w : Snowflake.env) (c : Eks.env) (s : Ui.state),
    Eks.kubeconfig c = None ->
    let s1 := Ui.handleConnectionTypeChange Ui.eks s in
    let s2 := fst (Ui.executeQuery (Stack.network w c) s1) in
    Ui.query s1 = Ui.sample_eks_sql
    /\ Ui.error s2 = VStr Facts.unsupported
    /\ Ui.results s2 = VNull
    /\ Ui.isExecuting s2 = false.
Proof.
  intros w c s Hk s1 s2. subst s1 s2.
  split; [reflexivity | ].
  unfold Ui.executeQuery.
  change (Ui.query (Ui.handleConnectionTypeChange Ui.eks s))
    with Ui.sample_eks_sql.
  change (truthy (VStr (JsString.trim Ui.sample_eks_sql)))
    with true.
  cbn [negb fst].
  assert (R : Stack.network w c
                (Ui.execute_request (Ui.handleConnectionTypeChange Ui.eks s))
              = Ui.Json (Eks.executionFailed Facts.unsupported
                           Ui.sample_eks_sql)).
  { unfold Stack.network, Ui.execute_request.
    change (Ui.connectionType (Ui.handleConnectionTypeChange Ui.eks s))
      with Ui.eks.
    change (Ui.queryType (Ui.handleConnectionTypeChange Ui.eks s))
      with Ui.sql.
    change (Ui.query (Ui.handleConnectionTypeChange Ui.eks s))
      with Ui.sample_eks_sql.
    cbn [Ui.url Ui.body Ui.queryType_name].
    change ((Ui.origin ++ "/api/eks/execute"
             =? Ui.origin ++ "/api/snowflake/execute")%string) with false.
    change ((Ui.origin ++ "/api/eks/execute"
             =? Ui.origin ++ "/api/eks/execute")%string) with true.
    cbv iota.
    change (prop (VObj [("query", VStr Ui.sample_eks_sql);
                        ("queryType", VStr "sql")]) "query")
      with (VStr Ui.sample_eks_sql).
    change (prop (VObj [("query", VStr Ui.sample_eks_sql);
                        ("queryType", VStr "sql")]) "queryType")
      with (VStr "sql").
    fold (Scenario.sql_request Ui.sample_eks_sql).
    change Ui.sample_eks_sql
      with (String "-"%char
              ("- Kubernetes SQL-like Queries" ++ JsString.LF
               ++ Ui.lines ["SELECT * FROM PODS;";
                            EmptyString;
                            "-- Available tables:";
                            "-- SELECT * FROM NODES";
                            "-- SELECT * FROM DEPLOYMENTS";
                            "-- SELECT * FROM SERVICES"])).
    rewrite unsupported_trace;
      [reflexivity | reflexivity | intros rest; vm_compute; discriminate
       | exact Hk]. }
  rewrite R. repeat split.
Qed.

Lemma cluster_sample_query_is_unsupported_witness :
  Ui.error
    (fst (Ui.executeQuery
            (Stack.network Scenario.warehouse_up Scenario.two_pods)
            (Ui.handleConnectionTypeChange Ui.eks Ui.initial)))
  = VStr Facts.unsupported.
Proof.
  apply (@cluster_sample_query_is_unsupported
           Scenario.warehouse_up Scenario.two_pods Ui.initial).
  reflexivity.
Defined.

(** X24.  The sample the editor loads for native commands carries its
    comments into the command.  After [kubectl] is selected for the
    cluster, Execute sends the sample text; the route spawns the tool once,
    with the verb [get] and, as arguments, every further word of the text:
    the [#] signs and the words of the comment lines included. *)
Theorem sample_command_passes_its_comments_as_arguments :
  forall (c : Eks.env) (s : Ui.state),
    Ui.connectionType s = Ui.eks ->
    let req := Ui.execute_request (Ui.handleQueryTypeChange Ui.kubectl s) in
    filter Eks.is_backend_call
      (Handler.trace_of
         (Eks.handle c {| Eks.query := prop (Ui.body req) "query";
                          Eks.queryType := prop (Ui.body req) "queryType" |}))
    = [Eks.Spawn "get"
         ["pods"; "--all-namespaces";
          "#"; "Other"; "kubectl"; "commands:";
          "#"; "get"; "nodes";
          "#"; "get"; "deployments";
          "#"; "get"; "services";
          "#"; "describe"; "pod"; "<pod-name>";
          "#"; "logs"; "<pod-name>"]].
Proof.
  intros c s H req. subst req.
  unfold Ui.execute_request, Ui.handleQueryTypeChange. rewrite H.
  cbn [Ui.body Ui.setQuery Ui.setQueryType Ui.connectionType Ui.queryType
       Ui.query Ui.queryType_name Ui.sample_eks].
  rewrite H.
  change (prop (VObj [("query", VStr Ui.sample_eks_kubectl);
                      ("queryType", VStr "kubectl")]) "query")
    with (VStr Ui.sample_eks_kubectl).
  change (prop (VObj [("query", VStr Ui.sample_eks_kubectl);
                      ("queryType", VStr "kubectl")]) "queryType")
    with (VStr "kubectl").
  rewrite allowed_command_backend_calls.
  - vm_compute. reflexivity.
  - vm_compute. discriminate.
  - right. reflexivity.
  - vm_compute. tauto.
Qed.

Lemma sample_command_passes_its_comments_as_arguments_witness :
  let req :=
    Ui.execute_request
      (Ui.handleQueryTypeChange Ui.kubectl
         (Ui.handleConnectionTypeChange Ui.eks Ui.initial)) in
  filter Eks.is_backend_call
    (Handler.trace_of
       (Eks.handle Scenario.two_pods
          {| Eks.query := prop (Ui.body req) "query";
             Eks.queryType := prop (Ui.body req) "queryType" |}))
  = [Eks.Spawn "get"
       ["pods"; "--all-namespaces";
        "#"; "Other"; "kubectl"; "commands:";
        "#"; "get"; "nodes";
        "#"; "get"; "deployments";
        "#"; "get"; "services";
        "#"; "describe"; "pod"; "<pod-name>";
        "#"; "logs"; "<pod-name>"]].
Proof.
  apply (@sample_command_passes_its_comments_as_arguments Scenario.two_pods
           (Ui.handleConnectionTypeChange Ui.eks Ui.initial)).
  reflexivity.
Defined.
